(** * Game news to Discord: the delta-detection and notification pipeline

    A shallow embedding of the two scrapers of the repository,

    - [ArcRaiders]: the Arc Raiders scraper (date-only timestamps, state
      record [{last_published, posted_urls}]);
    - [Nightreign]: [nightreign/check-news.js] (full timestamps, state
      record [{last_published}]);

    over a small model of the JavaScript values they manipulate ([JS]) and
    of the effects they perform ([Run]): the state file, the network, the
    timers and the console. *)

From Stdlib Require Import ZArith QArith Qabs Qround List String Ascii Bool Lia.
From Stdlib Require Import Sorting.Sorted Sorting.Permutation.
From Stdlib Require Import DecimalString DecimalPos DecimalZ.
Import ListNotations.

Local Open Scope string_scope.
Local Open Scope list_scope.
Local Open Scope Z_scope.

(* ================================================================== *)
(** * JavaScript values *)
(* ================================================================== *)

Module JS.

(** ** Numbers

    The finite numbers are kept exact (rationals); signed zeros are
    identified, which no operation below can tell apart. *)

Inductive number : Type :=
| NaN
| NegInfinity
| PosInfinity
| Num (q : Q).

Definition of_Z (z : Z) : number := Num (inject_Z z).

Definition isNaN (x : number) : bool :=
  match x with NaN => true | _ => false end.

(** [x > y] *)
Definition gt (x y : number) : bool :=
  match x, y with
  | NaN, _ | _, NaN => false
  | NegInfinity, _ => false
  | _, PosInfinity => false
  | PosInfinity, _ => true
  | Num _, NegInfinity => true
  | Num a, Num b => negb (Qle_bool a b)
  end.

(** [x === y] on numbers *)
Definition strict_eq (x y : number) : bool :=
  match x, y with
  | NegInfinity, NegInfinity => true
  | PosInfinity, PosInfinity => true
  | Num a, Num b => Qeq_bool a b
  | _, _ => false
  end.

(** [x - y] *)
Definition sub (x y : number) : number :=
  match x, y with
  | NaN, _ | _, NaN => NaN
  | NegInfinity, NegInfinity => NaN
  | PosInfinity, PosInfinity => NaN
  | NegInfinity, _ => NegInfinity
  | PosInfinity, _ => PosInfinity
  | Num _, NegInfinity => PosInfinity
  | Num _, PosInfinity => NegInfinity
  | Num a, Num b => Num (a - b)
  end.

(** [x * y] for a finite [y] *)
Definition scale (x : number) (k : Q) : number :=
  match x with
  | NaN => NaN
  | Num a => Num (a * k)
  | PosInfinity =>
      if Qeq_bool k 0 then NaN
      else if Qle_bool 0 k then PosInfinity else NegInfinity
  | NegInfinity =>
      if Qeq_bool k 0 then NaN
      else if Qle_bool 0 k then NegInfinity else PosInfinity
  end.

(** ToBoolean on numbers: [NaN] and zero are falsy. *)
Definition truthy (x : number) : bool :=
  match x with
  | NaN => false
  | Num a => negb (Qeq_bool a 0)
  | _ => true
  end.

(** [x || d] on numbers *)
Definition or_else (x d : number) : number :=
  if truthy x then x else d.

(** [Math.max(...xs)]: starts from [-Infinity]; a [NaN] argument makes the
    result [NaN]. *)
Definition max_step (highest x : number) : number :=
  match highest with
  | NaN => NaN
  | _ => if isNaN x then NaN else if gt x highest then x else highest
  end.

Definition Math_max (xs : list number) : number :=
  fold_left max_step xs NegInfinity.

(** [Math.min(...xs)]: starts from [+Infinity]. *)
Definition min_step (lowest x : number) : number :=
  match lowest with
  | NaN => NaN
  | _ => if isNaN x then NaN else if gt lowest x then x else lowest
  end.

Definition Math_min (xs : list number) : number :=
  fold_left min_step xs PosInfinity.

(** ** Dates

    A [Date] object is its time value: an integral number of milliseconds
    since the epoch, or [NaN] ("Invalid Date"). *)

Inductive Date : Type :=
| InvalidDate
| DateOf (t : Z).

Definition maxTime : Z := 8640000000000000.

(** Truncation toward zero (ToIntegerOrInfinity on a finite number). *)
Definition trunc (q : Q) : Z :=
  if Qle_bool 0 q then Qfloor q else Qceiling q.

(** TimeClip *)
Definition TimeClip (x : number) : Date :=
  match x with
  | Num q =>
      if Qle_bool (Qabs q) (inject_Z maxTime) then DateOf (trunc q)
      else InvalidDate
  | _ => InvalidDate
  end.

(** [new Date(number)] *)
Definition new_Date (x : number) : Date := TimeClip x.

(** [date.valueOf()], [date.getTime()], and ToNumber on a date *)
Definition getTime (d : Date) : number :=
  match d with
  | InvalidDate => NaN
  | DateOf t => of_Z t
  end.

(** [new Date(date)]: a copy with the same time value *)
Definition copy_Date (d : Date) : Date := new_Date (getTime d).

(** [d1 > d2] on dates: both operands go through ToNumber. *)
Definition Date_gt (d1 d2 : Date) : bool := gt (getTime d1) (getTime d2).

(** [d1.getTime() === d2.getTime()] *)
Definition same_time (d1 d2 : Date) : bool :=
  strict_eq (getTime d1) (getTime d2).

(** [isNaN(date)] *)
Definition isNaN_Date (d : Date) : bool := isNaN (getTime d).

(** A date as the constructors of the language make them: invalid, or a
    time value within the range of [TimeClip]. *)
Definition in_range (d : Date) : Prop :=
  match d with
  | InvalidDate => True
  | DateOf t => Z.abs t <= maxTime
  end.

(** A valid date: a time value within range. *)
Definition valid (d : Date) : Prop :=
  match d with
  | InvalidDate => False
  | DateOf t => Z.abs t <= maxTime
  end.

(** The largest element of a list of time values. *)
Definition greatest (m : Z) (ts : list Z) : Prop :=
  In m ts /\ Forall (fun t => t <= m) ts.

(** Ascending order under a key. *)
Definition key_le {A} (key : A -> Z) (x y : A) : Prop := key x <= key y.

(** Decimal digits of an integer, as template literals print a status. *)
Definition Z_to_string (z : Z) : string :=
  NilZero.string_of_int (Z.to_int z).

(** ** Exceptions *)

Inductive exn : Type :=
| TypeError (message : string)
| RangeError (message : string)
| ReferenceError (message : string)
| SyntaxError
| Error (message : string).

(** ** Parsed JSON documents *)

#[local] Unset Elimination Schemes.

Inductive json : Type :=
| JNull
| JBool (b : bool)
| JNum (n : number)
| JStr (s : string)
| JArr (elements : list json)
| JObj (members : list (string * json)).

#[local] Set Elimination Schemes.

(** ToBoolean *)
Definition json_truthy (v : json) : bool :=
  match v with
  | JNull => false
  | JBool b => b
  | JNum n => truthy n
  | JStr s => negb (String.eqb s "")
  | JArr _ | JObj _ => true
  end.

(** Own property lookup in a parsed object: of duplicate keys the last one
    in the document wins. *)
Fixpoint member (key : string) (members : list (string * json)) : option json :=
  match members with
  | [] => None
  | (k, v) :: rest =>
      match member key rest with
      | Some v' => Some v'
      | None => if String.eqb k key then Some v else None
      end
  end.

(** [Array.isArray(v) ? v : []] *)
Definition array_or_empty (v : option json) : list json :=
  match v with
  | Some (JArr elements) => elements
  | _ => []
  end.

(** [array.includes(s)] for a string [s] (SameValueZero): only a string
    element with the same characters matches. *)
Definition includes (array : list json) (s : string) : bool :=
  existsb (fun v => match v with JStr s' => String.eqb s' s | _ => false end) array.

(** ** [Array.prototype.sort]

    The built-in sort is stable.  It is modelled as a stable insertion
    sort driven by the comparator: an element moves behind those the
    comparator puts strictly before it (result [> 0]; a [NaN] result counts
    as [0]).  For a comparator that is a consistent order, every stable
    sort returns this same array. *)

Fixpoint insert {A} (cmp : A -> A -> number) (x : A) (sorted : list A) : list A :=
  match sorted with
  | [] => [x]
  | y :: rest =>
      if gt (cmp x y) (of_Z 0) then y :: insert cmp x rest
      else x :: sorted
  end.

Definition sort {A} (cmp : A -> A -> number) (array : list A) : list A :=
  fold_right (insert cmp) [] array.

(** ** Built-in functions

    The library functions the scrapers call and whose algorithms are not
    part of the repository. *)

Class builtins : Type := {
  (** [Date.parse(s)]: a time value or [NaN] *)
  Date_parse : string -> number;
  (** [date.toISOString()] on the valid time value [t] *)
  ISO_string : Z -> string;
  (** [Number(s)] on a string *)
  String_to_number : string -> number;
  (** [new URL(href, base).href]; [None] when the constructor throws *)
  URL_href : string -> string -> option string;
  (** [array.toString()] on a parsed JSON array *)
  Array_to_string : list json -> string
}.

(** ECMAScript guarantees that [Date.parse(d.toISOString())] is the time
    value of [d]; the string is never empty. *)
Definition iso_round_trip (BI : builtins) : Prop :=
  forall t, Z.abs t <= maxTime ->
            ISO_string t <> "" /\ Date_parse (ISO_string t) = of_Z t.

(** [new Date(v)] on a parsed JSON value: strings are parsed, objects are
    first converted to a primitive string, the rest goes through ToNumber. *)
Definition new_Date_json `{builtins} (v : json) : Date :=
  match v with
  | JNull => TimeClip (of_Z 0)
  | JBool b => TimeClip (of_Z (if b then 1 else 0))
  | JNum n => TimeClip n
  | JStr s => TimeClip (Date_parse s)
  | JArr elements => TimeClip (Date_parse (Array_to_string elements))
  | JObj _ => TimeClip (Date_parse "[object Object]")
  end.

(** [Number(header)] where [header] is [null] or a string *)
Definition Number_of_header `{builtins} (h : option string) : number :=
  match h with
  | None => of_Z 0
  | Some s => String_to_number s
  end.

End JS.

(* ================================================================== *)
(** * Effects of one run *)
(* ================================================================== *)

Module Run.
Import JS.

(** The state file, identified with what [JSON.parse] makes of its text.
    An unreadable file is treated like an unparseable one: both make the
    guarded block of the loaders throw. *)
Inductive file : Type :=
| Missing
| Unparseable
| Parsed (raw : json).

Inductive request : Type :=
| GET (url : string)
| POST (url : string) (content : string).

Inductive console : Type :=
| FetchAttemptBlocked (attempt : nat) (status : Z)
| FetchAttemptFailed (attempt : nat) (message : string)
| FetchAbandoned
| OlderPostsMayBeMissed
| FailedToPost (title : string) (err : exn).

Inductive event : Type :=
| Requested (r : request)
| Slept (ms : number)
| Logged (c : console).

Inductive outcome (A : Type) : Type :=
| Returned (a : A)
| Thrown (e : exn).

Arguments Returned {A} a.
Arguments Thrown {A} e.

Section World.

(** What a response body is to the scraper that reads it. *)
Variable page : Type.

Record response : Type := {
  status : Z;
  retry_after : option string;
  body : page
}.

Inductive fetch_result : Type :=
| Rejected (message : string)
| Responded (res : response).

(** [res.ok] *)
Definition ok (res : response) : bool :=
  (200 <=? status res) && (status res <=? 299).

(** The world a run executes in.  [network n r] is the answer to request
    [r] when it is the [n]-th network call of the run; [trace] lists the
    observable effects, oldest first. *)
Record world : Type := {
  state_file : file;
  network : nat -> request -> fetch_result;
  calls : nat;
  trace : list event
}.

Definition set_state_file (f : file) (w : world) : world :=
  {| state_file := f; network := network w;
     calls := calls w; trace := trace w |}.

(** The world after the network answered one more request. *)
Definition answered (r : request) (w : world) : world :=
  {| state_file := state_file w; network := network w;
     calls := S (calls w); trace := trace w ++ [Requested r] |}.

(** The world after a wait. *)
Definition waited (ms : number) (w : world) : world :=
  {| state_file := state_file w; network := network w;
     calls := calls w; trace := trace w ++ [Slept ms] |}.

(** The world after a console message. *)
Definition logged (c : console) (w : world) : world :=
  {| state_file := state_file w; network := network w;
     calls := calls w; trace := trace w ++ [Logged c] |}.

Definition M (A : Type) : Type := world -> outcome A * world.

Definition ret {A} (a : A) : M A := fun w => (Returned a, w).

Definition throw {A} (e : exn) : M A := fun w => (Thrown e, w).

Definition bind {A B} (m : M A) (k : A -> M B) : M B :=
  fun w =>
    match m w with
    | (Returned a, w') => k a w'
    | (Thrown e, w') => (Thrown e, w')
    end.

(** [try { m } catch (e) { handler e }] *)
Definition try_catch {A} (m : M A) (handler : exn -> M A) : M A :=
  fun w =>
    match m w with
    | (Returned a, w') => (Returned a, w')
    | (Thrown e, w') => handler e w'
    end.

Definition emit (e : event) : M unit :=
  fun w =>
    (Returned tt,
     {| state_file := state_file w; network := network w;
        calls := calls w; trace := trace w ++ [e] |}).

(** [console.warn] / [console.error] *)
Definition log (c : console) : M unit := emit (Logged c).

(** [await new Promise((r) => setTimeout(r, ms))] *)
Definition sleep (ms : number) : M unit := emit (Slept ms).

(** [await fetch(...)]: a network error rejects with a [TypeError]. *)
Definition fetch (r : request) : M response :=
  fun w =>
    match network w (calls w) r with
    | Rejected message => (Thrown (TypeError message), answered r w)
    | Responded res => (Returned res, answered r w)
    end.

(** [fs.existsSync(STATE_FILE)] *)
Definition existsSync : M bool :=
  fun w =>
    (Returned match state_file w with Missing => false | _ => true end, w).

(** [JSON.parse(fs.readFileSync(STATE_FILE, 'utf8'))] *)
Definition read_json : M json :=
  fun w =>
    match state_file w with
    | Parsed raw => (Returned raw, w)
    | Missing => (Thrown (Error "ENOENT"), w)
    | Unparseable => (Thrown SyntaxError, w)
    end.

(** [fs.writeFileSync(STATE_FILE, JSON.stringify(v, null, 2))] *)
Definition write_json (v : json) : M unit :=
  fun w => (Returned tt, set_state_file (Parsed v) w).

(** [raw.key] on a parsed JSON value; [None] is [undefined]. *)
Definition get_property (raw : json) (key : string) : M (option json) :=
  match raw with
  | JNull => throw (TypeError "Cannot read properties of null")
  | JObj members => ret (member key members)
  | _ => ret None
  end.

(** [for (const x of xs) { body x }] *)
Fixpoint for_of {A} (xs : list A) (body : A -> M unit) : M unit :=
  match xs with
  | [] => ret tt
  | x :: rest => bind (body x) (fun _ => for_of rest body)
  end.

(** A computation that leaves the state file and the network alone. *)
Definition quiet {A} (m : M A) : Prop :=
  forall w, state_file (snd (m w)) = state_file w
            /\ network (snd (m w)) = network w.

(** A computation that performs no effect at all. *)
Definition pure {A} (m : M A) : Prop :=
  forall w, snd (m w) = w.

(** A computation that never throws. *)
Definition safe {A} (m : M A) : Prop :=
  forall w, exists a, fst (m w) = Returned a.

(** A response that makes [fetchWithRetry] try again. *)
Definition failed (r : fetch_result) : bool :=
  match r with
  | Rejected _ => true
  | Responded res => negb (ok res)
  end.

(** The network calls a computation made, in order. *)
Definition requests (events : list event) : list request :=
  flat_map (fun e => match e with Requested r => [r] | _ => [] end) events.

(** The delays a computation waited, in order. *)
Definition delays (events : list event) : list number :=
  flat_map (fun e => match e with Slept ms => [ms] | _ => [] end) events.

(** A computation whose only network calls are [GET url]. *)
Definition only_gets (url : string) {A} (m : M A) : Prop :=
  forall w, exists n,
    requests (trace (snd (m w))) = requests (trace w) ++ repeat (GET url) n.

End World.

Arguments status {page} r.
Arguments retry_after {page} r.
Arguments body {page} r.
Arguments Rejected {page} message.
Arguments Responded {page} res.
Arguments ok {page} res.
Arguments state_file {page} w.
Arguments network {page} w.
Arguments calls {page} w.
Arguments trace {page} w.
Arguments ret {page A} a.
Arguments throw {page A} e.
Arguments bind {page A B} m k.
Arguments try_catch {page A} m handler.
Arguments emit {page} e.
Arguments log {page} c.
Arguments sleep {page} ms.
Arguments fetch {page} r.
Arguments existsSync {page}.
Arguments read_json {page}.
Arguments write_json {page} v.
Arguments get_property {page} raw key.
Arguments for_of {page A} xs body.
Arguments set_state_file {page} f w.
Arguments answered {page} r w.
Arguments waited {page} ms w.
Arguments logged {page} c w.
Arguments quiet {page A} m.
Arguments pure {page A} m.
Arguments safe {page A} m.
Arguments failed {page} r.
Arguments only_gets {page} url {A} m.

Declare Scope run_scope.
Delimit Scope run_scope with run.

Notation "x <- m ;; k" := (bind m (fun x => k))
  (at level 61, m at next level, right associativity) : run_scope.
Notation "m ;;; k" := (bind m (fun _ => k))
  (at level 61, right associativity) : run_scope.

End Run.

(* ================================================================== *)
(** * Articles

    Both scrapers build the same objects [{title, url, published}], order
    them with the same comparator and take their newest date with the same
    expression. *)
(* ================================================================== *)

Module Articles.
Import JS.

Record Article : Type := {
  title : string;
  url : string;
  published : Date
}.

Definition newline : string := String (ascii_of_nat 10) "".

(** The message posted for an article: the title in bold, a line break,
    the url. *)
Definition content (article : Article) : string :=
  "**" ++ title article ++ "**" ++ newline ++ url article.

(** [(a, b) => a.published - b.published] *)
Definition by_published (a b : Article) : number :=
  sub (getTime (published a)) (getTime (published b)).

(** [Math.max(...articles.map((a) => a.published))] *)
Definition max_published (articles : list Article) : number :=
  Math_max (map (fun a => getTime (published a)) articles).

(** [Math.min(...articles.map((a) => a.published))] *)
Definition min_published (articles : list Article) : number :=
  Math_min (map (fun a => getTime (published a)) articles).

(** ** The notions the properties below speak of *)

(** The time value of an article with a valid date. *)
Definition time (a : Article) : Z :=
  match published a with
  | DateOf t => t
  | InvalidDate => 0
  end.

(** An article whose date is a time value within range. *)
Definition well_dated (a : Article) : Prop := valid (published a).

(** An article whose date is not "Invalid Date". *)
Definition dated (a : Article) : Prop := exists t, published a = DateOf t.

(** Oldest first. *)
Definition ascending (articles : list Article) : Prop :=
  StronglySorted
    (fun a b => exists ta tb,
         published a = DateOf ta /\ published b = DateOf tb /\ ta <= tb)
    articles.

(** The articles of a list published at [d], in the order of the list. *)
Definition published_at (d : Date) (articles : list Article) : list Article :=
  filter (fun a => same_time (published a) d) articles.

End Articles.

(* ================================================================== *)
(** * The Arc Raiders scraper *)
(* ================================================================== *)

Module ArcRaiders.
Import JS Run Articles.
Local Open Scope run_scope.

Definition BASE_URL : string := "https://arcraiders.com".
Definition NEWS_URL : string := BASE_URL ++ "/news".

Record State : Type := {
  lastPublished : Date;
  postedUrls : list json
}.

(** One [a[class^="news-article-card_container"]] element as the selectors
    of the scraper see it: the trimmed text of its title and date
    children and its [href] attribute. *)
Record card : Type := {
  card_title : string;
  card_href : option string;
  card_date : string
}.

(** The news listing: the article grid is found, with its cards in
    document order, or it is not. *)
Inductive page : Type :=
| NoNewsSection
| NewsSection (cards : list card).

Definition M (A : Type) : Type := Run.M page A.

Section Scraper.

Context `{BI : builtins}.

(** [process.env.DISCORD_ARCRAIDERS_WEBHOOK], once checked *)
Variable WEBHOOK : string.

(** ** State *)

Definition loadState : M (option State) :=
  present <- existsSync ;;
  if negb present then ret None
  else
    try_catch
      (raw <- read_json ;;
       last_published <- get_property raw "last_published" ;;
       let lastPublished :=
         match last_published with
         | Some v => if json_truthy v then Some (new_Date_json v) else None
         | None => None
         end in
       match lastPublished with
       | None => ret None
       | Some d =>
           if isNaN_Date d then ret None
           else
             posted_urls <- get_property raw "posted_urls" ;;
             ret (Some {| lastPublished := d;
                          postedUrls := array_or_empty posted_urls |})
       end)
      (fun _ => ret None).

(** [date.toISOString()] throws a [RangeError] on an invalid date; the
    argument of [writeFileSync] is evaluated before the file is touched. *)
Definition toISOString (date : Date) : M string :=
  match date with
  | InvalidDate => throw (RangeError "Invalid time value")
  | DateOf t => ret (ISO_string t)
  end.

Definition saveState (date : Date) (postedUrls : list string) : M unit :=
  iso <- toISOString date ;;
  write_json (JObj [("last_published", JStr iso);
                    ("posted_urls", JArr (map JStr postedUrls))]).

(** ** Scrape *)

Definition parseDate (text : string) : M Date :=
  let date := new_Date (Date_parse (text ++ " UTC")) in
  if isNaN (getTime date) then throw (Error ("Invalid date: " ++ text))
  else ret date.

(** The loop of [fetchWithRetry], entered at [attempt] with [todo]
    iterations left. *)
Fixpoint fetch_attempts (url : string) (maxAttempts attempt todo : nat)
  : M (option (response page)) :=
  match todo with
  | O => ret None
  | S todo' =>
      found <-
        try_catch
          (res <- fetch (GET url) ;;
           if ok res then ret (Some res)
           else log (FetchAttemptBlocked attempt (status res)) ;;; ret None)
          (fun err =>
             log (FetchAttemptFailed attempt
                    match err with
                    | TypeError m | RangeError m | ReferenceError m | Error m => m
                    | SyntaxError => ""
                    end) ;;; ret None) ;;
      match found with
      | Some res => ret (Some res)
      | None =>
          (if (attempt <? maxAttempts)%nat
           then sleep (of_Z (2000 * Z.of_nat attempt))
           else ret tt) ;;;
          fetch_attempts url maxAttempts (S attempt) todo'
      end
  end.

Definition fetchWithRetry (url : string) (maxAttempts : nat)
  : M (option (response page)) :=
  fetch_attempts url maxAttempts 1 maxAttempts.

(** The callback of [.each], pushing onto [articles]. *)
Definition scrape_card (articles : list Article) (c : card) : M (list Article) :=
  let title := card_title c in
  match card_href c with
  | None => ret articles
  | Some href =>
      if String.eqb href "" then ret articles
      else
        match URL_href href BASE_URL with
        | None => throw (TypeError "Invalid URL")
        | Some url =>
            datetime <- parseDate (card_date c) ;;
            if String.eqb title "" || String.eqb url "" then ret articles
            else ret (articles ++ [ {| title := title; url := url;
                                       published := copy_Date datetime |} ])
        end
  end.

Fixpoint scrape_cards (articles : list Article) (cards : list card)
  : M (list Article) :=
  match cards with
  | [] => ret articles
  | c :: rest =>
      articles' <- scrape_card articles c ;;
      scrape_cards articles' rest
  end.

Definition getLatestNewsArticles : M (list Article) :=
  res <- fetchWithRetry NEWS_URL 3 ;;
  match res with
  | None => log FetchAbandoned ;;; ret []
  | Some res =>
      match body res with
      | NoNewsSection => throw (Error "News section not found")
      | NewsSection cards => scrape_cards [] cards
      end
  end.

(** ** Delta logic *)

(** The body of the [for ... of] loop of [getUnpostedArticles]. *)
Definition collect (state : State) (unposted : list Article) (article : Article)
  : list Article :=
  if Date_gt (published article) (lastPublished state) then unposted ++ [article]
  else if same_time (published article) (lastPublished state)
          && negb (includes (postedUrls state) (url article))
       then unposted ++ [article]
       else unposted.

(** The non-cold-start part of [getUnpostedArticles]. *)
Definition unposted (state : State) (articles : list Article) : list Article :=
  sort by_published (fold_left (collect state) articles []).

Definition getUnpostedArticles : M (list Article) :=
  state <- loadState ;;
  articles <- getLatestNewsArticles ;;
  match state with
  | None =>
      let newest := new_Date (max_published articles) in
      saveState newest [] ;;;
      ret []
  | Some state => ret (unposted state articles)
  end.

(** ** Discord webhook *)

Fixpoint postToDiscord (article : Article) (retries : nat) : M unit :=
  res <- fetch (POST WEBHOOK (content article)) ;;
  let finish : M unit :=
    if negb (ok res)
    then throw (Error ("Discord webhook failed: " ++ Z_to_string (status res)))
    else ret tt in
  match retries with
  | S retries' =>
      if status res =? 429 then
        let retryAfter :=
          or_else (Number_of_header (retry_after res)) (of_Z 5) in
        sleep (scale retryAfter 1000) ;;;
        postToDiscord article retries'
      else finish
  | O => finish
  end.

(** ** Main *)

Definition urls_at (newestDate : Date) (articles : list Article) : list string :=
  map url (filter (fun a => same_time (published a) newestDate) articles).

(** The delivery loop: a failure to post is logged and the loop goes on.
    [postToDiscord(article)] runs with its default [retries = 3]. *)
Definition deliver (newArticles : list Article) : M unit :=
  for_of newArticles
    (fun article =>
       try_catch (postToDiscord article 3)
                 (fun err => log (FailedToPost (title article) err))).

Definition main : M unit :=
  newArticles <- getUnpostedArticles ;;
  deliver newArticles ;;;
  match newArticles with
  | [] => ret tt
  | _ :: _ =>
      let newestDate := new_Date (max_published newArticles) in
      let urlsAtNewestTimestamp := urls_at newestDate newArticles in
      saveState newestDate urlsAtNewestTimestamp
  end.

End Scraper.

(** ** The notions the properties below speak of *)

(** [a.published > state.lastPublished] *)
Definition newer (state : State) (a : Article) : Prop :=
  exists t l,
    published a = DateOf t /\ lastPublished state = DateOf l /\ l < t.

(** [a.published] equals [state.lastPublished] and [a.url] is not in
    [state.postedUrls] *)
Definition unseen_sibling (state : State) (a : Article) : Prop :=
  (exists t, published a = DateOf t /\ lastPublished state = DateOf t)
  /\ ~ In (JStr (url a)) (postedUrls state).

(** The test of the loop of [getUnpostedArticles], as one condition. *)
Definition selected (state : State) (a : Article) : bool :=
  Date_gt (published a) (lastPublished state)
  || same_time (published a) (lastPublished state)
     && negb (includes (postedUrls state) (url a)).

(** The record [saveState] writes for a valid date. *)
Definition record `{BI : builtins} (t : Z) (urls : list string) : file :=
  Parsed (JObj [("last_published", JStr (ISO_string t));
                ("posted_urls", JArr (map JStr urls))]).

(** [load()] in the words of the specification: absent when there is no
    file, when it does not parse, or when [last_published] is missing,
    falsy or not a date; a [posted_urls] that is absent or not an array
    counts as empty. *)
Definition load_spec `{BI : builtins} (f : file) : option State :=
  match f with
  | Parsed (JObj members) =>
      match member "last_published" members with
      | Some v =>
          if json_truthy v then
            match new_Date_json v with
            | DateOf t =>
                Some {| lastPublished := DateOf t;
                        postedUrls :=
                          match member "posted_urls" members with
                          | Some (JArr urls) => urls
                          | _ => []
                          end |}
            | InvalidDate => None
            end
          else None
      | None => None
      end
  | _ => None
  end.

(** The invariant of the state record: [postedUrls] holds exactly the urls
    of the posted articles published at [lastPublished]. *)
Definition posted_urls_exact (posted : list Article) (state : State) : Prop :=
  forall u,
    In (JStr u) (postedUrls state) <->
    exists a, In a posted /\ url a = u
              /\ same_time (published a) (lastPublished state) = true.

(** A fetch of the news listing that fails on each of the three attempts
    is not fatal: the run returns and the state file is untouched. *)
Definition fetch_failure_is_not_fatal `{BI : builtins} (WEBHOOK : string) : Prop :=
  forall (w : world page),
    (forall k, (k < 3)%nat ->
               failed (network w (calls w + k) (GET NEWS_URL)) = true) ->
    exists w',
      main WEBHOOK w = (Returned tt, w') /\ state_file w' = state_file w.

(** The wait of [postToDiscord] after the rate-limited answer [res], in
    milliseconds: [(Number(res.headers.get('Retry-After')) || 5) * 1000]. *)
Definition retry_delay `{BI : builtins} (res : response page) : number :=
  scale (or_else (Number_of_header (retry_after res)) (of_Z 5)) 1000.

(** The waits of [fetchWithRetry] after [count] failed attempts, the first
    of them numbered [attempt]: [2000 * attempt], [2000 * (attempt + 1)],
    and so on. *)
Definition backoff (attempt count : nat) : list number :=
  map (fun i => of_Z (2000 * Z.of_nat i)) (seq attempt count).

(** The requests of a delivery in which each article is posted the given
    number of times in a row. *)
Definition posts (WEBHOOK : string) (attempts : list (Article * nat)) : list request :=
  flat_map (fun an => repeat (POST WEBHOOK (content (fst an))) (snd an)) attempts.

(** The first [k] posts of an article are answered with status 429, by
    [responses 0], [responses 1], and so on. *)
Definition rate_limited (WEBHOOK : string) (article : Article) (w : world page)
    (responses : nat -> response page) (k : nat) : Prop :=
  forall j, (j < k)%nat ->
    network w (calls w + j) (POST WEBHOOK (content article))
    = Responded (responses j)
    /\ status (responses j) = 429.

(** What the scrape loop pushes: a title and a url that are not empty and
    a valid date. *)
Definition scraped (a : Article) : Prop :=
  title a <> "" /\ url a <> "" /\ valid (published a).

(** The module body: it refuses to run without the webhook. *)
Definition script `{BI : builtins} (DISCORD_ARCRAIDERS_WEBHOOK : option string) : M unit :=
  match DISCORD_ARCRAIDERS_WEBHOOK with
  | None => throw (Error "DISCORD_ARCRAIDERS_WEBHOOK is not set")
  | Some WEBHOOK =>
      if String.eqb WEBHOOK ""
      then throw (Error "DISCORD_ARCRAIDERS_WEBHOOK is not set")
      else main WEBHOOK
  end.

End ArcRaiders.

(* ================================================================== *)
(** * The Nightreign scraper *)
(* ================================================================== *)

Module Nightreign.
Import JS Run Articles.
Local Open Scope run_scope.

Definition URL : string :=
  "https://en.bandainamcoent.eu/elden-ring/elden-ring-nightreign/news".

(** One [li.node__thumbnail] element as the selectors see it. *)
Record card : Type := {
  card_title : string;
  card_url : option string;
  card_datetime : option string
}.

Inductive page : Type :=
| NoNewsSection
| NoCardsList
| CardsList (cards : list card).

Definition M (A : Type) : Type := Run.M page A.

Section Scraper.

Context `{BI : builtins}.

Variable WEBHOOK : string.

(** ** State *)

Definition loadLastPublished : M (option Date) :=
  present <- existsSync ;;
  if negb present then ret None
  else
    try_catch
      (raw <- read_json ;;
       last_published <- get_property raw "last_published" ;;
       let date :=
         match last_published with
         | Some v => if json_truthy v then Some (new_Date_json v) else None
         | None => None
         end in
       match date with
       | Some d => if negb (isNaN_Date d) then ret (Some d) else ret None
       | None => ret None
       end)
      (fun _ => ret None).

Definition toISOString (date : Date) : M string :=
  match date with
  | InvalidDate => throw (RangeError "Invalid time value")
  | DateOf t => ret (ISO_string t)
  end.

Definition saveLastPublished (date : Date) : M unit :=
  iso <- toISOString date ;;
  write_json (JObj [("last_published", JStr iso)]).

(** ** Scrape *)

(** The callback of [.each]. *)
Definition scrape_card (articles : list Article) (c : card) : list Article :=
  match card_url c, card_datetime c with
  | Some url, Some datetime =>
      if String.eqb (card_title c) "" || String.eqb url "" || String.eqb datetime ""
      then articles
      else articles ++ [ {| title := card_title c; url := url;
                            published := new_Date (Date_parse datetime) |} ]
  | _, _ => articles
  end.

Definition getLatestNewsArticles : M (list Article) :=
  res <- fetch (GET URL) ;;
  if negb (ok res) then throw (Error ("HTTP " ++ Z_to_string (status res)))
  else
    match body res with
    | NoNewsSection => throw (Error "News section not found")
    | NoCardsList => throw (Error "Cards list not found")
    | CardsList cards => ret (fold_left scrape_card cards [])
    end.

(** ** Delta logic *)

(** The non-cold-start result of [getUnpostedArticles]. *)
Definition unposted (lastSeen : Date) (articles : list Article) : list Article :=
  sort by_published
    (filter (fun a => Date_gt (published a) lastSeen) articles).

Definition getUnpostedArticles : M (list Article) :=
  lastSeen <- loadLastPublished ;;
  articles <- getLatestNewsArticles ;;
  match lastSeen with
  | None =>
      let newest := new_Date (max_published articles) in
      saveLastPublished newest ;;;
      ret []
  | Some lastSeen =>
      (if (List.length articles =? 3)%nat
          && gt (min_published articles) (getTime lastSeen)
       then log OlderPostsMayBeMissed
       else ret tt) ;;;
      ret (unposted lastSeen articles)
  end.

(** ** Discord webhook *)

(** [postToDiscord(article)] has no [retries] parameter and the module
    declares no such binding: evaluating [retries > 0], which happens
    exactly when the status is 429, throws a [ReferenceError]; the wait
    and the recursive call behind it are never reached. *)
Definition postToDiscord (article : Article) : M unit :=
  res <- fetch (POST WEBHOOK (content article)) ;;
  if status res =? 429 then throw (ReferenceError "retries is not defined")
  else if negb (ok res)
       then throw (Error ("Discord webhook failed: " ++ Z_to_string (status res)))
       else ret tt.

(** ** Main *)

Definition deliver (newArticles : list Article) : M unit :=
  for_of newArticles
    (fun article =>
       try_catch (postToDiscord article)
                 (fun err => log (FailedToPost (title article) err))).

Definition main : M unit :=
  newArticles <- getUnpostedArticles ;;
  deliver newArticles ;;;
  match newArticles with
  | [] => ret tt
  | _ :: _ =>
      let newest := new_Date (max_published newArticles) in
      saveLastPublished newest
  end.

End Scraper.

(** ** Module body *)

(** The module binds the name [URL] to the address of
    the news page, a string, and next evaluates
    [new URL('.', import.meta.url)]: the name no longer denotes the built-in
    constructor and the expression throws a [TypeError], before the webhook
    is read and before [main] is reached.  The functions above are
    modelled as they are written; what is proved of them holds of calls to
    them. *)
Definition script : M unit := throw (TypeError "URL is not a constructor").

(** ** The notions the properties below speak of *)

(** What the scrape loop pushes: a title and a url that are not empty and
    a date that [new Date(datetime)] made, valid or not. *)
Definition listed (a : Article) : Prop :=
  title a <> "" /\ url a <> "" /\ in_range (published a).

(** A failed fetch of the news listing is not fatal: the run returns and
    the state file is untouched. *)
Definition fetch_failure_is_not_fatal `{BI : builtins} (WEBHOOK : string) : Prop :=
  forall (w : world page),
    failed (network w (calls w) (GET URL)) = true ->
    exists w',
      main WEBHOOK w = (Returned tt, w') /\ state_file w' = state_file w.

(** The record [saveLastPublished] writes for a valid date. *)
Definition record `{BI : builtins} (t : Z) : file :=
  Parsed (JObj [("last_published", JStr (ISO_string t))]).

(** [load()] in the words of the specification: absent when there is no
    file, when it does not parse, or when [last_published] is missing,
    falsy or not a date. *)
Definition load_spec `{BI : builtins} (f : file) : option Date :=
  match f with
  | Parsed (JObj members) =>
      match member "last_published" members with
      | Some v =>
          if json_truthy v then
            match new_Date_json v with
            | DateOf t => Some (DateOf t)
            | InvalidDate => None
            end
          else None
      | None => None
      end
  | _ => None
  end.

End Nightreign.

(* ================================================================== *)
(** * Scenarios

    Concrete articles, states and worlds, and an instance of the built-ins
    to run the scrapers on them: in this instance a timestamp is written
    as its decimal epoch milliseconds. *)
(* ================================================================== *)

Module Scenario.
Import JS Run Articles.

(** Drops a trailing [" UTC"], as [parseDate] appends one. *)
Fixpoint strip_UTC (s : string) : string :=
  match s with
  | EmptyString => EmptyString
  | String c rest =>
      if String.eqb s " UTC" then EmptyString else String c (strip_UTC rest)
  end.

Definition decimal (s : string) : number :=
  match NilZero.int_of_string s with
  | Some d => of_Z (Z.of_int d)
  | None => NaN
  end.

Definition parse_decimal (s : string) : number :=
  match decimal s with
  | NaN => decimal (strip_UTC s)
  | n => n
  end.

#[export] Instance sample_builtins : builtins := {|
  Date_parse := parse_decimal;
  ISO_string := Z_to_string;
  String_to_number := decimal;
  URL_href := fun href base => Some (String.append base href);
  Array_to_string := fun _ => ""
|}.

(** ** Dates, as epoch milliseconds *)

Definition Jan05 : Z := 1767571200000.
Definition Jan06 : Z := 1767657600000.
Definition Jan10 : Z := 1768003200000.

(** ** Worlds *)

(** The world a process starts in. *)
Definition start {page} (f : file) (net : nat -> request -> fetch_result page)
  : world page :=
  {| state_file := f; network := net; calls := 0; trace := [] |}.

(** The world the next process starts in: the state file is what the
    previous run left. *)
Definition restart {page} (previous : world page)
  (net : nat -> request -> fetch_result page) : world page :=
  start (state_file previous) net.

Definition answer {page} (code : Z) (header : option string) (b : page)
  : fetch_result page :=
  Responded {| status := code; retry_after := header; body := b |}.

Module Arc.
Import ArcRaiders.

Definition card_of (t href date : string) : card :=
  {| card_title := t; card_href := Some href; card_date := date |}.

Definition card_A : card := card_of "A" "/a" "1768003200000".
Definition card_B : card := card_of "B" "/b" "1768003200000".
Definition card_U : card := card_of "U" "/u" "1767571200000".
Definition card_V : card := card_of "V" "/v" "1767657600000".
Definition card_W : card := card_of "W" "/w" "1767657600000".

Definition article_of (t path : string) (time : Z) : Article :=
  {| title := t; url := "https://arcraiders.com" ++ path; published := DateOf time |}.

Definition A : Article := article_of "A" "/a" Jan10.
Definition B : Article := article_of "B" "/b" Jan10.
Definition U : Article := article_of "U" "/u" Jan05.
Definition V : Article := article_of "V" "/v" Jan06.
Definition W : Article := article_of "W" "/w" Jan06.

(** The site lists [cards]; the webhook accepts every message. *)
Definition serving (cards : list card) : nat -> request -> fetch_result page :=
  fun _ r =>
    match r with
    | GET _ => answer 200 None (NewsSection cards)
    | POST _ _ => answer 204 None NoNewsSection
    end.

(** The site is unreachable. *)
Definition unreachable : nat -> request -> fetch_result page :=
  fun _ _ => Rejected "fetch failed".

Definition hook : string := "https://discord.example/hook".

(** One run of the script with the webhook configured. *)
Definition run (w : world page) : outcome unit * world page :=
  script (Some hook) w.

(** The articles a run found new, hence attempted to post. *)
Definition attempted (w : world page) : list Article :=
  match getUnpostedArticles w with
  | (Returned articles, _) => articles
  | (Thrown _, _) => []
  end.

(** A state in which [A] has been posted. *)
Definition posted_A : State :=
  {| lastPublished := DateOf Jan10; postedUrls := [JStr (url A)] |}.

(** The state the write-back leaves once [B] has been posted after [A]. *)
Definition posted_B : State :=
  {| lastPublished := DateOf Jan10; postedUrls := [JStr (url B)] |}.

(** [A] is on record as posted; the site lists [A] and [B]. *)
Definition posted_then_B : world page :=
  start (record Jan10 [url A]) (serving [card_A; card_B]).
Definition posted_then_B_again : world page :=
  restart (snd (run posted_then_B)) (serving [card_A; card_B]).

(** Three runs of a fresh installation: the site lists [A]; again [A];
    then [B], published the same day, above [A]. *)
Definition day1 : world page := start Missing (serving [card_A]).
Definition day2 : world page := restart (snd (run day1)) (serving [card_A]).
Definition day3 : world page := restart (snd (run day2)) (serving [card_B; card_A]).
Definition day4 : world page := restart (snd (run day3)) (serving [card_B; card_A]).

(** A fresh installation started while the site is unreachable. *)
Definition first_run_offline : world page := start Missing unreachable.

(** An installation with a state on file, started while the site is
    unreachable. *)
Definition later_run_offline : world page := start (record Jan10 []) unreachable.

(** A fresh installation on a site that lists [U], [V] and [W]. *)
Definition fresh : world page := start Missing (serving [card_U; card_V; card_W]).
Definition fresh_again : world page :=
  restart (snd (run fresh)) (serving [card_U; card_V; card_W]).

(** The site fails twice, then lists [cards]. *)
Definition recovering (cards : list card) : nat -> request -> fetch_result page :=
  fun n r => if Nat.ltb n 2 then Rejected "fetch failed" else serving cards n r.

(** The webhook answers 429 with [Retry-After: 1]. *)
Definition throttled : nat -> request -> fetch_result page :=
  fun _ _ => answer 429 (Some "1") NoNewsSection.

(** The webhook answers 429 twice, the second time without a
    [Retry-After], then accepts. *)
Definition throttled_twice : nat -> request -> fetch_result page :=
  fun n _ =>
    match n with
    | O => answer 429 (Some "1") NoNewsSection
    | S O => answer 429 None NoNewsSection
    | _ => answer 204 None NoNewsSection
    end.

(** A card whose date is no date. *)
Definition card_X : card := card_of "X" "/x" "soon".

(** [U] is on record as posted; the site lists [U], [V] and [W]. *)
Definition behind : world page :=
  start (record Jan05 [url U]) (serving [card_U; card_V; card_W]).
Definition behind_again : world page :=
  restart (snd (run behind)) (serving [card_U; card_V; card_W]).

(** The site lists [A], then a card without a date, then [B]. *)
Definition misdated : world page :=
  start (record Jan05 []) (serving [card_A; card_X; card_B]).

(** The page no longer has the article grid. *)
Definition restyled : world page :=
  start (record Jan05 [])
        (fun _ _ => answer 200 None NoNewsSection).

End Arc.

Module Night.
Import Nightreign.

Definition N : Article :=
  {| title := "N"; url := "https://en.bandainamcoent.eu/n"; published := DateOf Jan10 |}.

(** The site answers 503. *)
Definition down : nat -> request -> fetch_result page :=
  fun _ _ => answer 503 None NoNewsSection.

(** The webhook answers 429 with [Retry-After: 1]. *)
Definition throttled : nat -> request -> fetch_result page :=
  fun _ _ => answer 429 (Some "1") NoNewsSection.

(** A process with a valid state on file, started while the site is down. *)
Definition outage : world page := start (record Jan10) down.

(** The site lists no card. *)
Definition empty_listing : nat -> request -> fetch_result page :=
  fun _ _ => answer 200 None (CardsList []).

Definition card_N : card :=
  {| card_title := "N";
     card_url := Some "https://en.bandainamcoent.eu/n";
     card_datetime := Some "1768003200000" |}.

(** The site lists [N]; the webhook accepts every message. *)
Definition listing : nat -> request -> fetch_result page :=
  fun _ r =>
    match r with
    | GET _ => answer 200 None (CardsList [card_N])
    | POST _ _ => answer 204 None NoNewsSection
    end.

Definition card_of (t datetime : string) : card :=
  {| card_title := t;
     card_url := Some ("https://en.bandainamcoent.eu/" ++ t)%string;
     card_datetime := Some datetime |}.

Definition article_of (t : string) (time : Z) : Article :=
  {| title := t; url := "https://en.bandainamcoent.eu/" ++ t;
     published := DateOf time |}.

Definition NP : Article := article_of "P" Jan06.
Definition NQ : Article := article_of "Q" Jan10.
Definition NR : Article := article_of "R" Jan10.

(** The site lists the cards; the webhook accepts every message. *)
Definition serving (cards : list card) : nat -> request -> fetch_result page :=
  fun _ r =>
    match r with
    | GET _ => answer 200 None (CardsList cards)
    | POST _ _ => answer 204 None NoNewsSection
    end.

(** The site lists [NR], [NQ] and [NP], newest first. *)
Definition front_page : list card :=
  [card_of "R" "1768003200000"; card_of "Q" "1768003200000";
   card_of "P" "1767657600000"].

Definition hook : string := "https://discord.example/hook".

(** The state is of January 5; the three articles listed are all later. *)
Definition behind : world page := start (record Jan05) (serving front_page).
Definition behind_again : world page :=
  restart (snd (main hook behind)) (serving front_page).

(** A fresh installation; the site lists [N] and a card whose [datetime]
    is no date. *)
Definition misdated : world page :=
  start Missing (serving [card_N; card_of "X" "soon"]).

(** The page no longer has the news section. *)
Definition restyled : world page :=
  start (record Jan05) (fun _ _ => answer 200 None NoNewsSection).

End Night.

End Scenario.

(* ================================================================== *)
(** * Facts about the JavaScript values *)
(* ================================================================== *)

Module JSFacts.
Import JS.

Lemma Qle_bool_inject_Z (a b : Z) :
  Qle_bool (inject_Z a) (inject_Z b) = (a <=? b).
Proof.
  unfold Qle_bool, inject_Z; simpl. now rewrite !Z.mul_1_r.
Qed.

Lemma Qeq_bool_inject_Z (a b : Z) :
  Qeq_bool (inject_Z a) (inject_Z b) = (a =? b).
Proof.
  unfold Qeq_bool, inject_Z; simpl. now rewrite !Z.mul_1_r.
Qed.

Lemma gt_of_Z (a b : Z) : gt (of_Z a) (of_Z b) = (b <? a).
Proof.
  unfold gt, of_Z. rewrite Qle_bool_inject_Z. symmetry. apply Z.ltb_antisym.
Qed.

Lemma strict_eq_of_Z (a b : Z) : strict_eq (of_Z a) (of_Z b) = (a =? b).
Proof.
  unfold strict_eq, of_Z. apply Qeq_bool_inject_Z.
Qed.

Lemma sub_positive (a b : Z) : gt (sub (of_Z a) (of_Z b)) (of_Z 0) = (b <? a).
Proof.
  unfold sub, of_Z, gt.
  assert (E : Qle_bool (inject_Z a - inject_Z b) (inject_Z 0) = (a <=? b)).
  { unfold Qle_bool, Qminus, Qplus, Qopp, inject_Z; simpl.
    rewrite !Z.mul_1_r.
    destruct (Z.leb_spec (a + - b) 0), (Z.leb_spec a b); trivial; lia. }
  rewrite E. symmetry. apply Z.ltb_antisym.
Qed.

Lemma trunc_inject_Z (t : Z) : trunc (inject_Z t) = t.
Proof.
  unfold trunc. destruct (Qle_bool 0 (inject_Z t)).
  - apply Qfloor_Z.
  - apply Qceiling_Z.
Qed.

Lemma TimeClip_of_Z (t : Z) :
  TimeClip (of_Z t) = if Z.abs t <=? maxTime then DateOf t else InvalidDate.
Proof.
  unfold TimeClip, of_Z.
  replace (Qabs (inject_Z t)) with (inject_Z (Z.abs t)) by reflexivity.
  rewrite Qle_bool_inject_Z, trunc_inject_Z. reflexivity.
Qed.

Lemma valid_in_range d : valid d -> in_range d.
Proof. destruct d; simpl; tauto. Qed.

Lemma trunc_bound (q : Q) :
  Qle_bool (Qabs q) (inject_Z maxTime) = true -> Z.abs (trunc q) <= maxTime.
Proof.
  intros H. apply Qle_bool_iff in H.
  unfold trunc. destruct (Qle_bool 0 q) eqn:S.
  - apply Qle_bool_iff in S.
    rewrite Qabs_pos in H by exact S.
    assert (F := Qfloor_resp_le _ _ H). rewrite Qfloor_Z in F.
    assert (G := Qfloor_resp_le _ _ S). change (Qfloor 0) with 0 in G. lia.
  - assert (N : (q <= 0)%Q).
    { destruct (Qlt_le_dec 0 q) as [L | L]; [ | exact L ].
      apply Qlt_le_weak, Qle_bool_iff in L. congruence. }
    rewrite Qabs_neg in H by exact N.
    assert (F := Qceiling_resp_le _ _ N). change (Qceiling 0) with 0 in F.
    assert (G : (inject_Z (- maxTime) <= q)%Q).
    { rewrite inject_Z_opp. apply Qopp_le_compat in H.
      rewrite Qopp_involutive in H. exact H. }
    apply Qceiling_resp_le in G. rewrite Qceiling_Z in G. lia.
Qed.

Lemma TimeClip_in_range (x : number) : in_range (TimeClip x).
Proof.
  destruct x as [ | | | q]; simpl; trivial.
  destruct (Qle_bool (Qabs q) (inject_Z maxTime)) eqn:E; simpl; trivial.
  now apply trunc_bound.
Qed.

Lemma new_Date_json_in_range `{builtins} (v : json) : in_range (new_Date_json v).
Proof. destruct v; apply TimeClip_in_range. Qed.

Lemma copy_Date_id (d : Date) : in_range d -> copy_Date d = d.
Proof.
  destruct d as [ | t]; intros R; [ reflexivity | ].
  unfold copy_Date, new_Date, getTime. rewrite TimeClip_of_Z.
  apply Z.leb_le in R. now rewrite R.
Qed.

Lemma Date_gt_DateOf (a b : Z) : Date_gt (DateOf a) (DateOf b) = (b <? a).
Proof. apply gt_of_Z. Qed.

Lemma same_time_DateOf (a b : Z) : same_time (DateOf a) (DateOf b) = (a =? b).
Proof. apply strict_eq_of_Z. Qed.

Lemma Date_gt_true (d1 d2 : Date) :
  Date_gt d1 d2 = true <->
  exists t1 t2, d1 = DateOf t1 /\ d2 = DateOf t2 /\ t2 < t1.
Proof.
  destruct d1 as [ | a], d2 as [ | b]; unfold Date_gt; cbn [getTime];
    try (split; [ intros D; vm_compute in D; discriminate
                | intros (? & ? & ? & ? & ?); discriminate ]).
  rewrite gt_of_Z, Z.ltb_lt. split.
  - intros L. now exists a, b.
  - intros (? & ? & [= ->] & [= ->] & L). exact L.
Qed.

Lemma same_time_true (d1 d2 : Date) :
  same_time d1 d2 = true <-> exists t, d1 = DateOf t /\ d2 = DateOf t.
Proof.
  destruct d1 as [ | a], d2 as [ | b]; unfold same_time; cbn [getTime];
    try (split; [ intros D; vm_compute in D; discriminate
                | intros (? & ? & ?); discriminate ]).
  rewrite strict_eq_of_Z, Z.eqb_eq. split.
  - intros ->. now exists b.
  - intros (? & [= ->] & [= ->]). reflexivity.
Qed.

Lemma includes_In (array : list json) (s : string) :
  includes array s = true <-> In (JStr s) array.
Proof.
  unfold includes. rewrite existsb_exists. split.
  - intros (v & I & E). destruct v; try discriminate.
    apply String.eqb_eq in E. now subst.
  - intros I. exists (JStr s). split; [ exact I | apply String.eqb_refl ].
Qed.

Lemma includes_map_JStr (urls : list string) (s : string) :
  includes (map JStr urls) s = true <-> In s urls.
Proof.
  rewrite includes_In, in_map_iff. split.
  - intros (u & [= ->] & I). exact I.
  - intros I. now exists s.
Qed.

(** ** [Math.max] over time values *)

Lemma max_step_of_Z (h t : Z) : max_step (of_Z h) (of_Z t) = of_Z (Z.max h t).
Proof.
  unfold max_step. change (isNaN (of_Z t)) with false. cbn iota.
  change (match of_Z h with NaN => NaN | _ => if gt (of_Z t) (of_Z h) then of_Z t else of_Z h end)
    with (if gt (of_Z t) (of_Z h) then of_Z t else of_Z h).
  rewrite gt_of_Z. destruct (Z.ltb_spec h t); f_equal; lia.
Qed.

Lemma fold_max_of_Z (ts : list Z) (h : Z) :
  fold_left max_step (map of_Z ts) (of_Z h) = of_Z (fold_left Z.max ts h).
Proof.
  revert h. induction ts as [ | t ts IH]; intros h; cbn [map fold_left];
    [ reflexivity | ].
  now rewrite max_step_of_Z, IH.
Qed.

Lemma fold_max_spec (ts : list Z) (h : Z) :
  let m := fold_left Z.max ts h in
  h <= m /\ Forall (fun t => t <= m) ts /\ (m = h \/ In m ts).
Proof.
  revert h. induction ts as [ | t ts IH]; intros h; simpl.
  - split; [ lia | split; [ constructor | now left ] ].
  - destruct (IH (Z.max h t)) as (L & F & I). split; [ | split ].
    + lia.
    + constructor; [ lia | exact F ].
    + destruct I as [E | I]; [ | now right; right ].
      destruct (Z.max_spec h t) as [[_ M] | [_ M]]; rewrite M in *.
      * right; left. now symmetry.
      * now left.
Qed.

Lemma Math_max_of_Z (ts : list Z) :
  ts <> [] -> exists m, Math_max (map of_Z ts) = of_Z m /\ greatest m ts.
Proof.
  destruct ts as [ | t ts]; [ congruence | intros _ ].
  exists (fold_left Z.max ts t). unfold Math_max, greatest.
  change (fold_left max_step (map of_Z (t :: ts)) NegInfinity)
    with (fold_left max_step (map of_Z ts) (of_Z t)).
  rewrite fold_max_of_Z. destruct (fold_max_spec ts t) as (L & F & I).
  split; [ reflexivity | split ].
  - destruct I as [-> | I]; [ now left | now right ].
  - constructor; assumption.
Qed.

Lemma greatest_unique (m m' : Z) (ts : list Z) :
  greatest m ts -> greatest m' ts -> m = m'.
Proof.
  intros [I F] [I' F']. rewrite Forall_forall in F, F'.
  specialize (F _ I'). specialize (F' _ I). lia.
Qed.

(** ** The stable sort under a comparator that follows a key *)

Section KeyedSort.

Variable A : Type.
Variable cmp : A -> A -> number.
Variable key : A -> Z.
Variable good : A -> Prop.

Hypothesis cmp_key :
  forall x y, good x -> good y -> gt (cmp x y) (of_Z 0) = (key y <? key x).

Lemma insert_perm (x : A) (l : list A) : Permutation (insert cmp x l) (x :: l).
Proof.
  induction l as [ | y l IH]; simpl; [ reflexivity | ].
  destruct (gt (cmp x y) (of_Z 0)); [ | reflexivity ].
  rewrite IH. apply perm_swap.
Qed.

Lemma sort_perm (l : list A) : Permutation (sort cmp l) l.
Proof.
  induction l as [ | x l IH]; simpl; [ reflexivity | ].
  change (fold_right (insert cmp) [] l) with (sort cmp l).
  rewrite insert_perm. now constructor.
Qed.

Lemma sort_Forall (P : A -> Prop) (l : list A) :
  Forall P l -> Forall P (sort cmp l).
Proof.
  intros F. rewrite Forall_forall in *. intros x I.
  apply F. eapply Permutation_in; [ apply sort_perm | exact I ].
Qed.

Lemma insert_sorted (x : A) (l : list A) :
  good x -> Forall good l ->
  StronglySorted (key_le key) l -> StronglySorted (key_le key) (insert cmp x l).
Proof.
  intros Gx Gl S. induction S as [ | y l S IH F]; simpl.
  - repeat constructor.
  - inversion Gl as [ | ? ? Gy Gl']; subst.
    rewrite (cmp_key x y Gx Gy). destruct (Z.ltb_spec (key y) (key x)) as [L | L].
    + constructor; [ now apply IH | ].
      rewrite Forall_forall in *. intros z I.
      apply (Permutation_in _ (insert_perm x l)) in I.
      destruct I as [<- | I]; [ unfold key_le; lia | now apply F ].
    + constructor; [ now constructor | ].
      constructor; [ exact L | ].
      rewrite Forall_forall in *. intros z I. specialize (F z I).
      unfold key_le in *. lia.
Qed.

Lemma sort_sorted (l : list A) :
  Forall good l -> StronglySorted (key_le key) (sort cmp l).
Proof.
  induction l as [ | x l IH]; simpl; intros G; [ constructor | ].
  inversion G; subst. apply insert_sorted; auto.
  now apply sort_Forall.
Qed.

Lemma insert_stable (k : Z) (x : A) (l : list A) :
  good x -> Forall good l ->
  filter (fun a => key a =? k) (insert cmp x l)
  = filter (fun a => key a =? k) (x :: l).
Proof.
  intros Gx Gl. induction Gl as [ | y l Gy Gl IH]; [ reflexivity | ].
  simpl insert. rewrite (cmp_key x y Gx Gy).
  destruct (Z.ltb_spec (key y) (key x)) as [L | L]; [ | reflexivity ].
  simpl in *. rewrite IH.
  destruct (Z.eqb_spec (key y) k), (Z.eqb_spec (key x) k); trivial; lia.
Qed.

Lemma sort_stable (k : Z) (l : list A) :
  Forall good l ->
  filter (fun a => key a =? k) (sort cmp l) = filter (fun a => key a =? k) l.
Proof.
  induction l as [ | x l IH]; simpl; intros G; [ reflexivity | ].
  inversion G; subst.
  change (fold_right (insert cmp) [] l) with (sort cmp l).
  rewrite insert_stable by (auto; now apply sort_Forall).
  simpl. now rewrite IH.
Qed.

End KeyedSort.

End JSFacts.

(* ================================================================== *)
(** * Facts about the effects *)
(* ================================================================== *)

Module RunFacts.
Import JS Run.

Section Laws.

Context {page : Type}.

Implicit Types w : world page.

Lemma bind_returned {A B} (m : Run.M page A) (k : A -> Run.M page B) w a w' :
  m w = (Returned a, w') -> bind m k w = k a w'.
Proof. unfold bind. now intros ->. Qed.

Lemma bind_thrown {A B} (m : Run.M page A) (k : A -> Run.M page B) w e w' :
  m w = (Thrown e, w') -> bind m k w = (Thrown e, w').
Proof. unfold bind. now intros ->. Qed.

(** *** Computations that keep the state file and the network *)

Lemma quiet_ret {A} (a : A) : quiet (page := page) (ret a).
Proof. intros w. now split. Qed.

Lemma quiet_throw {A} (e : exn) : quiet (page := page) (A := A) (throw e).
Proof. intros w. now split. Qed.

Lemma quiet_bind {A B} (m : Run.M page A) (k : A -> Run.M page B) :
  quiet m -> (forall a, quiet (k a)) -> quiet (bind m k).
Proof.
  intros Hm Hk w. unfold bind. specialize (Hm w).
  destruct (m w) as [[a | e] w1]; simpl in Hm.
  - destruct Hm as [F0 N0], (Hk a w1) as [F N]. split; congruence.
  - exact Hm.
Qed.

Lemma quiet_try_catch {A} (m : Run.M page A) (h : exn -> Run.M page A) :
  quiet m -> (forall e, quiet (h e)) -> quiet (try_catch m h).
Proof.
  intros Hm Hh w. unfold try_catch. specialize (Hm w).
  destruct (m w) as [[a | e] w1]; simpl in Hm.
  - exact Hm.
  - destruct Hm as [F0 N0], (Hh e w1) as [F N]. split; congruence.
Qed.

Lemma quiet_emit (e : event) : quiet (page := page) (emit e).
Proof. intros w. now split. Qed.

Lemma quiet_log (c : console) : quiet (page := page) (log c).
Proof. apply quiet_emit. Qed.

Lemma quiet_sleep (ms : number) : quiet (page := page) (sleep ms).
Proof. apply quiet_emit. Qed.

Lemma quiet_fetch (r : request) : quiet (page := page) (fetch r).
Proof.
  intros w. unfold fetch. destruct (network w (calls w) r); now split.
Qed.

Lemma quiet_existsSync : quiet (page := page) existsSync.
Proof. intros w. now split. Qed.

Lemma quiet_read_json : quiet (page := page) read_json.
Proof.
  intros w. unfold read_json.
  destruct (state_file w) eqn:E; simpl; now rewrite ?E.
Qed.

Lemma quiet_get_property raw key : quiet (page := page) (get_property raw key).
Proof. intros w. destruct raw; now split. Qed.

Lemma quiet_for_of {A} (xs : list A) (body : A -> Run.M page unit) :
  (forall x, quiet (body x)) -> quiet (for_of xs body).
Proof.
  intros Hb. induction xs as [ | x xs IH]; simpl.
  - apply quiet_ret.
  - apply quiet_bind; auto.
Qed.

(** *** Computations that never throw *)

Lemma safe_ret {A} (a : A) : safe (page := page) (ret a).
Proof. intros w. now exists a. Qed.

Lemma safe_bind {A B} (m : Run.M page A) (k : A -> Run.M page B) :
  safe m -> (forall a, safe (k a)) -> safe (bind m k).
Proof.
  intros Hm Hk w. unfold bind. destruct (Hm w) as [a E].
  destruct (m w) as [[a' | e] w1]; simpl in E; [ | discriminate ].
  apply Hk.
Qed.

Lemma safe_try_catch {A} (m : Run.M page A) (h : exn -> Run.M page A) :
  (forall e, safe (h e)) -> safe (try_catch m h).
Proof.
  intros Hh w. unfold try_catch.
  destruct (m w) as [[a | e] w1]; [ now exists a | apply Hh ].
Qed.

Lemma safe_emit (e : event) : safe (page := page) (emit e).
Proof. intros w. now exists tt. Qed.

Lemma safe_log (c : console) : safe (page := page) (log c).
Proof. apply safe_emit. Qed.

Lemma safe_sleep (ms : number) : safe (page := page) (sleep ms).
Proof. apply safe_emit. Qed.

Lemma safe_for_of {A} (xs : list A) (body : A -> Run.M page unit) :
  (forall x, safe (body x)) -> safe (for_of xs body).
Proof.
  intros Hb. induction xs as [ | x xs IH]; simpl.
  - apply safe_ret.
  - apply safe_bind; auto.
Qed.

(** *** Computations without effects *)

Lemma pure_ret {A} (a : A) : pure (page := page) (ret a).
Proof. now intros w. Qed.

Lemma pure_throw {A} (e : exn) : pure (page := page) (A := A) (throw e).
Proof. now intros w. Qed.

Lemma pure_bind {A B} (m : Run.M page A) (k : A -> Run.M page B) :
  pure m -> (forall a, pure (k a)) -> pure (bind m k).
Proof.
  intros Hm Hk w. unfold bind. specialize (Hm w).
  destruct (m w) as [[a | e] w1]; simpl in Hm; subst; [ apply Hk | reflexivity ].
Qed.

Lemma pure_try_catch {A} (m : Run.M page A) (h : exn -> Run.M page A) :
  pure m -> (forall e, pure (h e)) -> pure (try_catch m h).
Proof.
  intros Hm Hh w. unfold try_catch. specialize (Hm w).
  destruct (m w) as [[a | e] w1]; simpl in Hm; subst; [ reflexivity | apply Hh ].
Qed.

Lemma pure_existsSync : pure (page := page) existsSync.
Proof. now intros w. Qed.

Lemma pure_read_json : pure (page := page) read_json.
Proof. intros w. unfold read_json. now destruct (state_file w). Qed.

Lemma pure_get_property raw key : pure (page := page) (get_property raw key).
Proof. intros w. now destruct raw. Qed.

(** *** Computations that only read one page *)

Lemma requests_app (l l' : list event) :
  requests (l ++ l') = requests l ++ requests l'.
Proof. apply flat_map_app. Qed.

Lemma only_gets_pure url {A} (m : Run.M page A) : pure m -> only_gets url m.
Proof. intros P w. exists 0%nat. rewrite (P w). simpl. now rewrite app_nil_r. Qed.

Lemma only_gets_bind url {A B} (m : Run.M page A) (k : A -> Run.M page B) :
  only_gets url m -> (forall a, only_gets url (k a)) -> only_gets url (bind m k).
Proof.
  intros Hm Hk w. unfold bind. destruct (Hm w) as [n E].
  destruct (m w) as [[a | e] w1]; simpl in E.
  - destruct (Hk a w1) as [n' E']. exists (n + n')%nat.
    now rewrite E', E, repeat_app, app_assoc.
  - now exists n.
Qed.

Lemma only_gets_try_catch url {A} (m : Run.M page A) (h : exn -> Run.M page A) :
  only_gets url m -> (forall e, only_gets url (h e)) ->
  only_gets url (try_catch m h).
Proof.
  intros Hm Hh w. unfold try_catch. destruct (Hm w) as [n E].
  destruct (m w) as [[a | e] w1]; simpl in E.
  - now exists n.
  - destruct (Hh e w1) as [n' E']. exists (n + n')%nat.
    now rewrite E', E, repeat_app, app_assoc.
Qed.

Lemma only_gets_log url (c : console) : only_gets (page := page) url (log c).
Proof.
  intros w. exists 0%nat. simpl. rewrite requests_app. simpl.
  now rewrite !app_nil_r.
Qed.

Lemma only_gets_sleep url (ms : number) : only_gets (page := page) url (sleep ms).
Proof.
  intros w. exists 0%nat. simpl. rewrite requests_app. simpl.
  now rewrite !app_nil_r.
Qed.

Lemma only_gets_fetch url : only_gets (page := page) url (fetch (GET url)).
Proof.
  intros w. exists 1%nat. unfold fetch.
  destruct (network w (calls w) (GET url)); simpl; now rewrite requests_app.
Qed.

End Laws.

Create HintDb quiet.
Create HintDb safe.
Create HintDb pure.

#[export] Hint Resolve quiet_ret quiet_throw quiet_bind quiet_try_catch quiet_emit
  quiet_log quiet_sleep quiet_fetch quiet_existsSync quiet_read_json quiet_get_property quiet_for_of
  : quiet.
#[export] Hint Resolve safe_ret safe_bind safe_try_catch safe_emit safe_log
  safe_sleep safe_for_of : safe.
#[export] Hint Resolve pure_ret pure_throw pure_bind pure_try_catch pure_existsSync
  pure_read_json pure_get_property : pure.

End RunFacts.

(* ================================================================== *)
(** * Facts about articles *)
(* ================================================================== *)

Module ArticleFacts.
Import JS Articles JSFacts.

Lemma by_published_time (x y : Article) :
  dated x -> dated y ->
  gt (by_published x y) (of_Z 0) = (time y <? time x).
Proof.
  intros [tx Ex] [ty Ey]. unfold by_published, time. rewrite Ex, Ey.
  apply sub_positive.
Qed.

Lemma sorted_ascending (l : list Article) :
  Forall dated l -> StronglySorted (key_le time) l -> ascending l.
Proof.
  unfold ascending. intros D S. induction S as [ | a l S IH F]; constructor.
  - apply IH. now inversion D.
  - inversion D as [ | ? ? [ta Ea] Dl]; subst.
    rewrite Forall_forall in *. intros b I.
    destruct (Dl b I) as [tb Eb]. exists ta, tb.
    specialize (F b I). unfold key_le, time in F. rewrite Ea, Eb in F. auto.
Qed.

Lemma published_at_time (d : Date) (l : list Article) :
  Forall dated l ->
  published_at d l
  = match d with
    | InvalidDate => []
    | DateOf k => filter (fun a => time a =? k) l
    end.
Proof.
  unfold published_at. induction 1 as [ | a l [t E] D IH]; simpl.
  - now destruct d.
  - rewrite IH, E. destruct d as [ | k]; [ reflexivity | ].
    rewrite same_time_DateOf.
    replace (time a) with t by (unfold time; now rewrite E).
    reflexivity.
Qed.

(** ** The newest date of a batch *)

Lemma getTime_well_dated (articles : list Article) :
  Forall well_dated articles ->
  map (fun a => getTime (published a)) articles = map of_Z (map time articles).
Proof.
  induction 1 as [ | a l V F IH]; simpl; [ reflexivity | ].
  rewrite IH. unfold well_dated, time in *.
  now destruct (published a).
Qed.

Lemma max_published_nil : new_Date (max_published []) = InvalidDate.
Proof. reflexivity. Qed.

Lemma max_published_well_dated (articles : list Article) :
  articles <> [] -> Forall well_dated articles ->
  exists m, greatest m (map time articles)
            /\ max_published articles = of_Z m
            /\ new_Date (max_published articles) = DateOf m.
Proof.
  intros N F. unfold max_published. rewrite getTime_well_dated by exact F.
  destruct (Math_max_of_Z (map time articles)) as (m & E & G).
  { destruct articles; [ congruence | discriminate ]. }
  exists m. split; [ exact G | split; [ exact E | ] ].
  rewrite E. unfold new_Date. rewrite TimeClip_of_Z.
  destruct G as [I _]. apply in_map_iff in I. destruct I as (a & <- & I).
  rewrite Forall_forall in F. specialize (F a I).
  unfold well_dated, time in *. destruct (published a) as [ | t]; [ easy | ].
  simpl in F. apply Z.leb_le in F. now rewrite F.
Qed.

Lemma dated_in_range_well_dated (a : Article) :
  dated a -> in_range (published a) -> well_dated a.
Proof.
  intros [t E]. unfold well_dated. now rewrite E.
Qed.

Lemma sort_In (l : list Article) (a : Article) :
  In a (sort by_published l) <-> In a l.
Proof.
  split; apply Permutation_in.
  - apply sort_perm.
  - symmetry. apply sort_perm.
Qed.

Lemma sort_ascending (l : list Article) :
  Forall dated l -> ascending (sort by_published l).
Proof.
  intros D. apply sorted_ascending.
  - now apply sort_Forall.
  - apply sort_sorted with (good := dated); [ apply by_published_time | exact D ].
Qed.

Lemma sort_published_at (d : Date) (l : list Article) :
  Forall dated l ->
  published_at d (sort by_published l) = published_at d l.
Proof.
  intros D. rewrite !published_at_time by (try apply sort_Forall; exact D).
  destruct d as [ | k]; [ reflexivity | ].
  apply sort_stable with (good := dated); [ apply by_published_time | exact D ].
Qed.

End ArticleFacts.

(* ================================================================== *)
(** * Facts about the Arc Raiders scraper *)
(* ================================================================== *)

Module ArcFacts.
Import JS Run Articles ArcRaiders JSFacts RunFacts ArticleFacts.
Local Open Scope run_scope.

Section Facts.

Context `{BI : builtins}.

Implicit Types w : world page.

(** ** State *)

Lemma loadState_spec w :
  loadState w = (Returned (load_spec (state_file w)), w).
Proof.
  unfold loadState, load_spec, bind, try_catch, existsSync, read_json.
  destruct (state_file w) as [ | | raw] eqn:E; cbn [negb]; cbv beta;
    rewrite ?E; try reflexivity.
  destruct raw as [ | b | n | s | elements | members]; try reflexivity.
  cbn [negb get_property ret].
  destruct (member "last_published" members) as [v | ]; [ | reflexivity ].
  destruct (json_truthy v); [ | reflexivity ].
  destruct (new_Date_json v) as [ | t]; [ reflexivity | ].
  cbn. destruct (member "posted_urls" members) as [[ | | | | urls | ] | ];
    reflexivity.
Qed.

Lemma load_spec_in_range (f : file) (state : State) :
  load_spec f = Some state -> valid (lastPublished state).
Proof.
  unfold load_spec. destruct f as [ | | [ | | | | | members]]; try discriminate.
  destruct (member "last_published" members) as [v | ]; [ | discriminate ].
  destruct (json_truthy v); [ | discriminate ].
  assert (R := new_Date_json_in_range v).
  destruct (new_Date_json v) as [ | t]; [ discriminate | ].
  intros [= <-]. exact R.
Qed.

Lemma toISOString_valid (t : Z) w : toISOString (DateOf t) w = (Returned (ISO_string t), w).
Proof. reflexivity. Qed.

Lemma saveState_valid (t : Z) (urls : list string) w :
  saveState (DateOf t) urls w = (Returned tt, set_state_file (record t urls) w).
Proof. reflexivity. Qed.

Lemma saveState_invalid (urls : list string) w :
  saveState InvalidDate urls w = (Thrown (RangeError "Invalid time value"), w).
Proof. reflexivity. Qed.

(** ** Scrape *)

Lemma quiet_fetch_attempts url maxAttempts attempt todo :
  quiet (fetch_attempts url maxAttempts attempt todo).
Proof.
  revert attempt. induction todo as [ | todo IH]; intros attempt; simpl.
  - apply quiet_ret.
  - apply quiet_bind.
    + apply quiet_try_catch.
      * apply quiet_bind; [ apply quiet_fetch | ].
        intros res. destruct (ok res); auto with quiet.
      * intros e. auto with quiet.
    + intros [res | ]; [ apply quiet_ret | ].
      apply quiet_bind; [ | intros _; apply IH ].
      destruct (attempt <? maxAttempts)%nat; auto with quiet.
Qed.

Lemma safe_fetch_attempts url maxAttempts attempt todo :
  safe (fetch_attempts url maxAttempts attempt todo).
Proof.
  revert attempt. induction todo as [ | todo IH]; intros attempt; simpl.
  - apply safe_ret.
  - apply safe_bind.
    + apply safe_try_catch. intros e. auto with safe.
    + intros [res | ]; [ apply safe_ret | ].
      apply safe_bind; [ | intros _; apply IH ].
      destruct (attempt <? maxAttempts)%nat; auto with safe.
Qed.

Lemma pure_parseDate text : pure (parseDate text).
Proof.
  unfold parseDate.
  destruct (isNaN (getTime (new_Date (Date_parse (text ++ " UTC")))));
    auto with pure.
Qed.

Lemma parseDate_valid text w d w' :
  parseDate text w = (Returned d, w') -> valid d.
Proof.
  unfold parseDate, new_Date.
  assert (R := TimeClip_in_range (Date_parse (text ++ " UTC"))).
  destruct (TimeClip (Date_parse (text ++ " UTC"))) as [ | t]; simpl.
  - discriminate.
  - intros [= <- _]. exact R.
Qed.

Lemma pure_scrape_card articles c : pure (scrape_card articles c).
Proof.
  unfold scrape_card. destruct (card_href c) as [href | ]; [ | apply pure_ret ].
  destruct (String.eqb href ""); [ apply pure_ret | ].
  destruct (URL_href href BASE_URL) as [u | ]; [ | apply pure_throw ].
  apply pure_bind; [ apply pure_parseDate | ].
  intros d. destruct (_ || _); apply pure_ret.
Qed.

Lemma scrape_card_well_dated articles c w articles' w' :
  Forall well_dated articles ->
  scrape_card articles c w = (Returned articles', w') ->
  Forall well_dated articles'.
Proof.
  intros F. unfold scrape_card.
  destruct (card_href c) as [href | ]; [ | now intros [= <- _] ].
  destruct (String.eqb href ""); [ now intros [= <- _] | ].
  destruct (URL_href href BASE_URL) as [u | ]; [ | discriminate ].
  unfold bind. destruct (parseDate (card_date c) w) as [[d | e] w1] eqn:P;
    [ | discriminate ].
  apply parseDate_valid in P.
  destruct (_ || _); intros [= <- _]; [ exact F | ].
  apply Forall_app. split; [ exact F | ].
  constructor; [ | constructor ].
  unfold well_dated; simpl. now rewrite copy_Date_id by now apply valid_in_range.
Qed.

Lemma pure_scrape_cards cards : forall articles, pure (scrape_cards articles cards).
Proof.
  induction cards as [ | c cards IH]; intros articles; simpl.
  - apply pure_ret.
  - apply pure_bind; [ apply pure_scrape_card | intros a; apply IH ].
Qed.

Lemma scrape_cards_well_dated cards : forall articles w articles' w',
  Forall well_dated articles ->
  scrape_cards articles cards w = (Returned articles', w') ->
  Forall well_dated articles'.
Proof.
  induction cards as [ | c cards IH]; intros articles w articles' w' F; simpl.
  - now intros [= <- _].
  - unfold bind.
    destruct (scrape_card articles c w) as [[a1 | e] w1] eqn:S; [ | discriminate ].
    intros R. eapply IH; [ | exact R ].
    eapply scrape_card_well_dated; eassumption.
Qed.

Lemma quiet_pure {A} (m : M A) : pure m -> quiet m.
Proof. intros P w. now rewrite (P w). Qed.

Lemma arc_quiet_getLatestNewsArticles : quiet getLatestNewsArticles.
Proof.
  unfold getLatestNewsArticles. apply quiet_bind.
  - apply quiet_fetch_attempts.
  - intros [res | ]; [ | auto with quiet ].
    destruct (body res).
    + apply quiet_throw.
    + apply quiet_pure, pure_scrape_cards.
Qed.

Lemma only_gets_fetch_attempts url maxAttempts attempt todo :
  only_gets url (fetch_attempts url maxAttempts attempt todo).
Proof.
  revert attempt. induction todo as [ | todo IH]; intros attempt; simpl.
  - apply only_gets_pure, pure_ret.
  - apply only_gets_bind.
    + apply only_gets_try_catch.
      * apply only_gets_bind; [ apply only_gets_fetch | ].
        intros res. destruct (ok res).
        -- apply only_gets_pure, pure_ret.
        -- apply only_gets_bind; [ apply only_gets_log | ].
           intros _. apply only_gets_pure, pure_ret.
      * intros e. apply only_gets_bind; [ apply only_gets_log | ].
        intros _. apply only_gets_pure, pure_ret.
    + intros [res | ]; [ apply only_gets_pure, pure_ret | ].
      apply only_gets_bind; [ | intros _; apply IH ].
      destruct (attempt <? maxAttempts)%nat.
      * apply only_gets_sleep.
      * apply only_gets_pure, pure_ret.
Qed.

Lemma only_gets_getLatestNewsArticles : only_gets NEWS_URL getLatestNewsArticles.
Proof.
  unfold getLatestNewsArticles. apply only_gets_bind.
  - apply only_gets_fetch_attempts.
  - intros [res | ].
    + destruct (body res).
      * apply only_gets_pure, pure_throw.
      * apply only_gets_pure, pure_scrape_cards.
    + apply only_gets_bind; [ apply only_gets_log | ].
      intros _. apply only_gets_pure, pure_ret.
Qed.

Lemma getLatestNewsArticles_well_dated w articles w' :
  getLatestNewsArticles w = (Returned articles, w') ->
  Forall well_dated articles.
Proof.
  unfold getLatestNewsArticles, bind.
  destruct (fetchWithRetry NEWS_URL 3 w) as [[[res | ] | e] w1]; try discriminate.
  - destruct (body res); [ discriminate | ].
    apply scrape_cards_well_dated. constructor.
  - cbn. intros [= <- _]. constructor.
Qed.

(** ** Delta logic *)

Lemma collect_selected state unposted article :
  collect state unposted article
  = if selected state article then unposted ++ [article] else unposted.
Proof.
  unfold collect, selected.
  destruct (Date_gt (published article) (lastPublished state)); [ reflexivity | ].
  simpl. now destruct (_ && _).
Qed.

Lemma fold_collect state articles : forall acc,
  fold_left (collect state) articles acc = acc ++ filter (selected state) articles.
Proof.
  induction articles as [ | a articles IH]; intros acc; simpl.
  - now rewrite app_nil_r.
  - rewrite IH, collect_selected. destruct (selected state a).
    + now rewrite <- app_assoc.
    + reflexivity.
Qed.

Lemma unposted_filter state articles :
  unposted state articles = sort by_published (filter (selected state) articles).
Proof. unfold unposted. now rewrite fold_collect. Qed.

Lemma selected_true state a :
  selected state a = true <-> newer state a \/ unseen_sibling state a.
Proof.
  unfold selected, newer, unseen_sibling.
  rewrite orb_true_iff, andb_true_iff, negb_true_iff, Date_gt_true, same_time_true.
  rewrite <- not_true_iff_false, includes_In. reflexivity.
Qed.

Lemma selected_dated state a : selected state a = true -> dated a.
Proof.
  rewrite selected_true. intros [(t & l & E & _) | ((t & E & _) & _)]; now exists t.
Qed.

Lemma Forall_selected_dated state articles :
  Forall dated (filter (selected state) articles).
Proof.
  apply Forall_forall. intros a I. apply filter_In in I.
  eapply selected_dated, I.
Qed.

Lemma arc_unposted_In state articles a :
  In a (unposted state articles) <-> In a articles /\ selected state a = true.
Proof. now rewrite unposted_filter, sort_In, filter_In. Qed.

Lemma unposted_dated state articles : Forall dated (unposted state articles).
Proof.
  apply Forall_forall. intros a I. apply arc_unposted_In in I.
  eapply selected_dated, I.
Qed.

Lemma arc_unposted_ascending state articles : ascending (unposted state articles).
Proof.
  rewrite unposted_filter. apply sort_ascending, Forall_selected_dated.
Qed.

Lemma arc_unposted_stable state articles d :
  published_at d (unposted state articles)
  = published_at d (filter (selected state) articles).
Proof.
  rewrite unposted_filter. apply sort_published_at, Forall_selected_dated.
Qed.

(** ** [getUnpostedArticles] *)

Lemma arc_getUnpostedArticles_warm w state articles w1 :
  load_spec (state_file w) = Some state ->
  getLatestNewsArticles w = (Returned articles, w1) ->
  getUnpostedArticles w = (Returned (unposted state articles), w1).
Proof.
  intros L S. unfold getUnpostedArticles.
  rewrite (bind_returned _ _ _ _ _ (loadState_spec w)).
  rewrite (bind_returned _ _ _ _ _ S). now rewrite L.
Qed.

Lemma arc_getUnpostedArticles_cold w articles w1 :
  load_spec (state_file w) = None ->
  getLatestNewsArticles w = (Returned articles, w1) ->
  getUnpostedArticles w
  = match new_Date (max_published articles) with
    | DateOf t => (Returned [], set_state_file (record t []) w1)
    | InvalidDate => (Thrown (RangeError "Invalid time value"), w1)
    end.
Proof.
  intros L S. unfold getUnpostedArticles.
  rewrite (bind_returned _ _ _ _ _ (loadState_spec w)).
  rewrite (bind_returned _ _ _ _ _ S). rewrite L.
  now destruct (new_Date (max_published articles)).
Qed.

Lemma arc_getUnpostedArticles_thrown w e w1 :
  getLatestNewsArticles w = (Thrown e, w1) ->
  getUnpostedArticles w = (Thrown e, w1).
Proof.
  intros S. unfold getUnpostedArticles.
  rewrite (bind_returned _ _ _ _ _ (loadState_spec w)).
  now rewrite (bind_thrown _ _ _ _ _ S).
Qed.

Lemma getUnpostedArticles_ascending w articles w' :
  getUnpostedArticles w = (Returned articles, w') -> ascending articles.
Proof.
  destruct (getLatestNewsArticles w) as [[found | e] w1] eqn:S.
  - destruct (load_spec (state_file w)) as [state | ] eqn:L.
    + rewrite (arc_getUnpostedArticles_warm w state found w1 L S).
      intros [= <- _]. apply arc_unposted_ascending.
    + rewrite (arc_getUnpostedArticles_cold w found w1 L S).
      destruct (new_Date (max_published found)); [ discriminate | ].
      intros [= <- _]. constructor.
  - now rewrite (arc_getUnpostedArticles_thrown w e w1 S).
Qed.

Lemma arc_load_spec_record (t : Z) (urls : list string) :
  iso_round_trip BI -> Z.abs t <= maxTime ->
  load_spec (record t urls)
  = Some {| lastPublished := DateOf t; postedUrls := map JStr urls |}.
Proof.
  intros RT R. destruct (RT t R) as [NE P].
  unfold load_spec, record. cbn [member String.eqb Ascii.eqb Bool.eqb].
  cbn [json_truthy new_Date_json].
  apply String.eqb_neq in NE. rewrite NE, P, TimeClip_of_Z.
  apply Z.leb_le in R. now rewrite R.
Qed.

(** ** Same-day siblings *)

Lemma unposted_tie_break state a b :
  dated a ->
  published a = lastPublished state ->
  published b = published a ->
  In (JStr (url a)) (postedUrls state) ->
  ~ In (JStr (url b)) (postedUrls state) ->
  unposted state [a; b] = [b] /\ unposted state [b; a] = [b].
Proof.
  intros [t E] L Eb Ia Ib.
  assert (Sa : selected state a = false).
  { apply not_true_iff_false. rewrite selected_true.
    intros [(ta & l & Ea & El & Lt) | (_ & N)]; [ | contradiction ].
    rewrite <- L, E in El. rewrite E in Ea. injection Ea as <-.
    injection El as <-. lia. }
  assert (Sb : selected state b = true).
  { apply selected_true. right. split; [ | exact Ib ].
    exists t. rewrite Eb, <- L. auto. }
  rewrite !unposted_filter. cbn [filter]. rewrite Sa, Sb. now split.
Qed.

(** ** When the newest date advances

    What a write-back records makes the same list settle, provided the
    newest date it found is later than the one on record. *)

Lemma unposted_settles_after_advance state articles l m :
  lastPublished state = DateOf l ->
  greatest m (map time (unposted state articles)) ->
  l < m ->
  unposted
    {| lastPublished := DateOf m;
       postedUrls := map JStr (urls_at (DateOf m) (unposted state articles)) |}
    articles
  = [].
Proof.
  intros L [_ G] Lt. rewrite Forall_forall in G.
  assert (later : forall a t,
    In a articles -> published a = DateOf t -> l < t ->
    In a (unposted state articles)).
  { intros a t I E Lta. apply arc_unposted_In. split; [ exact I | ].
    apply selected_true. left. now exists t, l. }
  rewrite unposted_filter.
  match goal with |- sort _ ?f = _ => destruct f as [ | a rest] eqn:E end;
    [ reflexivity | exfalso ].
  assert (I : In a (a :: rest)) by now left.
  rewrite <- E in I. apply filter_In in I. destruct I as [I S].
  apply selected_true in S.
  destruct S as [(t & m' & Et & Em & Ltm) | ((t & Et & Em) & N)];
    cbn [lastPublished postedUrls] in *; injection Em as <-.
  - assert (U := later a t I Et ltac:(lia)).
    assert (B : time a <= m) by (apply G, in_map, U).
    unfold time in B. rewrite Et in B. lia.
  - assert (U := later a m I Et Lt).
    apply N, in_map. unfold urls_at. apply in_map, filter_In.
    split; [ exact U | ]. rewrite Et, same_time_DateOf. apply Z.eqb_refl.
Qed.

(** ** A fetch that fails on every attempt *)

Lemma fetch_attempts_abandoned url maxAttempts : forall todo attempt w,
  (forall k, (k < todo)%nat ->
             failed (network w (calls w + k) (GET url)) = true) ->
  exists w',
    fetch_attempts url maxAttempts attempt todo w = (Returned None, w')
    /\ state_file w' = state_file w
    /\ network w' = network w
    /\ calls w' = (calls w + todo)%nat
    /\ requests (trace w') = requests (trace w) ++ repeat (GET url) todo.
Proof.
  induction todo as [ | todo IH]; intros attempt w F.
  - exists w. simpl. rewrite Nat.add_0_r, app_nil_r. auto.
  - assert (F0 := F 0%nat ltac:(lia)). rewrite Nat.add_0_r in F0.
    cbn [fetch_attempts]. unfold bind at 1, try_catch, bind at 1, fetch.
    set (w1 := {| state_file := state_file w; network := network w;
                  calls := S (calls w);
                  trace := trace w ++ [Requested (GET url)] |}).
    assert (step : forall c,
      exists w2,
        ((if (attempt <? maxAttempts)%nat
          then sleep (of_Z (2000 * Z.of_nat attempt)) else ret tt) ;;;
         fetch_attempts url maxAttempts (S attempt) todo)
          (snd (log c w1))
        = (Returned None, w2)
        /\ state_file w2 = state_file w /\ network w2 = network w
        /\ calls w2 = (calls w + S todo)%nat
        /\ requests (trace w2)
           = requests (trace w) ++ repeat (GET url) (S todo)).
    { intros c. unfold bind.
      set (w2 := snd ((if (attempt <? maxAttempts)%nat
                       then sleep (of_Z (2000 * Z.of_nat attempt))
                       else ret tt) (snd (log c w1)))).
      assert (Q : state_file w2 = state_file w /\ network w2 = network w
                  /\ calls w2 = S (calls w)
                  /\ requests (trace w2)
                     = requests (trace w) ++ [GET url]).
      { subst w2. destruct (attempt <? maxAttempts)%nat; simpl;
          rewrite ?requests_app; simpl; rewrite ?app_nil_r; auto. }
      destruct Q as (Qf & Qn & Qc & Qr).
      destruct (IH (S attempt) w2) as (w3 & E & Ef & En & Ec & Er).
      { intros k Hk. rewrite Qn, Qc.
        replace (S (calls w) + k)%nat with (calls w + S k)%nat by lia.
        apply F. lia. }
      exists w3.
      replace ((if (attempt <? maxAttempts)%nat
                then sleep (of_Z (2000 * Z.of_nat attempt))
                else ret tt) (snd (log c w1)))
        with (Returned tt, w2)
        by (subst w2; now destruct (attempt <? maxAttempts)%nat).
      rewrite E. split; [ reflexivity | ].
      split; [ congruence | ]. split; [ congruence | ].
      split; [ lia | ].
      rewrite Er, Qr, <- app_assoc. reflexivity. }
    destruct (network w (calls w) (GET url)) as [message | res]; simpl in F0.
    + apply (step (FetchAttemptFailed attempt message)).
    + rewrite negb_true_iff in F0. rewrite F0.
      apply (step (FetchAttemptBlocked attempt (status res))).
Qed.

Lemma getLatestNewsArticles_abandoned w :
  (forall k, (k < 3)%nat ->
             failed (network w (calls w + k) (GET NEWS_URL)) = true) ->
  exists w',
    getLatestNewsArticles w = (Returned [], w')
    /\ state_file w' = state_file w
    /\ network w' = network w
    /\ requests (trace w') = requests (trace w) ++ repeat (GET NEWS_URL) 3.
Proof.
  intros F. unfold getLatestNewsArticles, fetchWithRetry.
  destruct (fetch_attempts_abandoned NEWS_URL 3 3 1 w F)
    as (w1 & E & Ef & En & Ec & Er).
  rewrite (bind_returned _ _ _ _ _ E).
  eexists. split; [ reflexivity | ]. simpl.
  rewrite requests_app, Er. simpl. rewrite app_nil_r. auto.
Qed.

(** ** Discord webhook *)

Variable WEBHOOK : string.

Lemma quiet_postToDiscord article retries : quiet (postToDiscord WEBHOOK article retries).
Proof.
  induction retries as [ | retries IH]; cbn [postToDiscord];
    (apply quiet_bind; [ apply quiet_fetch | intros res ]).
  - destruct (negb (ok res)); auto with quiet.
  - destruct (status res =? 429).
    + apply quiet_bind; [ apply quiet_sleep | intros _; exact IH ].
    + destruct (negb (ok res)); auto with quiet.
Qed.

Lemma arc_postToDiscord_rate_limited article retries w res :
  network w (calls w) (POST WEBHOOK (content article)) = Responded res ->
  status res = 429 ->
  postToDiscord WEBHOOK article (S retries) w
  = postToDiscord WEBHOOK article retries
      (waited (scale (or_else (Number_of_header (retry_after res)) (of_Z 5)) 1000)
              (answered (POST WEBHOOK (content article)) w)).
Proof.
  intros N S. cbn [postToDiscord]. unfold bind at 1, fetch. rewrite N, S.
  reflexivity.
Qed.

Lemma postToDiscord_exhausted article w res :
  network w (calls w) (POST WEBHOOK (content article)) = Responded res ->
  status res = 429 ->
  postToDiscord WEBHOOK article 0 w
  = (Thrown (Error "Discord webhook failed: 429"),
     answered (POST WEBHOOK (content article)) w).
Proof.
  intros N S. cbn [postToDiscord]. unfold bind at 1, fetch, ok. rewrite N, S.
  reflexivity.
Qed.

Lemma postToDiscord_rejected article retries w res :
  network w (calls w) (POST WEBHOOK (content article)) = Responded res ->
  status res <> 429 -> ok res = false ->
  postToDiscord WEBHOOK article retries w
  = (Thrown (Error ("Discord webhook failed: " ++ Z_to_string (status res))),
     answered (POST WEBHOOK (content article)) w).
Proof.
  intros N S K. apply Z.eqb_neq in S.
  destruct retries; cbn [postToDiscord]; unfold bind at 1, fetch;
    rewrite N, ?S, K; reflexivity.
Qed.

Lemma postToDiscord_delivered article retries w res :
  network w (calls w) (POST WEBHOOK (content article)) = Responded res ->
  ok res = true ->
  postToDiscord WEBHOOK article retries w
  = (Returned tt, answered (POST WEBHOOK (content article)) w).
Proof.
  intros N K.
  assert (S : (status res =? 429) = false).
  { unfold ok in K. apply andb_true_iff in K. destruct K as [_ K].
    apply Z.leb_le in K. apply Z.eqb_neq. lia. }
  destruct retries; cbn [postToDiscord]; unfold bind at 1, fetch;
    rewrite N, ?S, K; reflexivity.
Qed.

Lemma postToDiscord_bounded article : forall retries w,
  (calls (snd (postToDiscord WEBHOOK article retries w))
   <= calls w + S retries)%nat.
Proof.
  assert (last : forall (res : response page) w0,
    (calls (snd ((if negb (ok res)
                  then throw (Error ("Discord webhook failed: "
                                     ++ Z_to_string (status res)))
                  else ret tt) w0)) = calls w0)).
  { intros res w0. now destruct (negb (ok res)). }
  induction retries as [ | retries IH]; intros w; cbn [postToDiscord];
    unfold bind at 1, fetch;
    destruct (network w (calls w) (POST WEBHOOK (content article))) as [m | res];
    simpl; try lia.
  - rewrite last. simpl. lia.
  - destruct (status res =? 429).
    + unfold bind, sleep, emit. simpl.
      match goal with |- (calls (snd (postToDiscord _ _ _ ?w0)) <= _)%nat =>
        specialize (IH w0); simpl in IH end.
      lia.
    + rewrite last. simpl. lia.
Qed.

(** ** Main *)

Lemma quiet_deliver articles : quiet (deliver WEBHOOK articles).
Proof.
  apply quiet_for_of. intros a. apply quiet_try_catch.
  - apply quiet_postToDiscord.
  - intros e. apply quiet_log.
Qed.

Lemma safe_deliver articles : safe (deliver WEBHOOK articles).
Proof.
  apply safe_for_of. intros a. apply safe_try_catch. intros e. apply safe_log.
Qed.

Lemma script_main w :
  WEBHOOK <> "" -> script (Some WEBHOOK) w = main WEBHOOK w.
Proof.
  intros N. unfold script. apply String.eqb_neq in N. now rewrite N.
Qed.

Lemma arc_main_nothing_new w w1 :
  getUnpostedArticles w = (Returned [], w1) ->
  main WEBHOOK w = (Returned tt, w1).
Proof.
  intros G. unfold main. now rewrite (bind_returned _ _ _ _ _ G).
Qed.

Lemma arc_main_thrown w e w1 :
  getUnpostedArticles w = (Thrown e, w1) ->
  main WEBHOOK w = (Thrown e, w1).
Proof.
  intros G. unfold main. now rewrite (bind_thrown _ _ _ _ _ G).
Qed.

Lemma main_write_back w newArticles w1 :
  getUnpostedArticles w = (Returned newArticles, w1) ->
  newArticles <> [] ->
  exists w2,
    deliver WEBHOOK newArticles w1 = (Returned tt, w2)
    /\ state_file w2 = state_file w1
    /\ network w2 = network w1
    /\ main WEBHOOK w
       = saveState (new_Date (max_published newArticles))
                   (urls_at (new_Date (max_published newArticles)) newArticles)
                   w2.
Proof.
  intros G N. unfold main. rewrite (bind_returned _ _ _ _ _ G).
  destruct (safe_deliver newArticles w1) as [[] D].
  destruct (quiet_deliver newArticles w1) as [Qf Qn].
  destruct (deliver WEBHOOK newArticles w1) as [o w2] eqn:E. simpl in *. subst o.
  exists w2. split; [ reflexivity | ]. split; [ exact Qf | ].
  split; [ exact Qn | ].
  unfold bind. rewrite E. destruct newArticles; [ congruence | reflexivity ].
Qed.

End Facts.

End ArcFacts.

(* ================================================================== *)
(** * Facts about the Nightreign scraper *)
(* ================================================================== *)

Module NightreignFacts.
Import JS Run Articles Nightreign JSFacts RunFacts ArticleFacts.
Local Open Scope run_scope.

Section Facts.

Context `{BI : builtins}.

Implicit Types w : world page.

(** ** State *)

Lemma loadLastPublished_spec w :
  loadLastPublished w = (Returned (load_spec (state_file w)), w).
Proof.
  unfold loadLastPublished, load_spec, bind, try_catch, existsSync, read_json.
  destruct (state_file w) as [ | | raw] eqn:E; cbn [negb]; cbv beta;
    rewrite ?E; try reflexivity.
  destruct raw as [ | b | n | s | elements | members]; try reflexivity.
  cbn [negb get_property ret].
  destruct (member "last_published" members) as [v | ]; [ | reflexivity ].
  destruct (json_truthy v); [ | reflexivity ].
  destruct (new_Date_json v) as [ | t]; reflexivity.
Qed.

Lemma saveLastPublished_valid (t : Z) w :
  saveLastPublished (DateOf t) w = (Returned tt, set_state_file (record t) w).
Proof. reflexivity. Qed.

Lemma saveLastPublished_invalid w :
  saveLastPublished InvalidDate w = (Thrown (RangeError "Invalid time value"), w).
Proof. reflexivity. Qed.

(** ** Scrape *)

Lemma getLatestNewsArticles_rejected w message :
  network w (calls w) (GET URL) = Rejected message ->
  getLatestNewsArticles w = (Thrown (TypeError message), answered (GET URL) w).
Proof.
  intros N. unfold getLatestNewsArticles, bind, fetch. now rewrite N.
Qed.

Lemma getLatestNewsArticles_blocked w res :
  network w (calls w) (GET URL) = Responded res ->
  ok res = false ->
  getLatestNewsArticles w
  = (Thrown (Error ("HTTP " ++ Z_to_string (status res))), answered (GET URL) w).
Proof.
  intros N K. unfold getLatestNewsArticles, bind, fetch. now rewrite N, K.
Qed.

Lemma night_quiet_getLatestNewsArticles : quiet getLatestNewsArticles.
Proof.
  unfold getLatestNewsArticles. apply quiet_bind; [ apply quiet_fetch | ].
  intros res. destruct (negb (ok res)); [ apply quiet_throw | ].
  destruct (body res); auto with quiet.
Qed.

Lemma getLatestNewsArticles_requests w :
  requests (trace (snd (getLatestNewsArticles w)))
  = requests (trace w) ++ [GET URL].
Proof.
  unfold getLatestNewsArticles, bind, fetch.
  destruct (network w (calls w) (GET URL)) as [m | res]; simpl.
  - now rewrite requests_app.
  - destruct (negb (ok res)); [ | destruct (body res) ]; simpl;
      now rewrite requests_app.
Qed.

Lemma scrape_card_in_range articles c :
  Forall (fun a => in_range (published a)) articles ->
  Forall (fun a => in_range (published a)) (scrape_card articles c).
Proof.
  intros F. unfold scrape_card.
  destruct (card_url c) as [u | ]; [ | exact F ].
  destruct (card_datetime c) as [d | ]; [ | exact F ].
  destruct (_ || _); [ exact F | ].
  apply Forall_app. split; [ exact F | ].
  constructor; [ apply TimeClip_in_range | constructor ].
Qed.

Lemma scrape_cards_in_range cards : forall articles,
  Forall (fun a => in_range (published a)) articles ->
  Forall (fun a => in_range (published a)) (fold_left scrape_card cards articles).
Proof.
  induction cards as [ | c cards IH]; intros articles F; simpl; [ exact F | ].
  now apply IH, scrape_card_in_range.
Qed.

Lemma getLatestNewsArticles_in_range w articles w1 :
  getLatestNewsArticles w = (Returned articles, w1) ->
  Forall (fun a => in_range (published a)) articles.
Proof.
  unfold getLatestNewsArticles, bind.
  destruct (fetch (GET URL) w) as [[res | e] w']; [ | discriminate ].
  destruct (negb (ok res)); [ discriminate | ].
  destruct (body res); try discriminate.
  intros [= <- _]. apply scrape_cards_in_range. constructor.
Qed.

Lemma night_load_spec_record (t : Z) :
  iso_round_trip BI -> Z.abs t <= maxTime ->
  load_spec (record t) = Some (DateOf t).
Proof.
  intros RT R. destruct (RT t R) as [NE P].
  unfold load_spec, record. cbn [member String.eqb Ascii.eqb Bool.eqb].
  cbn [json_truthy new_Date_json].
  apply String.eqb_neq in NE. rewrite NE, P, TimeClip_of_Z.
  apply Z.leb_le in R. now rewrite R.
Qed.

(** ** Delta logic *)

Lemma Forall_newer_dated lastSeen articles :
  Forall dated (filter (fun a => Date_gt (published a) lastSeen) articles).
Proof.
  apply Forall_forall. intros a I. apply filter_In in I. destruct I as [_ G].
  apply Date_gt_true in G. destruct G as (t & _ & E & _). now exists t.
Qed.

Lemma night_unposted_In lastSeen articles a :
  In a (unposted lastSeen articles)
  <-> In a articles /\ Date_gt (published a) lastSeen = true.
Proof. unfold unposted. now rewrite sort_In, filter_In. Qed.

Lemma night_unposted_ascending lastSeen articles :
  ascending (unposted lastSeen articles).
Proof. apply sort_ascending, Forall_newer_dated. Qed.

Lemma night_unposted_stable lastSeen articles d :
  published_at d (unposted lastSeen articles)
  = published_at d (filter (fun a => Date_gt (published a) lastSeen) articles).
Proof. apply sort_published_at, Forall_newer_dated. Qed.

(** What a write-back records makes the same list settle. *)
Lemma unposted_settles lastSeen articles m :
  greatest m (map time (unposted lastSeen articles)) ->
  unposted (DateOf m) articles = [].
Proof.
  intros [M G]. rewrite Forall_forall in G.
  apply in_map_iff in M. destruct M as (b & Tb & Ib).
  apply night_unposted_In in Ib. destruct Ib as [_ Gb].
  apply Date_gt_true in Gb. destruct Gb as (tb & l & Eb & El & Ltb).
  unfold time in Tb. rewrite Eb in Tb. subst tb.
  unfold unposted at 1.
  match goal with |- sort _ ?f = _ => destruct f as [ | a rest] eqn:E end;
    [ reflexivity | exfalso ].
  assert (I : In a (a :: rest)) by now left.
  rewrite <- E in I. apply filter_In in I. destruct I as [I S].
  apply Date_gt_true in S. destruct S as (t & m' & Et & Em & Lt).
  injection Em as <-.
  assert (U : In a (unposted lastSeen articles)).
  { apply night_unposted_In. split; [ exact I | ].
    apply Date_gt_true. exists t, l. repeat split; auto; lia. }
  assert (B : time a <= m) by (apply G, in_map, U).
  unfold time in B. rewrite Et in B. lia.
Qed.

Lemma night_getUnpostedArticles_cold w articles w1 :
  load_spec (state_file w) = None ->
  getLatestNewsArticles w = (Returned articles, w1) ->
  getUnpostedArticles w
  = match new_Date (max_published articles) with
    | DateOf t => (Returned [], set_state_file (record t) w1)
    | InvalidDate => (Thrown (RangeError "Invalid time value"), w1)
    end.
Proof.
  intros L S. unfold getUnpostedArticles.
  rewrite (bind_returned _ _ _ _ _ (loadLastPublished_spec w)).
  rewrite (bind_returned _ _ _ _ _ S). rewrite L.
  now destruct (new_Date (max_published articles)).
Qed.

Lemma night_getUnpostedArticles_warm w lastSeen articles w1 :
  load_spec (state_file w) = Some lastSeen ->
  getLatestNewsArticles w = (Returned articles, w1) ->
  exists w2,
    getUnpostedArticles w = (Returned (unposted lastSeen articles), w2)
    /\ state_file w2 = state_file w1 /\ network w2 = network w1.
Proof.
  intros L S. unfold getUnpostedArticles.
  rewrite (bind_returned _ _ _ _ _ (loadLastPublished_spec w)).
  rewrite (bind_returned _ _ _ _ _ S). rewrite L. unfold bind.
  destruct (_ && _); eexists; (split; [ reflexivity | now split ]).
Qed.

Lemma night_getUnpostedArticles_thrown w e w1 :
  getLatestNewsArticles w = (Thrown e, w1) ->
  getUnpostedArticles w = (Thrown e, w1).
Proof.
  intros S. unfold getUnpostedArticles.
  rewrite (bind_returned _ _ _ _ _ (loadLastPublished_spec w)).
  now rewrite (bind_thrown _ _ _ _ _ S).
Qed.

Lemma night_getUnpostedArticles_ascending w articles w' :
  getUnpostedArticles w = (Returned articles, w') -> ascending articles.
Proof.
  destruct (getLatestNewsArticles w) as [[found | e] w1] eqn:S.
  - destruct (load_spec (state_file w)) as [lastSeen | ] eqn:L.
    + destruct (night_getUnpostedArticles_warm w lastSeen found w1 L S)
        as (w2 & U & _).
      rewrite U. intros [= <- _]. apply night_unposted_ascending.
    + rewrite (night_getUnpostedArticles_cold w found w1 L S).
      destruct (new_Date (max_published found)); [ discriminate | ].
      intros [= <- _]. constructor.
  - now rewrite (night_getUnpostedArticles_thrown w e w1 S).
Qed.

(** ** Discord webhook *)

Variable WEBHOOK : string.

Lemma night_postToDiscord_rate_limited article w res :
  network w (calls w) (POST WEBHOOK (content article)) = Responded res ->
  status res = 429 ->
  postToDiscord WEBHOOK article w
  = (Thrown (ReferenceError "retries is not defined"),
     answered (POST WEBHOOK (content article)) w).
Proof.
  intros N S. unfold postToDiscord, bind, fetch. now rewrite N, S.
Qed.

(** ** Main *)

Lemma night_main_thrown w e w1 :
  getUnpostedArticles w = (Thrown e, w1) ->
  main WEBHOOK w = (Thrown e, w1).
Proof.
  intros G. unfold main. now rewrite (bind_thrown _ _ _ _ _ G).
Qed.

Lemma night_main_nothing_new w w1 :
  getUnpostedArticles w = (Returned [], w1) ->
  main WEBHOOK w = (Returned tt, w1).
Proof.
  intros G. unfold main. now rewrite (bind_returned _ _ _ _ _ G).
Qed.

End Facts.

End NightreignFacts.

(* ================================================================== *)
(** * Facts about the scenarios *)
(* ================================================================== *)

Module ScenarioFacts.
Import JS Run Scenario.

Lemma to_int_proper (t : Z) :
  Z.to_int t <> Decimal.Pos Decimal.Nil /\ Z.to_int t <> Decimal.Neg Decimal.Nil.
Proof.
  destruct t as [ | p | p]; simpl; split; try discriminate;
    intros [= E]; exact (DecimalPos.Unsigned.to_uint_nonnil p E).
Qed.

Lemma decimal_Z_to_string (t : Z) : decimal (Z_to_string t) = of_Z t.
Proof.
  unfold decimal, Z_to_string. destruct (to_int_proper t) as [P N].
  rewrite NilZero.isi by assumption. now rewrite DecimalZ.of_to.
Qed.

Lemma round_trip : iso_round_trip sample_builtins.
Proof.
  intros t _. split.
  - intros E. assert (D := decimal_Z_to_string t).
    change (ISO_string t) with (Z_to_string t) in E. rewrite E in D. discriminate D.
  - change (parse_decimal (Z_to_string t) = of_Z t).
    unfold parse_decimal. now rewrite decimal_Z_to_string.
Qed.

End ScenarioFacts.

(* ================================================================== *)
(** * The properties of the specification *)
(* ================================================================== *)

Import JS Run Articles.

(** Concrete runs below use the sample built-ins. *)
#[local] Existing Instance Scenario.sample_builtins.

(** C2 (delta inclusion rule).  For every loaded state and every article
    list, the result of the Arc Raiders [unposted] holds an article of the
    list exactly when its date is later than [lastPublished], or equal to
    it with a url that is not in [postedUrls]: it is a rearrangement of the
    articles that pass this test.  In particular, of two articles
    published at [lastPublished], one with its url in [postedUrls] and the
    other not, exactly the other is returned, in either source order. *)
Theorem delta_inclusion_rule (state : ArcRaiders.State) (articles : list Article) :
  (forall a,
      In a (ArcRaiders.unposted state articles)
      <-> In a articles
          /\ (ArcRaiders.newer state a \/ ArcRaiders.unseen_sibling state a))
  /\ Permutation (ArcRaiders.unposted state articles)
                 (filter (ArcRaiders.selected state) articles)
  /\ (forall a b,
         dated a ->
         published a = ArcRaiders.lastPublished state ->
         published b = published a ->
         In (JStr (url a)) (ArcRaiders.postedUrls state) ->
         ~ In (JStr (url b)) (ArcRaiders.postedUrls state) ->
         ArcRaiders.unposted state [a; b] = [b]
         /\ ArcRaiders.unposted state [b; a] = [b]).
Proof.
  split; [ | split ].
  - intros a. now rewrite ArcFacts.arc_unposted_In, ArcFacts.selected_true.
  - rewrite ArcFacts.unposted_filter. apply JSFacts.sort_perm.
  - intros a b. apply ArcFacts.unposted_tie_break.
Qed.

Lemma delta_inclusion_rule_witness :
  ArcRaiders.unposted Scenario.Arc.posted_A [Scenario.Arc.A; Scenario.Arc.B] = [Scenario.Arc.B]
  /\ ArcRaiders.unposted Scenario.Arc.posted_A [Scenario.Arc.B; Scenario.Arc.A] = [Scenario.Arc.B].
Proof.
  apply (proj2 (proj2 (delta_inclusion_rule Scenario.Arc.posted_A []))).
  - exists Scenario.Jan10. reflexivity.
  - reflexivity.
  - reflexivity.
  - simpl. left. reflexivity.
  - simpl. intros [E | []]. discriminate E.
Defined.

(** C8 (output ordering).  Whatever the state and the order of the article
    list, what [unposted] returns is sorted by ascending date, and the
    articles of one date are those the delta rule selects from the list,
    in their source order; so in both scrapers, and so for whatever
    [getUnpostedArticles] returns, the empty result of a cold start
    included. *)
Theorem unposted_sorted_stable `{BI : builtins} :
  (forall (state : ArcRaiders.State) (articles : list Article),
      ascending (ArcRaiders.unposted state articles)
      /\ forall d,
          published_at d (ArcRaiders.unposted state articles)
          = published_at d (filter (ArcRaiders.selected state) articles))
  /\ (forall (lastSeen : Date) (articles : list Article),
         ascending (Nightreign.unposted lastSeen articles)
         /\ forall d,
             published_at d (Nightreign.unposted lastSeen articles)
             = published_at d
                 (filter (fun a => Date_gt (published a) lastSeen) articles))
  /\ (forall (w w' : world ArcRaiders.page) articles,
         ArcRaiders.getUnpostedArticles w = (Returned articles, w') ->
         ascending articles)
  /\ (forall (w w' : world Nightreign.page) articles,
         Nightreign.getUnpostedArticles w = (Returned articles, w') ->
         ascending articles).
Proof.
  split; [ | split; [ | split ] ].
  - intros state articles. split.
    + apply ArcFacts.arc_unposted_ascending.
    + intros d. apply ArcFacts.arc_unposted_stable.
  - intros lastSeen articles. split.
    + apply NightreignFacts.night_unposted_ascending.
    + intros d. apply NightreignFacts.night_unposted_stable.
  - intros w w' articles. apply ArcFacts.getUnpostedArticles_ascending.
  - intros w w' articles. apply NightreignFacts.night_getUnpostedArticles_ascending.
Qed.

Lemma unposted_sorted_stable_witness :
  ascending [Scenario.Arc.B] /\ ascending (@nil Article).
Proof.
  destruct (@unposted_sorted_stable Scenario.sample_builtins)
    as (_ & _ & arc & night).
  split.
  - apply (arc Scenario.Arc.posted_then_B
               (snd (ArcRaiders.getUnpostedArticles Scenario.Arc.posted_then_B))).
    reflexivity.
  - apply (night (Scenario.start Missing Scenario.Night.listing)
                 (snd (Nightreign.getUnpostedArticles
                         (Scenario.start Missing Scenario.Night.listing)))).
    reflexivity.
Defined.

(** C9 (load totality).  Whatever the state file holds, the loaders
    return without throwing and without any effect, and they return what
    the specification says: absent for a missing or unparseable file and
    for a record whose [last_published] is missing, falsy or not a date;
    otherwise the date, with [posted_urls] read as empty when it is absent
    or not an array. *)
Theorem load_total `{BI : builtins} :
  (forall w : world ArcRaiders.page,
      ArcRaiders.loadState w = (Returned (ArcRaiders.load_spec (state_file w)), w))
  /\ (forall w : world Nightreign.page,
         Nightreign.loadLastPublished w
         = (Returned (Nightreign.load_spec (state_file w)), w))
  /\ ArcRaiders.load_spec Missing = None
  /\ ArcRaiders.load_spec Unparseable = None
  /\ (forall raw,
         (forall members, raw <> JObj members) ->
         ArcRaiders.load_spec (Parsed raw) = None)
  /\ (forall members,
         match member "last_published" members with
         | None => ArcRaiders.load_spec (Parsed (JObj members)) = None
         | Some v =>
             if json_truthy v && negb (isNaN_Date (new_Date_json v))
             then exists state,
                 ArcRaiders.load_spec (Parsed (JObj members)) = Some state
                 /\ ArcRaiders.lastPublished state = new_Date_json v
                 /\ ArcRaiders.postedUrls state
                    = array_or_empty (member "posted_urls" members)
             else ArcRaiders.load_spec (Parsed (JObj members)) = None
         end)
  /\ array_or_empty None = []
  /\ (forall v, (forall urls, v <> JArr urls) -> array_or_empty (Some v) = []).
Proof.
  split; [ exact ArcFacts.loadState_spec | ].
  split; [ exact NightreignFacts.loadLastPublished_spec | ].
  split; [ reflexivity | ]. split; [ reflexivity | ].
  split; [ | split; [ | split ] ].
  - intros raw N. destruct raw; try reflexivity. now destruct (N members).
  - intros members. unfold ArcRaiders.load_spec.
    destruct (member "last_published" members) as [v | ]; [ | reflexivity ].
    destruct (json_truthy v); [ | reflexivity ].
    destruct (new_Date_json v) as [ | t]; [ reflexivity | ].
    cbn. eexists. split; [ reflexivity | ]. split; [ reflexivity | ].
    cbn. now destruct (member "posted_urls" members) as [[ | | | | | ] | ].
  - reflexivity.
  - intros v N. destruct v; try reflexivity. now destruct (N elements).
Qed.

Lemma load_total_witness :
  ArcRaiders.load_spec (BI := Scenario.sample_builtins) (Parsed (JNum (of_Z 7))) = None
  /\ array_or_empty (Some (JStr "https://arcraiders.com/a")) = [].
Proof.
  destruct (@load_total Scenario.sample_builtins) as (_ & _ & _ & _ & R & _ & _ & U).
  split.
  - apply R. intros members E. discriminate E.
  - apply U. intros urls E. discriminate E.
Defined.

(** C3 (cold-start baseline).  When no prior state exists and the source
    yields a non-empty article list, [getUnpostedArticles] returns the empty
    sequence, the run ends without having sent anything but its reads of
    the news page, and the state it persists loads back with
    [lastPublished] the greatest date of the list.  The Arc Raiders scraper
    only builds articles with valid dates; for Nightreign the list is taken
    free of invalid dates. *)
Theorem cold_start_baseline `{BI : builtins} (WEBHOOK : string) :
  iso_round_trip BI ->
  (forall (w : world ArcRaiders.page) articles w1,
      ArcRaiders.load_spec (state_file w) = None ->
      ArcRaiders.getLatestNewsArticles w = (Returned articles, w1) ->
      articles <> [] ->
      exists m w' state,
        greatest m (map time articles)
        /\ ArcRaiders.getUnpostedArticles w = (Returned [], w')
        /\ ArcRaiders.main WEBHOOK w = (Returned tt, w')
        /\ (exists n, requests (trace w')
                      = requests (trace w) ++ repeat (GET ArcRaiders.NEWS_URL) n)
        /\ ArcRaiders.load_spec (state_file w') = Some state
        /\ ArcRaiders.lastPublished state = DateOf m)
  /\ (forall (w : world Nightreign.page) articles w1,
         Nightreign.load_spec (state_file w) = None ->
         Nightreign.getLatestNewsArticles w = (Returned articles, w1) ->
         articles <> [] ->
         Forall dated articles ->
         exists m w',
           greatest m (map time articles)
           /\ Nightreign.getUnpostedArticles w = (Returned [], w')
           /\ Nightreign.main WEBHOOK w = (Returned tt, w')
           /\ requests (trace w') = requests (trace w) ++ [GET Nightreign.URL]
           /\ Nightreign.load_spec (state_file w') = Some (DateOf m)).
Proof.
  intros RT. split.
  - intros w articles w1 L S N.
    assert (F := ArcFacts.getLatestNewsArticles_well_dated w articles w1 S).
    destruct (ArticleFacts.max_published_well_dated articles N F) as (m & G & _ & D).
    assert (U := ArcFacts.arc_getUnpostedArticles_cold w articles w1 L S).
    rewrite D in U.
    assert (R : Z.abs m <= maxTime).
    { destruct G as [I _]. apply in_map_iff in I. destruct I as (a & <- & I).
      rewrite Forall_forall in F. specialize (F a I).
      unfold well_dated, time in *. now destruct (published a). }
    exists m, (set_state_file (ArcRaiders.record m []) w1). eexists.
    split; [ exact G | ]. split; [ exact U | ].
    split; [ now apply ArcFacts.arc_main_nothing_new | ].
    split; [ | split ].
    + destruct (ArcFacts.only_gets_getLatestNewsArticles w) as [n E].
      rewrite S in E. now exists n.
    + unfold set_state_file. cbn [state_file].
      now apply ArcFacts.arc_load_spec_record.
    + reflexivity.
  - intros w articles w1 L S N Dt.
    assert (F : Forall well_dated articles).
    { assert (R := NightreignFacts.getLatestNewsArticles_in_range w articles w1 S).
      rewrite Forall_forall in *. intros a I.
      now apply ArticleFacts.dated_in_range_well_dated; [ apply Dt | apply R ]. }
    destruct (ArticleFacts.max_published_well_dated articles N F) as (m & G & _ & D).
    assert (U := NightreignFacts.night_getUnpostedArticles_cold w articles w1 L S).
    rewrite D in U.
    assert (R : Z.abs m <= maxTime).
    { destruct G as [I _]. apply in_map_iff in I. destruct I as (a & <- & I).
      rewrite Forall_forall in F. specialize (F a I).
      unfold well_dated, time in *. now destruct (published a). }
    exists m, (set_state_file (Nightreign.record m) w1).
    split; [ exact G | ]. split; [ exact U | ].
    split; [ now apply NightreignFacts.night_main_nothing_new | ].
    split.
    + assert (E := NightreignFacts.getLatestNewsArticles_requests w).
      now rewrite S in E.
    + unfold set_state_file. cbn [state_file].
      now apply NightreignFacts.night_load_spec_record.
Qed.

Lemma cold_start_baseline_witness :
  (exists m w' state,
      greatest m (map time [Scenario.Arc.A])
      /\ ArcRaiders.getUnpostedArticles (BI := Scenario.sample_builtins) Scenario.Arc.day1
         = (Returned [], w')
      /\ ArcRaiders.main Scenario.Arc.hook Scenario.Arc.day1 = (Returned tt, w')
      /\ (exists n, requests (trace w')
                    = requests (trace Scenario.Arc.day1)
                      ++ repeat (GET ArcRaiders.NEWS_URL) n)
      /\ ArcRaiders.load_spec (state_file w') = Some state
      /\ ArcRaiders.lastPublished state = DateOf m)
  /\ (exists m w',
         greatest m (map time [Scenario.Night.N])
         /\ Nightreign.getUnpostedArticles (BI := Scenario.sample_builtins)
              (Scenario.start Missing Scenario.Night.listing)
            = (Returned [], w')
         /\ Nightreign.main Scenario.Arc.hook (Scenario.start Missing Scenario.Night.listing)
            = (Returned tt, w')
         /\ requests (trace w') = [] ++ [GET Nightreign.URL]
         /\ Nightreign.load_spec (state_file w') = Some (DateOf m)).
Proof.
  destruct (cold_start_baseline (BI := Scenario.sample_builtins) Scenario.Arc.hook
              ScenarioFacts.round_trip) as [arc night].
  split.
  - apply (arc Scenario.Arc.day1 [Scenario.Arc.A]
               (snd (ArcRaiders.getLatestNewsArticles Scenario.Arc.day1))).
    + reflexivity.
    + reflexivity.
    + discriminate.
  - apply (night (Scenario.start Missing Scenario.Night.listing) [Scenario.Night.N]
                 (snd (Nightreign.getLatestNewsArticles
                         (Scenario.start Missing Scenario.Night.listing)))).
    + reflexivity.
    + reflexivity.
    + discriminate.
    + repeat constructor. exists Scenario.Jan10. reflexivity.
Defined.

(** C10 (cold start on an empty article list).  The maximum of an empty
    list is [-Infinity], which makes an invalid date; with no prior state
    and no article, [saveState] (and [saveLastPublished]) then throws a
    [RangeError] out of [getUnpostedArticles] and out of the run, instead
    of the empty sequence being returned; the state file stays as it was.
    So it goes in particular when the Arc Raiders fetch is abandoned. *)
Theorem cold_start_empty_listing_throws `{BI : builtins} (WEBHOOK : string) :
  new_Date (max_published []) = InvalidDate
  /\ (forall (w w1 : world ArcRaiders.page),
         ArcRaiders.load_spec (state_file w) = None ->
         ArcRaiders.getLatestNewsArticles w = (Returned [], w1) ->
         ArcRaiders.getUnpostedArticles w
         = (Thrown (RangeError "Invalid time value"), w1)
         /\ ArcRaiders.main WEBHOOK w
            = (Thrown (RangeError "Invalid time value"), w1)
         /\ state_file w1 = state_file w)
  /\ (forall (w : world ArcRaiders.page),
         ArcRaiders.load_spec (state_file w) = None ->
         (forall k, (k < 3)%nat ->
                    failed (network w (calls w + k) (GET ArcRaiders.NEWS_URL)) = true) ->
         exists w1,
           ArcRaiders.main WEBHOOK w
           = (Thrown (RangeError "Invalid time value"), w1)
           /\ state_file w1 = state_file w)
  /\ (forall (w w1 : world Nightreign.page),
         Nightreign.load_spec (state_file w) = None ->
         Nightreign.getLatestNewsArticles w = (Returned [], w1) ->
         Nightreign.getUnpostedArticles w
         = (Thrown (RangeError "Invalid time value"), w1)
         /\ Nightreign.main WEBHOOK w
            = (Thrown (RangeError "Invalid time value"), w1)
         /\ state_file w1 = state_file w).
Proof.
  assert (arc : forall (w w1 : world ArcRaiders.page),
    ArcRaiders.load_spec (state_file w) = None ->
    ArcRaiders.getLatestNewsArticles w = (Returned [], w1) ->
    ArcRaiders.getUnpostedArticles w
    = (Thrown (RangeError "Invalid time value"), w1)
    /\ ArcRaiders.main WEBHOOK w
       = (Thrown (RangeError "Invalid time value"), w1)
    /\ state_file w1 = state_file w).
  { intros w w1 L S.
    assert (U := ArcFacts.arc_getUnpostedArticles_cold w [] w1 L S).
    rewrite ArticleFacts.max_published_nil in U.
    split; [ exact U | ]. split; [ now apply ArcFacts.arc_main_thrown | ].
    destruct (ArcFacts.arc_quiet_getLatestNewsArticles w) as [Q _].
    now rewrite S in Q. }
  split; [ reflexivity | ]. split; [ exact arc | ]. split.
  - intros w L F.
    destruct (ArcFacts.getLatestNewsArticles_abandoned w F) as (w1 & S & _).
    exists w1. destruct (arc w w1 L S) as (_ & M & Q). now split.
  - intros w w1 L S.
    assert (U := NightreignFacts.night_getUnpostedArticles_cold w [] w1 L S).
    rewrite ArticleFacts.max_published_nil in U.
    split; [ exact U | ]. split; [ now apply NightreignFacts.night_main_thrown | ].
    destruct (NightreignFacts.night_quiet_getLatestNewsArticles w) as [Q _].
    now rewrite S in Q.
Qed.

Lemma cold_start_empty_listing_throws_witness :
  (exists w1,
      ArcRaiders.main Scenario.Arc.hook (Scenario.start Missing Scenario.Arc.unreachable)
      = (Thrown (RangeError "Invalid time value"), w1)
      /\ state_file w1 = Missing)
  /\ Nightreign.getUnpostedArticles (Scenario.start Missing Scenario.Night.empty_listing)
     = (Thrown (RangeError "Invalid time value"),
        snd (Nightreign.getLatestNewsArticles
               (Scenario.start Missing Scenario.Night.empty_listing))).
Proof.
  destruct (cold_start_empty_listing_throws Scenario.Arc.hook)
    as (_ & _ & abandoned & night).
  split.
  - apply (abandoned (Scenario.start Missing Scenario.Arc.unreachable)).
    + reflexivity.
    + intros k _. reflexivity.
  - apply (night (Scenario.start Missing Scenario.Night.empty_listing)).
    + reflexivity.
    + reflexivity.
Defined.

(** C7, refuted.  With a valid state on file and a news listing that
    answers 503, [getLatestNewsArticles] of the Nightreign scraper throws
    [Error("HTTP 503")], which nothing catches: [main] is aborted.  And a
    first run of the Arc Raiders script whose three attempts all fail goes
    on with zero articles into the cold start, where it throws a
    [RangeError]. *)
Lemma fetch_failure_aborts :
  failed (network Scenario.Night.outage (calls Scenario.Night.outage)
                  (GET Nightreign.URL)) = true
  /\ Nightreign.main Scenario.Arc.hook Scenario.Night.outage
     = (Thrown (Error "HTTP 503"),
        answered (GET Nightreign.URL) Scenario.Night.outage)
  /\ ~ Nightreign.fetch_failure_is_not_fatal Scenario.Arc.hook
  /\ fst (Scenario.Arc.run Scenario.Arc.first_run_offline)
     = Thrown (RangeError "Invalid time value")
  /\ ~ ArcRaiders.fetch_failure_is_not_fatal Scenario.Arc.hook.
Proof.
  split; [ reflexivity | ]. split; [ reflexivity | ].
  split; [ | split; [ reflexivity | ] ].
  - intros claim.
    destruct (claim Scenario.Night.outage eq_refl) as (w' & R & _).
    discriminate R.
  - intros claim.
    destruct (claim Scenario.Arc.first_run_offline (fun k _ => eq_refl))
      as (w' & R & _).
    apply (f_equal fst) in R. vm_compute in R. discriminate R.
Qed.

(** C7, amended.  In the Arc Raiders scraper, when a prior state is loaded
    and the fetch of the news listing fails on each of its three attempts
    (network error or non-2xx status), the run raises nothing: it goes on
    with zero articles, calls nothing but the news page and leaves the
    state file untouched.  In the Nightreign scraper there is no retry: a
    failed fetch throws out of [getLatestNewsArticles] and aborts the run
    after this one request, the state file untouched. *)
Theorem fetch_failure_by_scraper `{BI : builtins} (WEBHOOK : string) :
  WEBHOOK <> "" ->
  (forall (w : world ArcRaiders.page) state,
      ArcRaiders.load_spec (state_file w) = Some state ->
      (forall k, (k < 3)%nat ->
                 failed (network w (calls w + k) (GET ArcRaiders.NEWS_URL)) = true) ->
      exists w',
        ArcRaiders.getLatestNewsArticles w = (Returned [], w')
        /\ ArcRaiders.getUnpostedArticles w = (Returned [], w')
        /\ ArcRaiders.script (Some WEBHOOK) w = (Returned tt, w')
        /\ state_file w' = state_file w
        /\ requests (trace w')
           = requests (trace w) ++ repeat (GET ArcRaiders.NEWS_URL) 3)
  /\ (forall (w : world Nightreign.page),
         failed (network w (calls w) (GET Nightreign.URL)) = true ->
         exists e,
           Nightreign.getLatestNewsArticles w
           = (Thrown e, answered (GET Nightreign.URL) w)
           /\ Nightreign.main WEBHOOK w
              = (Thrown e, answered (GET Nightreign.URL) w)
           /\ state_file (answered (GET Nightreign.URL) w) = state_file w
           /\ requests (trace (answered (GET Nightreign.URL) w))
              = requests (trace w) ++ [GET Nightreign.URL]).
Proof.
  intros NE. split.
  - intros w state L F.
    destruct (ArcFacts.getLatestNewsArticles_abandoned w F) as (w' & S & Q & _ & T).
    assert (U := ArcFacts.arc_getUnpostedArticles_warm w state [] w' L S).
    change (ArcRaiders.unposted state []) with (@nil Article) in U.
    exists w'. split; [ exact S | ]. split; [ exact U | ].
    split; [ | now split ].
    rewrite ArcFacts.script_main by exact NE.
    now apply ArcFacts.arc_main_nothing_new.
  - intros w F.
    assert (T : requests (trace (answered (GET Nightreign.URL) w))
                = requests (trace w) ++ [GET Nightreign.URL]).
    { unfold answered. cbn [trace]. now rewrite RunFacts.requests_app. }
    destruct (network w (calls w) (GET Nightreign.URL)) as [message | res] eqn:N;
      simpl in F.
    + exists (TypeError message).
      assert (S := NightreignFacts.getLatestNewsArticles_rejected w message N).
      split; [ exact S | ]. split; [ | now split ].
      now apply NightreignFacts.night_main_thrown, NightreignFacts.night_getUnpostedArticles_thrown.
    + apply negb_true_iff in F.
      exists (Error ("HTTP " ++ Z_to_string (status res))).
      assert (S := NightreignFacts.getLatestNewsArticles_blocked w res N F).
      split; [ exact S | ]. split; [ | now split ].
      now apply NightreignFacts.night_main_thrown, NightreignFacts.night_getUnpostedArticles_thrown.
Qed.

Lemma fetch_failure_by_scraper_witness :
  (exists w',
      ArcRaiders.getLatestNewsArticles Scenario.Arc.later_run_offline
      = (Returned [], w')
      /\ ArcRaiders.getUnpostedArticles Scenario.Arc.later_run_offline
         = (Returned [], w')
      /\ Scenario.Arc.run Scenario.Arc.later_run_offline = (Returned tt, w')
      /\ state_file w' = ArcRaiders.record Scenario.Jan10 []
      /\ requests (trace w') = [] ++ repeat (GET ArcRaiders.NEWS_URL) 3)
  /\ (exists e,
         Nightreign.getLatestNewsArticles Scenario.Night.outage
         = (Thrown e, answered (GET Nightreign.URL) Scenario.Night.outage)
         /\ Nightreign.main Scenario.Arc.hook Scenario.Night.outage
            = (Thrown e, answered (GET Nightreign.URL) Scenario.Night.outage)
         /\ state_file (answered (GET Nightreign.URL) Scenario.Night.outage)
            = Nightreign.record Scenario.Jan10
         /\ requests (trace (answered (GET Nightreign.URL) Scenario.Night.outage))
            = [] ++ [GET Nightreign.URL]).
Proof.
  assert (NE : Scenario.Arc.hook <> "") by discriminate.
  destruct (fetch_failure_by_scraper Scenario.Arc.hook NE) as [arc night].
  split.
  - apply (arc Scenario.Arc.later_run_offline
               {| ArcRaiders.lastPublished := DateOf Scenario.Jan10;
                  ArcRaiders.postedUrls := [] |}).
    + reflexivity.
    + intros k _. reflexivity.
  - apply (night Scenario.Night.outage). reflexivity.
Defined.

(** C6 (rate-limit handling), where the code departs from it.  In the
    Nightreign scraper, when the webhook answers 429, [postToDiscord]
    throws a [ReferenceError] on the undeclared [retries]: it has made its
    single request, waits for nothing and does not retry. *)
Theorem nightreign_rate_limit_throws `{BI : builtins} (WEBHOOK : string)
    (article : Article) (w : world Nightreign.page) (res : response Nightreign.page) :
  network w (calls w) (POST WEBHOOK (content article)) = Responded res ->
  status res = 429 ->
  Nightreign.postToDiscord WEBHOOK article w
  = (Thrown (ReferenceError "retries is not defined"),
     answered (POST WEBHOOK (content article)) w)
  /\ delays (trace (answered (POST WEBHOOK (content article)) w))
     = delays (trace w)
  /\ requests (trace (answered (POST WEBHOOK (content article)) w))
     = requests (trace w) ++ [POST WEBHOOK (content article)].
Proof.
  intros N S.
  split; [ exact (NightreignFacts.night_postToDiscord_rate_limited WEBHOOK article w res N S) | ].
  unfold answered. cbn [trace]. split.
  - unfold delays. rewrite flat_map_app. simpl. now rewrite app_nil_r.
  - now rewrite RunFacts.requests_app.
Qed.

Lemma nightreign_rate_limit_throws_witness :
  Nightreign.postToDiscord Scenario.Arc.hook Scenario.Night.N
    (Scenario.start Missing Scenario.Night.throttled)
  = (Thrown (ReferenceError "retries is not defined"),
     answered (POST Scenario.Arc.hook (content Scenario.Night.N))
              (Scenario.start Missing Scenario.Night.throttled))
  /\ delays (trace (answered (POST Scenario.Arc.hook (content Scenario.Night.N))
                             (Scenario.start Missing Scenario.Night.throttled)))
     = delays []
  /\ requests (trace (answered (POST Scenario.Arc.hook (content Scenario.Night.N))
                               (Scenario.start Missing Scenario.Night.throttled)))
     = [] ++ [POST Scenario.Arc.hook (content Scenario.Night.N)].
Proof.
  apply (nightreign_rate_limit_throws Scenario.Arc.hook Scenario.Night.N
           (Scenario.start Missing Scenario.Night.throttled)
           {| status := 429; retry_after := Some "1";
              body := Nightreign.NoNewsSection |}).
  - reflexivity.
  - reflexivity.
Defined.

(** The same claim on the Arc Raiders scraper, which follows it: a 429
    with retries left makes [postToDiscord] wait [Retry-After] seconds, or
    5 when the header is missing, zero or not a number, and try again; a
    429 with no retry left, and any other non-2xx answer at once, is a
    failure; no call makes more than [retries + 1] requests. *)
Lemma arc_raiders_rate_limit `{BI : builtins} (WEBHOOK : string) (article : Article) :
  (forall retries (w : world ArcRaiders.page) res,
      network w (calls w) (POST WEBHOOK (content article)) = Responded res ->
      status res = 429 ->
      ArcRaiders.postToDiscord WEBHOOK article (S retries) w
      = ArcRaiders.postToDiscord WEBHOOK article retries
          (waited (scale (or_else (Number_of_header (retry_after res)) (of_Z 5)) 1000)
                  (answered (POST WEBHOOK (content article)) w)))
  /\ scale (or_else (Number_of_header None) (of_Z 5)) 1000 = Num (inject_Z 5 * 1000)
  /\ (forall retries (w : world ArcRaiders.page) res,
         network w (calls w) (POST WEBHOOK (content article)) = Responded res ->
         status res <> 429 -> ok res = false ->
         ArcRaiders.postToDiscord WEBHOOK article retries w
         = (Thrown (Error ("Discord webhook failed: " ++ Z_to_string (status res))),
            answered (POST WEBHOOK (content article)) w))
  /\ (forall (w : world ArcRaiders.page) res,
         network w (calls w) (POST WEBHOOK (content article)) = Responded res ->
         status res = 429 ->
         ArcRaiders.postToDiscord WEBHOOK article 0 w
         = (Thrown (Error "Discord webhook failed: 429"),
            answered (POST WEBHOOK (content article)) w))
  /\ (forall retries (w : world ArcRaiders.page),
         (calls (snd (ArcRaiders.postToDiscord WEBHOOK article retries w))
          <= calls w + S retries)%nat).
Proof.
  split; [ exact (ArcFacts.arc_postToDiscord_rate_limited WEBHOOK article) | ].
  split; [ reflexivity | ].
  split; [ exact (ArcFacts.postToDiscord_rejected WEBHOOK article) | ].
  split; [ exact (ArcFacts.postToDiscord_exhausted WEBHOOK article) | ].
  exact (ArcFacts.postToDiscord_bounded WEBHOOK article).
Qed.

(** C1 (monotonicity), where the code departs from it.  The state says
    [A] was posted; the site lists [A] and [B], both of that day.  The run
    finds [B] new, posts it and persists new state, whose [posted_urls]
    holds the url of [B] alone; on the same list, the next
    [getUnpostedArticles] returns [A] again, not the empty sequence. *)
Theorem repost_after_write_back `{BI : builtins} (WEBHOOK : string)
    (w w1 : world ArcRaiders.page) :
  iso_round_trip BI ->
  ArcRaiders.load_spec (state_file w) = Some Scenario.Arc.posted_A ->
  ArcRaiders.getLatestNewsArticles w
  = (Returned [Scenario.Arc.A; Scenario.Arc.B], w1) ->
  ArcRaiders.getUnpostedArticles w = (Returned [Scenario.Arc.B], w1)
  /\ exists w2,
      ArcRaiders.main WEBHOOK w = (Returned tt, w2)
      /\ state_file w2 = ArcRaiders.record Scenario.Jan10 [url Scenario.Arc.B]
      /\ forall w' w1',
          state_file w' = state_file w2 ->
          ArcRaiders.getLatestNewsArticles w'
          = (Returned [Scenario.Arc.A; Scenario.Arc.B], w1') ->
          ArcRaiders.getUnpostedArticles w' = (Returned [Scenario.Arc.A], w1').
Proof.
  intros RT L S.
  assert (U := ArcFacts.arc_getUnpostedArticles_warm w _ _ w1 L S).
  change (ArcRaiders.unposted Scenario.Arc.posted_A [Scenario.Arc.A; Scenario.Arc.B])
    with [Scenario.Arc.B] in U.
  split; [ exact U | ].
  destruct (ArcFacts.main_write_back WEBHOOK w [Scenario.Arc.B] w1 U)
    as (w2 & _ & F & _ & M); [ discriminate | ].
  change (new_Date (max_published [Scenario.Arc.B])) with (DateOf Scenario.Jan10) in M.
  change (ArcRaiders.urls_at (DateOf Scenario.Jan10) [Scenario.Arc.B])
    with [url Scenario.Arc.B] in M.
  rewrite ArcFacts.saveState_valid in M.
  exists (set_state_file (ArcRaiders.record Scenario.Jan10 [url Scenario.Arc.B]) w2).
  split; [ exact M | ]. split; [ reflexivity | ].
  intros w' w1' F' S'.
  assert (L' : ArcRaiders.load_spec (state_file w') = Some Scenario.Arc.posted_B).
  { rewrite F'. unfold set_state_file. cbn [state_file].
    rewrite ArcFacts.arc_load_spec_record by (exact RT || (vm_compute; discriminate)).
    reflexivity. }
  apply (ArcFacts.arc_getUnpostedArticles_warm w' _ _ w1' L' S').
Qed.

Lemma repost_after_write_back_witness :
  Scenario.Arc.attempted Scenario.Arc.posted_then_B = [Scenario.Arc.B]
  /\ fst (Scenario.Arc.run Scenario.Arc.posted_then_B) = Returned tt
  /\ state_file (snd (Scenario.Arc.run Scenario.Arc.posted_then_B))
     = ArcRaiders.record Scenario.Jan10 [url Scenario.Arc.B]
  /\ Scenario.Arc.attempted Scenario.Arc.posted_then_B_again = [Scenario.Arc.A].
Proof.
  assert (L : ArcRaiders.load_spec (state_file Scenario.Arc.posted_then_B)
              = Some Scenario.Arc.posted_A) by reflexivity.
  assert (S : ArcRaiders.getLatestNewsArticles Scenario.Arc.posted_then_B
              = (Returned [Scenario.Arc.A; Scenario.Arc.B],
                 snd (ArcRaiders.getLatestNewsArticles Scenario.Arc.posted_then_B)))
    by reflexivity.
  destruct (repost_after_write_back Scenario.Arc.hook Scenario.Arc.posted_then_B _
              ScenarioFacts.round_trip L S)
    as (U & w2 & M & F & again).
  assert (R : Scenario.Arc.run Scenario.Arc.posted_then_B = (Returned tt, w2))
    by exact M.
  unfold Scenario.Arc.attempted.
  rewrite U, R.
  rewrite (again Scenario.Arc.posted_then_B_again
             (snd (ArcRaiders.getLatestNewsArticles Scenario.Arc.posted_then_B_again))).
  - repeat split. exact F.
  - unfold Scenario.Arc.posted_then_B_again. now rewrite R.
  - reflexivity.
Defined.

(** C4 (state persisted by a cold start), where the code departs from it.
    With no state and articles [U] of January 5, [V] and [W] of January 6,
    the run returns nothing to post and persists [last_published] of
    January 6 with an empty [posted_urls], not the urls of [V] and [W]; the
    next run on the same list finds both new. *)
Theorem cold_start_forgets_siblings `{BI : builtins} (WEBHOOK : string)
    (w w1 : world ArcRaiders.page) :
  iso_round_trip BI ->
  ArcRaiders.load_spec (state_file w) = None ->
  ArcRaiders.getLatestNewsArticles w
  = (Returned [Scenario.Arc.U; Scenario.Arc.V; Scenario.Arc.W], w1) ->
  ArcRaiders.getUnpostedArticles w
  = (Returned [], set_state_file (ArcRaiders.record Scenario.Jan06 []) w1)
  /\ ArcRaiders.main WEBHOOK w
     = (Returned tt, set_state_file (ArcRaiders.record Scenario.Jan06 []) w1)
  /\ ArcRaiders.record Scenario.Jan06 []
     = Parsed (JObj [("last_published", JStr (ISO_string Scenario.Jan06));
                     ("posted_urls", JArr [])])
  /\ forall w' w1',
      state_file w' = ArcRaiders.record Scenario.Jan06 [] ->
      ArcRaiders.getLatestNewsArticles w'
      = (Returned [Scenario.Arc.U; Scenario.Arc.V; Scenario.Arc.W], w1') ->
      ArcRaiders.getUnpostedArticles w'
      = (Returned [Scenario.Arc.V; Scenario.Arc.W], w1').
Proof.
  intros RT L S.
  assert (U := ArcFacts.arc_getUnpostedArticles_cold w _ w1 L S).
  change (new_Date (max_published [Scenario.Arc.U; Scenario.Arc.V; Scenario.Arc.W]))
    with (DateOf Scenario.Jan06) in U.
  split; [ exact U | ].
  split; [ now apply ArcFacts.arc_main_nothing_new | ].
  split; [ reflexivity | ].
  intros w' w1' F' S'.
  assert (L' : ArcRaiders.load_spec (state_file w')
               = Some {| ArcRaiders.lastPublished := DateOf Scenario.Jan06;
                         ArcRaiders.postedUrls := [] |}).
  { rewrite F'.
    rewrite ArcFacts.arc_load_spec_record by (exact RT || (vm_compute; discriminate)).
    reflexivity. }
  apply (ArcFacts.arc_getUnpostedArticles_warm w' _ _ w1' L' S').
Qed.

Lemma cold_start_forgets_siblings_witness :
  Scenario.Arc.attempted Scenario.Arc.fresh = []
  /\ fst (Scenario.Arc.run Scenario.Arc.fresh) = Returned tt
  /\ state_file (snd (Scenario.Arc.run Scenario.Arc.fresh))
     = Parsed (JObj [("last_published", JStr "1767657600000");
                     ("posted_urls", JArr [])])
  /\ Scenario.Arc.attempted Scenario.Arc.fresh_again = [Scenario.Arc.V; Scenario.Arc.W].
Proof.
  assert (L : ArcRaiders.load_spec (state_file Scenario.Arc.fresh) = None)
    by reflexivity.
  assert (S : ArcRaiders.getLatestNewsArticles Scenario.Arc.fresh
              = (Returned [Scenario.Arc.U; Scenario.Arc.V; Scenario.Arc.W],
                 snd (ArcRaiders.getLatestNewsArticles Scenario.Arc.fresh)))
    by reflexivity.
  destruct (cold_start_forgets_siblings Scenario.Arc.hook Scenario.Arc.fresh _
              ScenarioFacts.round_trip L S)
    as (U & M & _ & again).
  assert (R : Scenario.Arc.run Scenario.Arc.fresh
              = (Returned tt,
                 set_state_file (ArcRaiders.record Scenario.Jan06 [])
                   (snd (ArcRaiders.getLatestNewsArticles Scenario.Arc.fresh))))
    by exact M.
  unfold Scenario.Arc.attempted.
  rewrite U, R.
  rewrite (again Scenario.Arc.fresh_again
             (snd (ArcRaiders.getLatestNewsArticles Scenario.Arc.fresh_again))).
  - repeat split.
  - unfold Scenario.Arc.fresh_again. now rewrite R.
  - reflexivity.
Defined.

(** C5 (invariant of the state record), where the code departs from it.
    A fresh installation sees [A], then [A] again, then [B] of the same
    day above [A].  The second run posts [A] and leaves a state in which
    the invariant holds; the third posts [B] and its write-back replaces
    [posted_urls] by the url of [B] alone: [A] is a posted article
    published at [lastPublished] whose url the state no longer holds. *)
Theorem write_back_breaks_posted_urls `{BI : builtins} (WEBHOOK : string)
    (run1 run2 run3 seen1 seen2 seen3 : world ArcRaiders.page) :
  iso_round_trip BI ->
  ArcRaiders.load_spec (state_file run1) = None ->
  ArcRaiders.getLatestNewsArticles run1 = (Returned [Scenario.Arc.A], seen1) ->
  state_file run2 = state_file (snd (ArcRaiders.main WEBHOOK run1)) ->
  ArcRaiders.getLatestNewsArticles run2 = (Returned [Scenario.Arc.A], seen2) ->
  state_file run3 = state_file (snd (ArcRaiders.main WEBHOOK run2)) ->
  ArcRaiders.getLatestNewsArticles run3
  = (Returned [Scenario.Arc.B; Scenario.Arc.A], seen3) ->
  fst (ArcRaiders.getUnpostedArticles run1) = Returned []
  /\ fst (ArcRaiders.getUnpostedArticles run2) = Returned [Scenario.Arc.A]
  /\ fst (ArcRaiders.getUnpostedArticles run3) = Returned [Scenario.Arc.B]
  /\ ArcRaiders.load_spec (state_file run3) = Some Scenario.Arc.posted_A
  /\ ArcRaiders.posted_urls_exact [Scenario.Arc.A] Scenario.Arc.posted_A
  /\ ArcRaiders.load_spec (state_file (snd (ArcRaiders.main WEBHOOK run3)))
     = Some Scenario.Arc.posted_B
  /\ ~ ArcRaiders.posted_urls_exact [Scenario.Arc.A; Scenario.Arc.B] Scenario.Arc.posted_B.
Proof.
  intros RT L1 S1 F2 S2 F3 S3.
  (* the first run sets the baseline *)
  assert (U1 := ArcFacts.arc_getUnpostedArticles_cold run1 _ seen1 L1 S1).
  change (new_Date (max_published [Scenario.Arc.A])) with (DateOf Scenario.Jan10) in U1.
  assert (M1 := ArcFacts.arc_main_nothing_new WEBHOOK run1 _ U1).
  rewrite M1 in F2. unfold set_state_file in F2. cbn [snd state_file] in F2.
  (* the second run posts A *)
  assert (L2 : ArcRaiders.load_spec (state_file run2)
               = Some {| ArcRaiders.lastPublished := DateOf Scenario.Jan10;
                         ArcRaiders.postedUrls := [] |}).
  { rewrite F2.
    rewrite ArcFacts.arc_load_spec_record by (exact RT || (vm_compute; discriminate)).
    reflexivity. }
  assert (U2 := ArcFacts.arc_getUnpostedArticles_warm run2 _ _ seen2 L2 S2).
  change (ArcRaiders.unposted _ [Scenario.Arc.A]) with [Scenario.Arc.A] in U2.
  destruct (ArcFacts.main_write_back WEBHOOK run2 [Scenario.Arc.A] seen2 U2)
    as (sent2 & _ & _ & _ & M2); [ discriminate | ].
  change (new_Date (max_published [Scenario.Arc.A])) with (DateOf Scenario.Jan10) in M2.
  change (ArcRaiders.urls_at (DateOf Scenario.Jan10) [Scenario.Arc.A])
    with [url Scenario.Arc.A] in M2.
  rewrite ArcFacts.saveState_valid in M2.
  rewrite M2 in F3. unfold set_state_file in F3. cbn [snd state_file] in F3.
  (* the third run posts B *)
  assert (L3 : ArcRaiders.load_spec (state_file run3) = Some Scenario.Arc.posted_A).
  { rewrite F3.
    rewrite ArcFacts.arc_load_spec_record by (exact RT || (vm_compute; discriminate)).
    reflexivity. }
  assert (U3 := ArcFacts.arc_getUnpostedArticles_warm run3 _ _ seen3 L3 S3).
  change (ArcRaiders.unposted Scenario.Arc.posted_A [Scenario.Arc.B; Scenario.Arc.A])
    with [Scenario.Arc.B] in U3.
  destruct (ArcFacts.main_write_back WEBHOOK run3 [Scenario.Arc.B] seen3 U3)
    as (sent3 & _ & _ & _ & M3); [ discriminate | ].
  change (new_Date (max_published [Scenario.Arc.B])) with (DateOf Scenario.Jan10) in M3.
  change (ArcRaiders.urls_at (DateOf Scenario.Jan10) [Scenario.Arc.B])
    with [url Scenario.Arc.B] in M3.
  rewrite ArcFacts.saveState_valid in M3.
  rewrite U1, U2, U3, M3. unfold set_state_file. cbn [fst snd state_file].
  split; [ reflexivity | ]. split; [ reflexivity | ]. split; [ reflexivity | ].
  split; [ exact L3 | ]. split; [ | split ].
  - intros u. split.
    + intros [E | []]. injection E as <-.
      exists Scenario.Arc.A. split; [ now left | ]. split; reflexivity.
    + intros (a & [<- | []] & <- & _). now left.
  - rewrite ArcFacts.arc_load_spec_record by (exact RT || (vm_compute; discriminate)).
    reflexivity.
  - intros inv.
    assert (I : In (JStr (url Scenario.Arc.A))
                   (ArcRaiders.postedUrls Scenario.Arc.posted_B)).
    { apply inv. exists Scenario.Arc.A.
      split; [ now left | ]. split; reflexivity. }
    destruct I as [E | []]. discriminate E.
Qed.

Lemma write_back_breaks_posted_urls_witness :
  Scenario.Arc.attempted Scenario.Arc.day1 = []
  /\ Scenario.Arc.attempted Scenario.Arc.day2 = [Scenario.Arc.A]
  /\ Scenario.Arc.attempted Scenario.Arc.day3 = [Scenario.Arc.B]
  /\ ArcRaiders.load_spec (state_file Scenario.Arc.day3) = Some Scenario.Arc.posted_A
  /\ ArcRaiders.posted_urls_exact [Scenario.Arc.A] Scenario.Arc.posted_A
  /\ ArcRaiders.load_spec (state_file Scenario.Arc.day4) = Some Scenario.Arc.posted_B
  /\ ~ ArcRaiders.posted_urls_exact [Scenario.Arc.A; Scenario.Arc.B] Scenario.Arc.posted_B.
Proof.
  assert (L1 : ArcRaiders.load_spec (state_file Scenario.Arc.day1) = None)
    by reflexivity.
  assert (S1 : ArcRaiders.getLatestNewsArticles Scenario.Arc.day1
               = (Returned [Scenario.Arc.A],
                  snd (ArcRaiders.getLatestNewsArticles Scenario.Arc.day1)))
    by reflexivity.
  assert (F2 : state_file Scenario.Arc.day2
               = state_file (snd (ArcRaiders.main Scenario.Arc.hook Scenario.Arc.day1)))
    by reflexivity.
  assert (S2 : ArcRaiders.getLatestNewsArticles Scenario.Arc.day2
               = (Returned [Scenario.Arc.A],
                  snd (ArcRaiders.getLatestNewsArticles Scenario.Arc.day2)))
    by reflexivity.
  assert (F3 : state_file Scenario.Arc.day3
               = state_file (snd (ArcRaiders.main Scenario.Arc.hook Scenario.Arc.day2)))
    by reflexivity.
  assert (S3 : ArcRaiders.getLatestNewsArticles Scenario.Arc.day3
               = (Returned [Scenario.Arc.B; Scenario.Arc.A],
                  snd (ArcRaiders.getLatestNewsArticles Scenario.Arc.day3)))
    by reflexivity.
  assert (F4 : state_file Scenario.Arc.day4
               = state_file (snd (ArcRaiders.main Scenario.Arc.hook Scenario.Arc.day3)))
    by reflexivity.
  destruct (write_back_breaks_posted_urls Scenario.Arc.hook
              Scenario.Arc.day1 Scenario.Arc.day2 Scenario.Arc.day3 _ _ _
              ScenarioFacts.round_trip L1 S1 F2 S2 F3 S3)
    as (U1 & U2 & U3 & L3 & I3 & L4 & N4).
  rewrite <- F4 in L4.
  unfold Scenario.Arc.attempted.
  destruct (ArcRaiders.getUnpostedArticles Scenario.Arc.day1) as [o1 ?].
  destruct (ArcRaiders.getUnpostedArticles Scenario.Arc.day2) as [o2 ?].
  destruct (ArcRaiders.getUnpostedArticles Scenario.Arc.day3) as [o3 ?].
  simpl in U1, U2, U3. subst o1 o2 o3.
  split; [ reflexivity | ]. split; [ reflexivity | ]. split; [ reflexivity | ].
  split; [ exact L3 | ]. split; [ exact I3 | ]. split; [ exact L4 | exact N4 ].
Defined.

(* ================================================================== *)
(** * Further facts about the Arc Raiders scraper *)
(* ================================================================== *)

Module ArcMore.
Import JS Run Articles ArcRaiders JSFacts RunFacts ArticleFacts ArcFacts.
Local Open Scope run_scope.

Section Facts.

Context `{BI : builtins}.

Implicit Types w : world page.

Lemma delays_app (l l' : list event) : delays (l ++ l') = delays l ++ delays l'.
Proof. apply flat_map_app. Qed.

(** ** One iteration of [fetchWithRetry] *)

Lemma fetch_attempts_failed_step url maxAttempts attempt todo w :
  failed (network w (calls w) (GET url)) = true ->
  exists c,
    fetch_attempts url maxAttempts attempt (S todo) w
    = fetch_attempts url maxAttempts (S attempt) todo
        (if (attempt <? maxAttempts)%nat
         then waited (of_Z (2000 * Z.of_nat attempt))
                     (logged c (answered (GET url) w))
         else logged c (answered (GET url) w)).
Proof.
  intros F. cbn [fetch_attempts]. unfold bind at 1, try_catch, bind at 1, fetch.
  destruct (network w (calls w) (GET url)) as [message | res]; simpl in F.
  - exists (FetchAttemptFailed attempt message).
    unfold bind, log, sleep, emit, ret. simpl.
    now destruct (attempt <? maxAttempts)%nat.
  - apply negb_true_iff in F. rewrite F.
    exists (FetchAttemptBlocked attempt (status res)).
    unfold bind, log, sleep, emit, ret. simpl.
    now destruct (attempt <? maxAttempts)%nat.
Qed.

Lemma fetch_attempts_ok_step url maxAttempts attempt todo w res :
  network w (calls w) (GET url) = Responded res ->
  ok res = true ->
  fetch_attempts url maxAttempts attempt (S todo) w
  = (Returned (Some res), answered (GET url) w).
Proof.
  intros N K. cbn [fetch_attempts]. unfold bind at 1, try_catch, bind at 1, fetch.
  now rewrite N, K.
Qed.

(** The world the next iteration starts in keeps the file and the
    network, has made one more call, one more request and, when it
    slept, one more wait. *)
Lemma after_failed_attempt url (sleeps : bool) ms c w :
  let w' := if sleeps
            then waited ms (logged c (answered (GET url) w))
            else logged c (answered (GET url) w) in
  state_file w' = state_file w
  /\ network w' = network w
  /\ calls w' = S (calls w)
  /\ requests (trace w') = requests (trace w) ++ [GET url]
  /\ delays (trace w') = delays (trace w) ++ (if sleeps then [ms] else []).
Proof.
  destruct sleeps; simpl; rewrite ?requests_app, ?delays_app; simpl;
    rewrite ?app_nil_r; auto.
Qed.

(** ** [fetchWithRetry] when every attempt fails *)

Lemma fetch_attempts_all_failed url maxAttempts : forall todo attempt w,
  (attempt + todo = S maxAttempts)%nat ->
  (forall k, (k < todo)%nat ->
             failed (network w (calls w + k) (GET url)) = true) ->
  exists w',
    fetch_attempts url maxAttempts attempt todo w = (Returned None, w')
    /\ state_file w' = state_file w
    /\ network w' = network w
    /\ calls w' = (calls w + todo)%nat
    /\ requests (trace w') = requests (trace w) ++ repeat (GET url) todo
    /\ delays (trace w') = delays (trace w) ++ backoff attempt (todo - 1).
Proof.
  induction todo as [ | todo IH]; intros attempt w I F.
  - exists w. simpl. rewrite Nat.add_0_r, !app_nil_r. auto 6.
  - assert (F0 := F 0%nat ltac:(lia)). rewrite Nat.add_0_r in F0.
    destruct (fetch_attempts_failed_step url maxAttempts attempt todo w F0)
      as [c E].
    rewrite E. clear E.
    match goal with |- context [fetch_attempts _ _ _ _ ?x] => set (w1 := x) end.
    destruct (after_failed_attempt url (attempt <? maxAttempts)%nat
                (of_Z (2000 * Z.of_nat attempt)) c w)
      as (Qf & Qn & Qc & Qr & Qd).
    fold w1 in Qf, Qn, Qc, Qr, Qd.
    destruct (IH (S attempt) w1) as (w' & E & Ef & En & Ec & Er & Ed).
    { lia. }
    { intros k Hk. rewrite Qn, Qc.
      replace (S (calls w) + k)%nat with (calls w + S k)%nat by lia.
      apply F. lia. }
    exists w'. split; [ exact E | ].
    split; [ congruence | ]. split; [ congruence | ]. split; [ lia | ].
    split.
    + rewrite Er, Qr, <- app_assoc. reflexivity.
    + rewrite Ed, Qd, <- app_assoc. f_equal.
      destruct todo as [ | todo'].
      * replace (attempt <? maxAttempts)%nat with false
          by (symmetry; apply Nat.ltb_ge; lia).
        reflexivity.
      * replace (attempt <? maxAttempts)%nat with true
          by (symmetry; apply Nat.ltb_lt; lia).
        cbn [Nat.sub]. rewrite Nat.sub_0_r. reflexivity.
Qed.

(** ** [fetchWithRetry] when an attempt succeeds *)

Lemma fetch_attempts_first_ok url maxAttempts res : forall k todo attempt w,
  (k < todo)%nat ->
  (attempt + todo = S maxAttempts)%nat ->
  (forall j, (j < k)%nat ->
             failed (network w (calls w + j) (GET url)) = true) ->
  network w (calls w + k) (GET url) = Responded res ->
  ok res = true ->
  exists w',
    fetch_attempts url maxAttempts attempt todo w = (Returned (Some res), w')
    /\ state_file w' = state_file w
    /\ network w' = network w
    /\ calls w' = (calls w + S k)%nat
    /\ requests (trace w') = requests (trace w) ++ repeat (GET url) (S k)
    /\ delays (trace w') = delays (trace w) ++ backoff attempt k.
Proof.
  induction k as [ | k IH]; intros todo attempt w Lt I F N K;
    (destruct todo as [ | todo]; [ lia | ]).
  - rewrite Nat.add_0_r in N.
    rewrite (fetch_attempts_ok_step url maxAttempts attempt todo w res N K).
    eexists. split; [ reflexivity | ]. simpl.
    rewrite requests_app, delays_app. simpl. rewrite !app_nil_r.
    repeat split; auto. lia.
  - assert (F0 := F 0%nat ltac:(lia)). rewrite Nat.add_0_r in F0.
    destruct (fetch_attempts_failed_step url maxAttempts attempt todo w F0)
      as [c E].
    rewrite E. clear E.
    match goal with |- context [fetch_attempts _ _ _ _ ?x] => set (w1 := x) end.
    destruct (after_failed_attempt url (attempt <? maxAttempts)%nat
                (of_Z (2000 * Z.of_nat attempt)) c w)
      as (Qf & Qn & Qc & Qr & Qd).
    fold w1 in Qf, Qn, Qc, Qr, Qd.
    destruct (IH todo (S attempt) w1) as (w' & E & Ef & En & Ec & Er & Ed).
    { lia. }
    { lia. }
    { intros j Hj. rewrite Qn, Qc.
      replace (S (calls w) + j)%nat with (calls w + S j)%nat by lia.
      apply F. lia. }
    { rewrite Qn, Qc.
      replace (S (calls w) + k)%nat with (calls w + S k)%nat by lia.
      exact N. }
    { exact K. }
    exists w'. split; [ exact E | ].
    split; [ congruence | ]. split; [ congruence | ]. split; [ lia | ].
    split.
    + rewrite Er, Qr, <- app_assoc. reflexivity.
    + rewrite Ed, Qd, <- app_assoc. f_equal.
      replace (attempt <? maxAttempts)%nat with true
        by (symmetry; apply Nat.ltb_lt; lia).
      reflexivity.
Qed.

(** ** [fetchWithRetry] on any network *)

Lemma fetch_attempts_any url maxAttempts : forall todo attempt w,
  exists r w' n,
    fetch_attempts url maxAttempts attempt todo w = (Returned r, w')
    /\ state_file w' = state_file w
    /\ network w' = network w
    /\ (n <= todo)%nat
    /\ requests (trace w') = requests (trace w) ++ repeat (GET url) n
    /\ (forall res, r = Some res -> ok res = true)
    /\ (r = None -> n = todo)
    /\ (0 < todo -> 0 < n)%nat.
Proof.
  induction todo as [ | todo IH]; intros attempt w.
  - exists None, w, 0%nat. simpl. rewrite app_nil_r.
    repeat split; auto. discriminate.
  - destruct (failed (network w (calls w) (GET url))) eqn:F.
    + destruct (fetch_attempts_failed_step url maxAttempts attempt todo w F)
        as [c E].
      rewrite E. clear E.
      match goal with |- context [fetch_attempts _ _ _ _ ?x] => set (w1 := x) end.
      destruct (after_failed_attempt url (attempt <? maxAttempts)%nat
                  (of_Z (2000 * Z.of_nat attempt)) c w)
        as (Qf & Qn & Qc & Qr & Qd).
      fold w1 in Qf, Qn, Qc, Qr, Qd.
      destruct (IH (S attempt) w1)
        as (r & w' & n & E & Ef & En & Le & Er & Ok & No & _).
      exists r, w', (S n). split; [ exact E | ].
      split; [ congruence | ]. split; [ congruence | ]. split; [ lia | ].
      split; [ | split; [ exact Ok | split; [ | lia ] ] ].
      * rewrite Er, Qr, <- app_assoc. reflexivity.
      * intros R. now rewrite (No R).
    + destruct (network w (calls w) (GET url)) as [message | res] eqn:N;
        simpl in F; [ discriminate | ].
      apply negb_false_iff in F.
      rewrite (fetch_attempts_ok_step url maxAttempts attempt todo w res N F).
      exists (Some res), (answered (GET url) w), 1%nat.
      split; [ reflexivity | ]. simpl. rewrite requests_app.
      repeat split; auto; try lia.
      * now intros res' [= <-].
      * discriminate.
Qed.

(** ** What the scrape loop pushes *)

Lemma scrape_card_scraped articles c w articles' w' :
  Forall scraped articles ->
  scrape_card articles c w = (Returned articles', w') ->
  Forall scraped articles'
  /\ (List.length articles' <= S (List.length articles))%nat
  /\ (List.length articles <= List.length articles')%nat.
Proof.
  intros F. unfold scrape_card.
  destruct (card_href c) as [href | ]; [ | intros [= <- _]; auto ].
  destruct (String.eqb href ""); [ intros [= <- _]; auto | ].
  destruct (URL_href href BASE_URL) as [u | ]; [ | discriminate ].
  unfold bind. destruct (parseDate (card_date c) w) as [[d | e] w1] eqn:P;
    [ | discriminate ].
  apply parseDate_valid in P.
  destruct (String.eqb (card_title c) "") eqn:T;
    [ intros [= <- _]; auto | ].
  destruct (String.eqb u "") eqn:U; [ intros [= <- _]; auto | ].
  cbn [orb]. intros [= <- _]. rewrite length_app. cbn [List.length].
  split; [ | lia ].
  apply Forall_app. split; [ exact F | ].
  constructor; [ | constructor ].
  apply String.eqb_neq in T, U. unfold scraped. cbn [title url published].
  rewrite copy_Date_id by now apply valid_in_range. auto.
Qed.

Lemma scrape_cards_scraped cards : forall articles w articles' w',
  Forall scraped articles ->
  scrape_cards articles cards w = (Returned articles', w') ->
  Forall scraped articles'
  /\ (List.length articles' <= List.length articles + List.length cards)%nat.
Proof.
  induction cards as [ | c cards IH]; intros articles w articles' w' F;
    cbn [scrape_cards].
  - intros [= <- _]. split; [ exact F | simpl; lia ].
  - unfold bind.
    destruct (scrape_card articles c w) as [[a1 | e] w1] eqn:S; [ | discriminate ].
    intros R.
    destruct (scrape_card_scraped articles c w a1 w1 F S) as (F1 & L1 & _).
    destruct (IH a1 w1 articles' w' F1 R) as (F2 & L2).
    split; [ exact F2 | simpl; lia ].
Qed.

(** A card whose date does not parse, met after cards that scrape. *)
Lemma scrape_cards_bad_date before c after href u : forall articles w articles1 w1,
  scrape_cards articles before w = (Returned articles1, w1) ->
  card_href c = Some href -> href <> "" ->
  URL_href href BASE_URL = Some u ->
  new_Date (Date_parse (card_date c ++ " UTC")) = InvalidDate ->
  scrape_cards articles (before ++ c :: after) w
  = (Thrown (Error ("Invalid date: " ++ card_date c)), w).
Proof.
  induction before as [ | b before IH]; intros articles w articles1 w1 S H N U D.
  - cbn [app scrape_cards]. unfold bind, scrape_card.
    apply String.eqb_neq in N. rewrite H, N, U.
    unfold bind, parseDate. rewrite D. reflexivity.
  - cbn [app scrape_cards] in *. unfold bind in *.
    assert (P := pure_scrape_card articles b w).
    destruct (scrape_card articles b w) as [[a1 | e] w2]; [ | discriminate ].
    simpl in P. subst w2.
    now apply (IH a1 w articles1 w1).
Qed.

Lemma getUnpostedArticles_well_dated w articles w' :
  getUnpostedArticles w = (Returned articles, w') -> Forall well_dated articles.
Proof.
  destruct (getLatestNewsArticles w) as [[found | e] w1] eqn:S.
  - assert (F := getLatestNewsArticles_well_dated w found w1 S).
    destruct (load_spec (state_file w)) as [state | ] eqn:L.
    + rewrite (arc_getUnpostedArticles_warm w state found w1 L S).
      intros [= <- _]. rewrite Forall_forall in *. intros a I.
      apply arc_unposted_In in I. now apply F.
    + rewrite (arc_getUnpostedArticles_cold w found w1 L S).
      destruct (new_Date (max_published found)); [ discriminate | ].
      intros [= <- _]. constructor.
  - now rewrite (arc_getUnpostedArticles_thrown w e w1 S).
Qed.

(** A result that is not empty comes from a loaded state. *)
Lemma getUnpostedArticles_nonempty_warm w articles w' :
  getUnpostedArticles w = (Returned articles, w') -> articles <> [] ->
  exists state found,
    load_spec (state_file w) = Some state
    /\ getLatestNewsArticles w = (Returned found, w')
    /\ articles = unposted state found.
Proof.
  destruct (getLatestNewsArticles w) as [[found | e] w1] eqn:S.
  - destruct (load_spec (state_file w)) as [state | ] eqn:L.
    + rewrite (arc_getUnpostedArticles_warm w state found w1 L S).
      intros [= <- <-] _. now exists state, found.
    + rewrite (arc_getUnpostedArticles_cold w found w1 L S).
      destruct (new_Date (max_published found)); [ discriminate | ].
      intros [= <- _] N. now destruct N.
  - now rewrite (arc_getUnpostedArticles_thrown w e w1 S).
Qed.

(** ** Discord webhook *)

Variable WEBHOOK : string.

Lemma postToDiscord_network_error article retries w message :
  network w (calls w) (POST WEBHOOK (content article)) = Rejected message ->
  postToDiscord WEBHOOK article retries w
  = (Thrown (TypeError message), answered (POST WEBHOOK (content article)) w).
Proof.
  intros N. destruct retries; cbn [postToDiscord]; unfold bind at 1, fetch;
    now rewrite N.
Qed.

Lemma postToDiscord_requests article : forall retries w,
  exists n,
    (1 <= n <= S retries)%nat
    /\ requests (trace (snd (postToDiscord WEBHOOK article retries w)))
       = requests (trace w) ++ repeat (POST WEBHOOK (content article)) n.
Proof.
  assert (last : forall (res : response page) w0,
    snd ((if negb (ok res)
          then throw (Error ("Discord webhook failed: "
                             ++ Z_to_string (status res)))
          else ret tt) w0) = w0).
  { intros res w0. now destruct (negb (ok res)). }
  induction retries as [ | retries IH]; intros w; cbn [postToDiscord];
    unfold bind at 1, fetch;
    destruct (network w (calls w) (POST WEBHOOK (content article))) as [m | res].
  - exists 1%nat. simpl. rewrite requests_app. split; [ lia | reflexivity ].
  - exists 1%nat. rewrite last. simpl. rewrite requests_app.
    split; [ lia | reflexivity ].
  - exists 1%nat. simpl. rewrite requests_app. split; [ lia | reflexivity ].
  - destruct (status res =? 429).
    + unfold bind at 1, sleep, emit.
      match goal with |- context [postToDiscord _ _ _ ?x] => set (w1 := x) end.
      destruct (IH w1) as (n & B & E). exists (S n). split; [ lia | ].
      assert (R1 : requests (trace w1)
                   = requests (trace w) ++ [POST WEBHOOK (content article)]).
      { subst w1. cbn [trace answered]. rewrite !requests_app. simpl.
        now rewrite app_nil_r. }
      rewrite E, R1, <- app_assoc. reflexivity.
    + exists 1%nat. rewrite last. simpl. rewrite requests_app.
      split; [ lia | reflexivity ].
Qed.

Lemma postToDiscord_after_throttling article : forall k retries w responses,
  (k <= retries)%nat ->
  rate_limited WEBHOOK article w responses k ->
  network w (calls w + k) (POST WEBHOOK (content article))
  = Responded (responses k) ->
  status (responses k) <> 429 ->
  exists w',
    postToDiscord WEBHOOK article retries w
    = ((if ok (responses k) then Returned tt
        else Thrown (Error ("Discord webhook failed: "
                            ++ Z_to_string (status (responses k))))), w')
    /\ state_file w' = state_file w
    /\ requests (trace w')
       = requests (trace w) ++ repeat (POST WEBHOOK (content article)) (S k)
    /\ delays (trace w')
       = delays (trace w) ++ map (fun j => retry_delay (responses j)) (seq 0 k).
Proof.
  induction k as [ | k IH]; intros retries w responses Le A N NL.
  - rewrite Nat.add_0_r in N. apply Z.eqb_neq in NL.
    exists (answered (POST WEBHOOK (content article)) w).
    split.
    + destruct retries; cbn [postToDiscord]; unfold bind at 1, fetch;
        rewrite N, ?NL; now destruct (ok (responses 0%nat)).
    + simpl. rewrite requests_app, delays_app. simpl. rewrite !app_nil_r. auto.
  - destruct retries as [ | retries]; [ lia | ].
    destruct (A 0%nat ltac:(lia)) as [N0 S0]. rewrite Nat.add_0_r in N0.
    rewrite (arc_postToDiscord_rate_limited WEBHOOK article retries w _ N0 S0).
    fold (retry_delay (responses 0%nat)).
    match goal with |- context [postToDiscord _ _ _ ?x] => set (w1 := x) end.
    destruct (IH retries w1 (fun j => responses (S j))) as (w' & E & Ef & Er & Ed).
    { lia. }
    { intros j Hj. subst w1. cbn [network calls waited answered].
      replace (S (calls w) + j)%nat with (calls w + S j)%nat by lia.
      apply A. lia. }
    { subst w1. cbn [network calls waited answered].
      replace (S (calls w) + k)%nat with (calls w + S k)%nat by lia.
      exact N. }
    { exact NL. }
    exists w'. split; [ exact E | ]. split; [ rewrite Ef; reflexivity | ].
    split.
    + rewrite Er. subst w1. cbn [trace waited answered].
      rewrite !requests_app. simpl. rewrite app_nil_r, <- app_assoc. reflexivity.
    + rewrite Ed. subst w1. cbn [trace waited answered].
      rewrite !delays_app. simpl. rewrite app_nil_r, <- app_assoc.
      cbn [seq map]. rewrite <- seq_shift, map_map. reflexivity.
Qed.

Lemma postToDiscord_throttled article : forall retries w responses,
  rate_limited WEBHOOK article w responses (S retries) ->
  exists w',
    postToDiscord WEBHOOK article retries w
    = (Thrown (Error "Discord webhook failed: 429"), w')
    /\ state_file w' = state_file w
    /\ requests (trace w')
       = requests (trace w) ++ repeat (POST WEBHOOK (content article)) (S retries)
    /\ delays (trace w')
       = delays (trace w)
         ++ map (fun j => retry_delay (responses j)) (seq 0 retries).
Proof.
  induction retries as [ | retries IH]; intros w responses A;
    destruct (A 0%nat ltac:(lia)) as [N0 S0]; rewrite Nat.add_0_r in N0.
  - rewrite (postToDiscord_exhausted WEBHOOK article w _ N0 S0).
    eexists. split; [ reflexivity | ]. simpl.
    rewrite requests_app, delays_app. simpl. rewrite !app_nil_r. auto.
  - rewrite (arc_postToDiscord_rate_limited WEBHOOK article retries w _ N0 S0).
    fold (retry_delay (responses 0%nat)).
    match goal with |- context [postToDiscord _ _ _ ?x] => set (w1 := x) end.
    destruct (IH w1 (fun j => responses (S j))) as (w' & E & Ef & Er & Ed).
    { intros j Hj. subst w1. cbn [network calls waited answered].
      replace (S (calls w) + j)%nat with (calls w + S j)%nat by lia.
      apply A. lia. }
    exists w'. split; [ exact E | ]. split; [ rewrite Ef; reflexivity | ].
    split.
    + rewrite Er. subst w1. cbn [trace waited answered].
      rewrite !requests_app. simpl. rewrite app_nil_r, <- app_assoc. reflexivity.
    + rewrite Ed. subst w1. cbn [trace waited answered].
      rewrite !delays_app. simpl. rewrite app_nil_r, <- app_assoc.
      cbn [seq map]. rewrite <- seq_shift, map_map. reflexivity.
Qed.

(** ** The delivery loop *)

Lemma deliver_posts : forall articles w,
  exists counts w',
    deliver WEBHOOK articles w = (Returned tt, w')
    /\ List.length counts = List.length articles
    /\ Forall (fun n => (1 <= n <= 4)%nat) counts
    /\ requests (trace w')
       = requests (trace w) ++ posts WEBHOOK (combine articles counts)
    /\ state_file w' = state_file w
    /\ network w' = network w.
Proof.
  induction articles as [ | a articles IH]; intros w.
  - exists [], w. simpl. rewrite app_nil_r. auto 6.
  - unfold deliver. cbn [for_of]. fold (deliver WEBHOOK articles).
    unfold bind at 1, try_catch.
    destruct (postToDiscord_requests a 3 w) as (n & B & R).
    destruct (quiet_postToDiscord WEBHOOK a 3 w) as [Qf Qn].
    set (w1 := snd (match postToDiscord WEBHOOK a 3 w with
                    | (Returned x, w0) => (Returned x, w0)
                    | (Thrown e, w0) => log (FailedToPost (title a) e) w0
                    end)).
    assert (P : match postToDiscord WEBHOOK a 3 w with
                | (Returned x, w0) => (Returned x, w0)
                | (Thrown e, w0) => log (FailedToPost (title a) e) w0
                end = (Returned tt, w1)
                /\ state_file w1 = state_file w
                /\ network w1 = network w
                /\ requests (trace w1)
                   = requests (trace w)
                     ++ repeat (POST WEBHOOK (content a)) n).
    { subst w1. destruct (postToDiscord WEBHOOK a 3 w) as [[[] | e] w0];
        simpl in *; rewrite ?requests_app; simpl; rewrite ?app_nil_r; auto. }
    destruct P as (P & Pf & Pn & Pr). rewrite P.
    destruct (IH w1) as (counts & w' & E & Len & F & Er & Ef & En).
    exists (n :: counts), w'. split; [ exact E | ].
    split; [ simpl; now rewrite Len | ].
    split; [ constructor; [ lia | exact F ] | ].
    split; [ | split; congruence ].
    rewrite Er, Pr, <- app_assoc. reflexivity.
Qed.

End Facts.

End ArcMore.

(* ================================================================== *)
(** * Further facts about the JavaScript values *)
(* ================================================================== *)

Module JSMore.
Import JS JSFacts.

Lemma fold_max_NaN (xs : list number) : fold_left max_step xs NaN = NaN.
Proof. induction xs as [ | x xs IH]; simpl; auto. Qed.

Lemma max_step_NaN (highest : number) : max_step highest NaN = NaN.
Proof. now destruct highest. Qed.

(** One [NaN] among its arguments makes [Math.max] return [NaN]. *)
Lemma Math_max_NaN (xs : list number) : In NaN xs -> Math_max xs = NaN.
Proof.
  unfold Math_max. generalize NegInfinity.
  induction xs as [ | x xs IH]; intros acc; [ intros [] | ].
  intros [-> | I]; cbn [fold_left].
  - rewrite max_step_NaN. apply fold_max_NaN.
  - now apply IH.
Qed.

Lemma fold_min_NaN (xs : list number) : fold_left min_step xs NaN = NaN.
Proof. induction xs as [ | x xs IH]; simpl; auto. Qed.

Lemma min_step_of_Z (z t : Z) : min_step (of_Z z) (of_Z t) = of_Z (Z.min z t).
Proof.
  unfold min_step. change (isNaN (of_Z t)) with false. cbn iota.
  change (match of_Z z with NaN => NaN | _ => if gt (of_Z z) (of_Z t) then of_Z t else of_Z z end)
    with (if gt (of_Z z) (of_Z t) then of_Z t else of_Z z).
  rewrite gt_of_Z. destruct (Z.ltb_spec t z); f_equal; lia.
Qed.

Lemma fold_min_gt (l : Z) (ds : list Date) : forall z,
  gt (fold_left min_step (map getTime ds) (of_Z z)) (of_Z l)
  = (l <? z) && forallb (fun d => Date_gt d (DateOf l)) ds.
Proof.
  induction ds as [ | d ds IH]; intros z; cbn [map fold_left forallb].
  - now rewrite gt_of_Z, andb_true_r.
  - destruct d as [ | t]; cbn [getTime].
    + change (min_step (of_Z z) NaN) with NaN. rewrite fold_min_NaN.
      change (Date_gt InvalidDate (DateOf l)) with false.
      now rewrite andb_false_r.
    + rewrite min_step_of_Z, IH, Date_gt_DateOf.
      destruct (Z.ltb_spec l (Z.min z t)), (Z.ltb_spec l z), (Z.ltb_spec l t);
        simpl; trivial; lia.
Qed.

Lemma forallb_mapped {A B : Type} (f : A -> B) (p : B -> bool) (xs : list A) :
  forallb p (map f xs) = forallb (fun x => p (f x)) xs.
Proof. induction xs as [ | x xs IH]; simpl; congruence. Qed.

(** [Math.min(...dates) > l] says that every date is later than [l]. *)
Lemma Math_min_gt (l : Z) (ds : list Date) :
  gt (Math_min (map getTime ds)) (of_Z l)
  = forallb (fun d => Date_gt d (DateOf l)) ds.
Proof.
  unfold Math_min. destruct ds as [ | d ds]; [ reflexivity | ].
  cbn [map fold_left forallb]. destruct d as [ | t]; cbn [getTime].
  - change (min_step PosInfinity NaN) with NaN. now rewrite fold_min_NaN.
  - change (min_step PosInfinity (of_Z t)) with (of_Z t).
    now rewrite fold_min_gt, Date_gt_DateOf.
Qed.

End JSMore.

(* ================================================================== *)
(** * Further facts about the Nightreign scraper *)
(* ================================================================== *)

Module NightMore.
Import JS Run Articles Nightreign JSFacts RunFacts ArticleFacts NightreignFacts JSMore.
Local Open Scope run_scope.

Section Facts.

Context `{BI : builtins}.

Implicit Types w : world page.

(** ** Scrape *)

Lemma scrape_card_listed articles c :
  Forall listed articles ->
  Forall listed (scrape_card articles c)
  /\ (List.length (scrape_card articles c) <= S (List.length articles))%nat.
Proof.
  intros F. unfold scrape_card.
  destruct (card_url c) as [u | ]; [ | auto ].
  destruct (card_datetime c) as [d | ]; [ | auto ].
  destruct (String.eqb (card_title c) "") eqn:T; [ auto | ].
  destruct (String.eqb u "") eqn:U; [ auto | ].
  destruct (String.eqb d "") eqn:D; [ auto | ].
  cbn [orb]. rewrite length_app. cbn [List.length]. split; [ | lia ].
  apply Forall_app. split; [ exact F | ].
  constructor; [ | constructor ].
  apply String.eqb_neq in T, U. unfold listed. cbn [title url published].
  split; [ exact T | ]. split; [ exact U | apply TimeClip_in_range ].
Qed.

Lemma scrape_cards_listed cards : forall articles,
  Forall listed articles ->
  Forall listed (fold_left scrape_card cards articles)
  /\ (List.length (fold_left scrape_card cards articles)
      <= List.length articles + List.length cards)%nat.
Proof.
  induction cards as [ | c cards IH]; intros articles F; cbn [fold_left].
  - split; [ exact F | simpl; lia ].
  - destruct (scrape_card_listed articles c F) as [F1 L1].
    destruct (IH _ F1) as [F2 L2]. split; [ exact F2 | simpl; lia ].
Qed.

(** ** Delta logic *)

Lemma unposted_well_dated lastSeen articles :
  Forall (fun a => in_range (published a)) articles ->
  Forall well_dated (unposted lastSeen articles).
Proof.
  intros R. rewrite Forall_forall in *. intros a I.
  apply night_unposted_In in I. destruct I as [I G].
  apply dated_in_range_well_dated; [ | now apply R ].
  apply Date_gt_true in G. destruct G as (t & _ & E & _). now exists t.
Qed.

(** The warning is logged exactly when there are three articles, all of
    them later than the date on record. *)
Lemma getUnpostedArticles_warns w l articles w1 :
  load_spec (state_file w) = Some (DateOf l) ->
  getLatestNewsArticles w = (Returned articles, w1) ->
  getUnpostedArticles w
  = (Returned (unposted (DateOf l) articles),
     if (List.length articles =? 3)%nat
        && forallb (fun a => Date_gt (published a) (DateOf l)) articles
     then logged OlderPostsMayBeMissed w1
     else w1).
Proof.
  intros L S. unfold getUnpostedArticles.
  rewrite (bind_returned _ _ _ _ _ (loadLastPublished_spec w)).
  rewrite (bind_returned _ _ _ _ _ S). rewrite L. unfold bind.
  unfold min_published. cbn [getTime].
  rewrite <- (map_map published getTime), Math_min_gt, forallb_mapped.
  now destruct (_ && _).
Qed.

Lemma load_spec_dated (f : file) (lastSeen : Date) :
  load_spec f = Some lastSeen -> exists l, lastSeen = DateOf l.
Proof.
  unfold load_spec. destruct f as [ | | [ | | | | | members]]; try discriminate.
  destruct (member "last_published" members) as [v | ]; [ | discriminate ].
  destruct (json_truthy v); [ | discriminate ].
  destruct (new_Date_json v) as [ | t]; [ discriminate | ].
  intros [= <-]. now exists t.
Qed.

(** A result that is not empty comes from a loaded date. *)
Lemma night_getUnpostedArticles_nonempty_warm w articles w' :
  getUnpostedArticles w = (Returned articles, w') -> articles <> [] ->
  exists l found w1,
    load_spec (state_file w) = Some (DateOf l)
    /\ getLatestNewsArticles w = (Returned found, w1)
    /\ articles = unposted (DateOf l) found
    /\ state_file w' = state_file w
    /\ network w' = network w
    /\ requests (trace w') = requests (trace w) ++ [GET URL].
Proof.
  destruct (getLatestNewsArticles w) as [[found | e] w1] eqn:S.
  - assert (Rq := getLatestNewsArticles_requests w).
    destruct (night_quiet_getLatestNewsArticles w) as [Qf Qn].
    rewrite S in Rq, Qf, Qn. cbn [snd] in Rq, Qf, Qn.
    destruct (load_spec (state_file w)) as [lastSeen | ] eqn:L.
    + destruct (load_spec_dated _ _ L) as [l ->].
      rewrite (getUnpostedArticles_warns w l found w1 L S).
      intros [= <- <-] _. exists l, found, w1.
      split; [ reflexivity | ]. split; [ reflexivity | ].
      split; [ reflexivity | ].
      destruct (_ && _); cbn [logged state_file network trace];
        rewrite ?requests_app; simpl; rewrite ?app_nil_r; auto.
    + rewrite (night_getUnpostedArticles_cold w found w1 L S).
      destruct (new_Date (max_published found)); [ discriminate | ].
      intros [= <- _] N. now destruct N.
  - now rewrite (night_getUnpostedArticles_thrown w e w1 S).
Qed.

(** An article without a valid date makes the newest date invalid. *)
Lemma max_published_invalid (articles : list Article) (a : Article) :
  In a articles -> published a = InvalidDate ->
  new_Date (max_published articles) = InvalidDate.
Proof.
  intros I E. unfold max_published. rewrite Math_max_NaN; [ reflexivity | ].
  apply in_map_iff. exists a. now rewrite E.
Qed.

(** ** Discord webhook *)

Variable WEBHOOK : string.

Lemma postToDiscord_once article w :
  exists o,
    postToDiscord WEBHOOK article w
    = (o, answered (POST WEBHOOK (content article)) w).
Proof.
  unfold postToDiscord, bind, fetch.
  destruct (network w (calls w) (POST WEBHOOK (content article))) as [m | res].
  - now eexists.
  - destruct (status res =? 429); [ now eexists | ].
    destruct (negb (ok res)); now eexists.
Qed.

Lemma night_deliver_posts : forall articles w,
  exists w',
    deliver WEBHOOK articles w = (Returned tt, w')
    /\ state_file w' = state_file w
    /\ network w' = network w
    /\ requests (trace w')
       = requests (trace w) ++ map (fun a => POST WEBHOOK (content a)) articles.
Proof.
  induction articles as [ | a articles IH]; intros w.
  - exists w. simpl. rewrite app_nil_r. auto.
  - unfold deliver. cbn [for_of]. fold (deliver WEBHOOK articles).
    unfold bind at 1, try_catch.
    destruct (postToDiscord_once a w) as [o P]. rewrite P.
    set (w0 := answered (POST WEBHOOK (content a)) w).
    assert (Q : exists w1,
      match o with
      | Returned x => (Returned x, w0)
      | Thrown e => log (FailedToPost (title a) e) w0
      end = (Returned tt, w1)
      /\ state_file w1 = state_file w
      /\ network w1 = network w
      /\ requests (trace w1)
         = requests (trace w) ++ [POST WEBHOOK (content a)]).
    { destruct o as [[] | e]; eexists; (split; [ reflexivity | ]);
        subst w0; simpl; rewrite ?requests_app; simpl;
        rewrite ?app_nil_r; auto. }
    destruct Q as (w1 & Q & Qf & Qn & Qr). rewrite Q.
    destruct (IH w1) as (w' & E & Ef & En & Er).
    exists w'. split; [ exact E | ].
    split; [ congruence | ]. split; [ congruence | ].
    rewrite Er, Qr, <- app_assoc. reflexivity.
Qed.

(** ** Main *)

Lemma night_main_write_back w newArticles w1 :
  getUnpostedArticles w = (Returned newArticles, w1) ->
  newArticles <> [] ->
  exists w2,
    deliver WEBHOOK newArticles w1 = (Returned tt, w2)
    /\ main WEBHOOK w
       = saveLastPublished (new_Date (max_published newArticles)) w2.
Proof.
  intros G N. unfold main. rewrite (bind_returned _ _ _ _ _ G).
  destruct (night_deliver_posts newArticles w1) as (w2 & D & _).
  exists w2. split; [ exact D | ].
  unfold bind. rewrite D. destruct newArticles; [ congruence | reflexivity ].
Qed.

End Facts.

End NightMore.

(* ================================================================== *)
(** * Whole runs of the Arc Raiders scraper *)
(* ================================================================== *)

Module ArcRuns.
Import JS Run Articles ArcRaiders JSFacts RunFacts ArticleFacts ArcFacts ArcMore.
Local Open Scope run_scope.

Section Facts.

Context `{BI : builtins}.

Implicit Types w : world page.

Lemma greatest_well_dated (articles : list Article) (m : Z) :
  Forall well_dated articles -> greatest m (map time articles) ->
  Z.abs m <= maxTime.
Proof.
  intros F [I _]. apply in_map_iff in I. destruct I as (a & <- & I).
  rewrite Forall_forall in F. specialize (F a I).
  unfold well_dated, time in *. now destruct (published a).
Qed.

Lemma getLatestNewsArticles_scraped w articles w' :
  getLatestNewsArticles w = (Returned articles, w') -> Forall scraped articles.
Proof.
  unfold getLatestNewsArticles, bind.
  destruct (fetchWithRetry NEWS_URL 3 w) as [[[res | ] | e] w1]; try discriminate.
  - destruct (body res); [ discriminate | ].
    intros S. now apply (scrape_cards_scraped _ _ _ _ _ (Forall_nil _) S).
  - cbn. intros [= <- _]. constructor.
Qed.

(** The listing is read with one to three requests for the news page. *)
Lemma getLatestNewsArticles_gets w :
  exists n,
    (1 <= n <= 3)%nat
    /\ requests (trace (snd (getLatestNewsArticles w)))
       = requests (trace w) ++ repeat (GET NEWS_URL) n.
Proof.
  unfold getLatestNewsArticles, bind, fetchWithRetry.
  destruct (fetch_attempts_any NEWS_URL 3 3 1 w)
    as (r & w1 & n & E & _ & _ & Le & Er & _ & _ & Pos).
  rewrite E. exists n. split; [ lia | ].
  destruct r as [res | ].
  - destruct (body res) as [ | cards]; [ exact Er | ].
    now rewrite (pure_scrape_cards cards [] w1).
  - cbn. rewrite requests_app, Er. simpl. now rewrite app_nil_r.
Qed.

(** What [getUnpostedArticles] leaves behind: the requests for the news
    page, and a state file that changed only when a cold start set the
    baseline. *)
Lemma getUnpostedArticles_effects w :
  exists n,
    (1 <= n <= 3)%nat
    /\ requests (trace (snd (getUnpostedArticles w)))
       = requests (trace w) ++ repeat (GET NEWS_URL) n
    /\ network (snd (getUnpostedArticles w)) = network w
    /\ (state_file (snd (getUnpostedArticles w)) = state_file w
        \/ exists t,
             Z.abs t <= maxTime
             /\ load_spec (state_file w) = None
             /\ getUnpostedArticles w
                = (Returned [],
                   set_state_file (record t [])
                     (snd (getLatestNewsArticles w)))).
Proof.
  destruct (getLatestNewsArticles_gets w) as (n & B & R).
  destruct (arc_quiet_getLatestNewsArticles w) as [Qf Qn].
  exists n. split; [ exact B | ].
  destruct (getLatestNewsArticles w) as [[found | e] w1] eqn:S;
    cbn [snd] in R, Qf, Qn.
  - destruct (load_spec (state_file w)) as [state | ] eqn:L.
    + rewrite (arc_getUnpostedArticles_warm w state found w1 L S).
      cbn [snd]. auto.
    + rewrite (arc_getUnpostedArticles_cold w found w1 L S).
      destruct found as [ | a found].
      * rewrite max_published_nil. cbn [snd]. auto.
      * assert (F := getLatestNewsArticles_well_dated w _ w1 S).
        destruct (max_published_well_dated (a :: found)) as (m & G & _ & D);
          [ discriminate | exact F | ].
        rewrite D. cbn [snd set_state_file trace network].
        split; [ exact R | ]. split; [ exact Qn | ].
        right. exists m. split; [ | auto ].
        now apply (greatest_well_dated (a :: found)).
  - rewrite (arc_getUnpostedArticles_thrown w e w1 S). cbn [snd]. auto.
Qed.

(** An article found new is not older than the date on record. *)
Lemma unposted_not_older state articles l a :
  lastPublished state = DateOf l ->
  In a (unposted state articles) -> l <= time a.
Proof.
  intros E I. apply arc_unposted_In in I. destruct I as [_ S].
  apply selected_true in S. unfold time.
  destruct S as [(t & l' & Ea & El & Lt) | [(t & Ea & El) _]];
    rewrite Ea; rewrite E in El; injection El as <-; lia.
Qed.

Variable WEBHOOK : string.

(** The write-back of a run that found something new. *)
Lemma main_record w newArticles w1 :
  getUnpostedArticles w = (Returned newArticles, w1) ->
  newArticles <> [] ->
  exists m counts w2,
    greatest m (map time newArticles)
    /\ Z.abs m <= maxTime
    /\ main WEBHOOK w = (Returned tt, w2)
    /\ state_file w2 = record m (urls_at (DateOf m) newArticles)
    /\ network w2 = network w1
    /\ List.length counts = List.length newArticles
    /\ Forall (fun n => (1 <= n <= 4)%nat) counts
    /\ requests (trace w2)
       = requests (trace w1) ++ posts WEBHOOK (combine newArticles counts).
Proof.
  intros G N.
  assert (F := getUnpostedArticles_well_dated w newArticles w1 G).
  destruct (max_published_well_dated newArticles N F) as (m & Gm & _ & D).
  destruct (main_write_back WEBHOOK w newArticles w1 G N)
    as (w2 & Dl & Df & Dn & M).
  destruct (deliver_posts WEBHOOK newArticles w1)
    as (counts & w2' & Dl' & Len & Fc & Rq & _ & _).
  rewrite Dl in Dl'. injection Dl' as <-.
  rewrite D, saveState_valid in M.
  exists m, counts, (set_state_file (record m (urls_at (DateOf m) newArticles)) w2).
  split; [ exact Gm | ].
  split; [ now apply (greatest_well_dated newArticles) | ].
  split; [ exact M | ].
  cbn [set_state_file state_file network trace]. auto 6.
Qed.

End Facts.

End ArcRuns.

(* ================================================================== *)
(** * Whole runs of the Nightreign scraper *)
(* ================================================================== *)

Module NightRuns.
Import JS Run Articles Nightreign JSFacts RunFacts ArticleFacts NightreignFacts
       JSMore NightMore.
Local Open Scope run_scope.

Section Facts.

Context `{BI : builtins}.

Implicit Types w : world page.

Lemma night_greatest_well_dated (articles : list Article) (m : Z) :
  Forall well_dated articles -> greatest m (map time articles) ->
  Z.abs m <= maxTime.
Proof.
  intros F [I _]. apply in_map_iff in I. destruct I as (a & <- & I).
  rewrite Forall_forall in F. specialize (F a I).
  unfold well_dated, time in *. now destruct (published a).
Qed.

Lemma getLatestNewsArticles_listed w articles w1 :
  getLatestNewsArticles w = (Returned articles, w1) -> Forall listed articles.
Proof.
  unfold getLatestNewsArticles, bind, fetch.
  destruct (network w (calls w) (GET URL)) as [m | res]; [ discriminate | ].
  destruct (negb (ok res)); [ discriminate | ].
  destruct (body res) as [ | | cards]; try discriminate.
  intros [= <- _]. now apply scrape_cards_listed.
Qed.

(** An article found new is later than the date on record. *)
Lemma unposted_later l articles a :
  In a (unposted (DateOf l) articles) -> l < time a.
Proof.
  intros I. apply night_unposted_In in I. destruct I as [_ G].
  apply Date_gt_true in G. destruct G as (t & l' & Ea & [= <-] & Lt).
  unfold time. now rewrite Ea.
Qed.

(** What [getUnpostedArticles] leaves behind: one request for the news
    page, and a state file that changed only when a cold start set the
    baseline. *)
Lemma night_getUnpostedArticles_effects w :
  requests (trace (snd (getUnpostedArticles w)))
  = requests (trace w) ++ [GET URL]
  /\ network (snd (getUnpostedArticles w)) = network w
  /\ (state_file (snd (getUnpostedArticles w)) = state_file w
      \/ exists t,
           Z.abs t <= maxTime
           /\ load_spec (state_file w) = None
           /\ getUnpostedArticles w
              = (Returned [],
                 set_state_file (record t) (snd (getLatestNewsArticles w)))).
Proof.
  assert (R := getLatestNewsArticles_requests w).
  destruct (night_quiet_getLatestNewsArticles w) as [Qf Qn].
  destruct (getLatestNewsArticles w) as [[found | e] w1] eqn:S;
    cbn [snd] in R, Qf, Qn.
  - destruct (load_spec (state_file w)) as [lastSeen | ] eqn:L.
    + destruct (load_spec_dated _ _ L) as [l ->].
      rewrite (getUnpostedArticles_warns w l found w1 L S). cbn [snd].
      destruct (_ && _); cbn [logged trace network state_file];
        rewrite ?requests_app; simpl; rewrite ?app_nil_r; auto.
    + rewrite (night_getUnpostedArticles_cold w found w1 L S).
      assert (I := TimeClip_in_range (max_published found)).
      fold (new_Date (max_published found)) in I.
      destruct (new_Date (max_published found)) as [ | t];
        cbn [snd set_state_file trace network state_file]; [ auto | ].
      split; [ exact R | ]. split; [ exact Qn | ].
      right. exists t. auto.
  - rewrite (night_getUnpostedArticles_thrown w e w1 S). cbn [snd]. auto.
Qed.

Variable WEBHOOK : string.

(** The write-back of a run that found something new. *)
Lemma night_main_record w newArticles w1 :
  getUnpostedArticles w = (Returned newArticles, w1) ->
  newArticles <> [] ->
  exists l m w2,
    load_spec (state_file w) = Some (DateOf l)
    /\ greatest m (map time newArticles)
    /\ l < m
    /\ Z.abs m <= maxTime
    /\ main WEBHOOK w = (Returned tt, w2)
    /\ state_file w2 = record m
    /\ network w2 = network w1
    /\ requests (trace w2)
       = requests (trace w1)
         ++ map (fun a => POST WEBHOOK (content a)) newArticles.
Proof.
  intros G N.
  destruct (night_getUnpostedArticles_nonempty_warm w newArticles w1 G N)
    as (l & found & w0 & L & S & E & _).
  assert (F : Forall well_dated newArticles).
  { rewrite E. apply unposted_well_dated.
    apply (getLatestNewsArticles_in_range w found w0 S). }
  destruct (max_published_well_dated newArticles N F) as (m & Gm & _ & D).
  destruct (night_main_write_back WEBHOOK w newArticles w1 G N) as (w2 & Dl & M).
  destruct (night_deliver_posts WEBHOOK newArticles w1)
    as (w2' & Dl' & Df & Dn & Rq).
  rewrite Dl in Dl'. injection Dl' as <-.
  rewrite D, saveLastPublished_valid in M.
  exists l, m, (set_state_file (record m) w2).
  split; [ exact L | ]. split; [ exact Gm | ].
  split.
  { destruct Gm as [I _]. apply in_map_iff in I. destruct I as (a & <- & I).
    rewrite E in I. now apply unposted_later in I. }
  split; [ now apply (night_greatest_well_dated newArticles) | ].
  split; [ exact M | ].
  cbn [set_state_file state_file network trace]. auto.
Qed.

End Facts.

End NightRuns.

(* ================================================================== *)
(** * Further properties of the code *)
(* ================================================================== *)

(** ** [fetchWithRetry] (Arc Raiders) *)

(** X1.  When each of the [maxAttempts] attempts fails, by a network
    error or by an answer that is not 2xx, [fetchWithRetry] returns [null]
    without throwing, after exactly [maxAttempts] requests for the url and
    waits of 2000 ms times the attempt number between them, 2000, 4000 and
    so on, none after the last attempt; the state file is not touched. *)
Theorem fetchWithRetry_gives_up (url : string) (maxAttempts : nat)
    (w : world ArcRaiders.page) :
  (forall k, (k < maxAttempts)%nat ->
             failed (network w (calls w + k) (GET url)) = true) ->
  exists w',
    ArcRaiders.fetchWithRetry url maxAttempts w = (Returned None, w')
    /\ state_file w' = state_file w
    /\ requests (trace w') = requests (trace w) ++ repeat (GET url) maxAttempts
    /\ delays (trace w')
       = delays (trace w)
         ++ map (fun attempt => of_Z (2000 * Z.of_nat attempt))
                (seq 1 (maxAttempts - 1)).
Proof.
  intros F. unfold ArcRaiders.fetchWithRetry.
  destruct (ArcMore.fetch_attempts_all_failed url maxAttempts maxAttempts 1 w)
    as (w' & E & Ef & _ & _ & Er & Ed); [ lia | exact F | ].
  exists w'. auto.
Qed.

Lemma fetchWithRetry_gives_up_witness :
  exists w',
    ArcRaiders.fetchWithRetry ArcRaiders.NEWS_URL 3 Scenario.Arc.first_run_offline
    = (Returned None, w')
    /\ state_file w' = Missing
    /\ requests (trace w') = repeat (GET ArcRaiders.NEWS_URL) 3
    /\ delays (trace w') = [of_Z 2000; of_Z 4000].
Proof.
  apply (fetchWithRetry_gives_up ArcRaiders.NEWS_URL 3
           Scenario.Arc.first_run_offline).
  intros k _. reflexivity.
Defined.

(** X2.  When the first [k] attempts fail and the next one, still within
    [maxAttempts], is answered 2xx, [fetchWithRetry] returns that response
    after [k + 1] requests and [k] waits of 2000, 4000, ... ms: it stops
    at the first success and does not wait after it. *)
Theorem fetchWithRetry_first_success (url : string) (maxAttempts k : nat)
    (w : world ArcRaiders.page) (res : response ArcRaiders.page) :
  (k < maxAttempts)%nat ->
  (forall j, (j < k)%nat ->
             failed (network w (calls w + j) (GET url)) = true) ->
  network w (calls w + k) (GET url) = Responded res ->
  ok res = true ->
  exists w',
    ArcRaiders.fetchWithRetry url maxAttempts w = (Returned (Some res), w')
    /\ state_file w' = state_file w
    /\ requests (trace w') = requests (trace w) ++ repeat (GET url) (S k)
    /\ delays (trace w')
       = delays (trace w)
         ++ map (fun attempt => of_Z (2000 * Z.of_nat attempt)) (seq 1 k).
Proof.
  intros Lt F N K. unfold ArcRaiders.fetchWithRetry.
  destruct (ArcMore.fetch_attempts_first_ok url maxAttempts res k maxAttempts 1 w)
    as (w' & E & Ef & _ & _ & Er & Ed); auto; try lia.
  exists w'. auto.
Qed.

Lemma fetchWithRetry_first_success_witness :
  exists w',
    ArcRaiders.fetchWithRetry ArcRaiders.NEWS_URL 3
      (Scenario.start Missing (Scenario.Arc.recovering [Scenario.Arc.card_A]))
    = (Returned (Some {| status := 200; retry_after := None;
                         body := ArcRaiders.NewsSection [Scenario.Arc.card_A] |}),
       w')
    /\ state_file w' = Missing
    /\ requests (trace w') = repeat (GET ArcRaiders.NEWS_URL) 3
    /\ delays (trace w') = [of_Z 2000; of_Z 4000].
Proof.
  apply (fetchWithRetry_first_success ArcRaiders.NEWS_URL 3 2
           (Scenario.start Missing (Scenario.Arc.recovering [Scenario.Arc.card_A]))).
  - lia.
  - intros j Lt. destruct j as [ | [ | j]]; [ reflexivity | reflexivity | lia ].
  - reflexivity.
  - reflexivity.
Defined.

(** X3.  Whatever the network answers, [fetchWithRetry] returns and
    never throws; it leaves the state file alone; it sends between one
    and [maxAttempts] requests, all for the url; a response it returns
    has a 2xx status; and it returns [null] only after all [maxAttempts]
    requests. *)
Theorem fetchWithRetry_total (url : string) (maxAttempts : nat)
    (w : world ArcRaiders.page) :
  exists r w' n,
    ArcRaiders.fetchWithRetry url maxAttempts w = (Returned r, w')
    /\ state_file w' = state_file w
    /\ (n <= maxAttempts)%nat
    /\ (0 < maxAttempts -> 0 < n)%nat
    /\ requests (trace w') = requests (trace w) ++ repeat (GET url) n
    /\ (forall res, r = Some res -> ok res = true)
    /\ (r = None -> n = maxAttempts).
Proof.
  unfold ArcRaiders.fetchWithRetry.
  destruct (ArcMore.fetch_attempts_any url maxAttempts maxAttempts 1 w)
    as (r & w' & n & E & Ef & _ & Le & Er & Ok & No & Pos).
  exists r, w', n. auto 8.
Qed.

(** ** [postToDiscord] (Arc Raiders) *)

(** X4.  When the webhook answers 429 to the first post of an article
    and to each of its [retries] retries, [postToDiscord] throws "Discord
    webhook failed: 429" after exactly [retries + 1] posts of the same
    message, having waited [retries] times, each time
    [(Number(Retry-After) || 5) * 1000] ms for the answer just received;
    the state file is not touched. *)
Theorem postToDiscord_gives_up `{BI : builtins} (WEBHOOK : string)
    (article : Article) (retries : nat) (w : world ArcRaiders.page)
    (responses : nat -> response ArcRaiders.page) :
  ArcRaiders.rate_limited WEBHOOK article w responses (S retries) ->
  exists w',
    ArcRaiders.postToDiscord WEBHOOK article retries w
    = (Thrown (Error "Discord webhook failed: 429"), w')
    /\ state_file w' = state_file w
    /\ requests (trace w')
       = requests (trace w)
         ++ repeat (POST WEBHOOK (content article)) (S retries)
    /\ delays (trace w')
       = delays (trace w)
         ++ map (fun j => ArcRaiders.retry_delay (responses j)) (seq 0 retries).
Proof.
  apply ArcMore.postToDiscord_throttled.
Qed.

Lemma postToDiscord_gives_up_witness :
  exists w',
    ArcRaiders.postToDiscord Scenario.Arc.hook Scenario.Arc.A 3
      (Scenario.start Missing Scenario.Arc.throttled)
    = (Thrown (Error "Discord webhook failed: 429"), w')
    /\ state_file w' = Missing
    /\ requests (trace w')
       = repeat (POST Scenario.Arc.hook (content Scenario.Arc.A)) 4
    /\ delays (trace w')
       = [Num (inject_Z 1 * 1000); Num (inject_Z 1 * 1000);
          Num (inject_Z 1 * 1000)].
Proof.
  assert (H : ArcRaiders.rate_limited Scenario.Arc.hook Scenario.Arc.A
                (Scenario.start Missing Scenario.Arc.throttled)
                (fun _ => {| status := 429; retry_after := Some "1";
                             body := ArcRaiders.NoNewsSection |}) 4)
    by (intros j _; split; reflexivity).
  exact (postToDiscord_gives_up Scenario.Arc.hook Scenario.Arc.A 3 _ _ H).
Defined.

(** X5.  When the webhook answers 429 to the first [k] posts of an
    article, [k] no more than [retries], and something else to the next,
    [postToDiscord] ends on that answer: it returns if the status is 2xx
    and throws "Discord webhook failed: <status>" otherwise, after
    [k + 1] posts and [k] waits. *)
Theorem postToDiscord_ends_on_first_answer `{BI : builtins} (WEBHOOK : string)
    (article : Article) (k retries : nat) (w : world ArcRaiders.page)
    (responses : nat -> response ArcRaiders.page) :
  (k <= retries)%nat ->
  ArcRaiders.rate_limited WEBHOOK article w responses k ->
  network w (calls w + k) (POST WEBHOOK (content article))
  = Responded (responses k) ->
  status (responses k) <> 429 ->
  exists w',
    ArcRaiders.postToDiscord WEBHOOK article retries w
    = ((if ok (responses k) then Returned tt
        else Thrown (Error ("Discord webhook failed: "
                            ++ Z_to_string (status (responses k))))), w')
    /\ state_file w' = state_file w
    /\ requests (trace w')
       = requests (trace w) ++ repeat (POST WEBHOOK (content article)) (S k)
    /\ delays (trace w')
       = delays (trace w)
         ++ map (fun j => ArcRaiders.retry_delay (responses j)) (seq 0 k).
Proof.
  apply ArcMore.postToDiscord_after_throttling.
Qed.

Lemma postToDiscord_ends_on_first_answer_witness :
  exists w',
    ArcRaiders.postToDiscord Scenario.Arc.hook Scenario.Arc.A 3
      (Scenario.start Missing Scenario.Arc.throttled_twice)
    = (Returned tt, w')
    /\ state_file w' = Missing
    /\ requests (trace w')
       = repeat (POST Scenario.Arc.hook (content Scenario.Arc.A)) 3
    /\ delays (trace w')
       = [Num (inject_Z 1 * 1000); Num (inject_Z 5 * 1000)].
Proof.
  pose (responses := fun j : nat =>
          match j with
          | O => {| status := 429; retry_after := Some "1";
                    body := ArcRaiders.NoNewsSection |}
          | S O => {| status := 429; retry_after := None;
                      body := ArcRaiders.NoNewsSection |}
          | _ => {| status := 204; retry_after := None;
                    body := ArcRaiders.NoNewsSection |}
          end).
  assert (Le : (2 <= 3)%nat) by lia.
  assert (H : ArcRaiders.rate_limited Scenario.Arc.hook Scenario.Arc.A
                (Scenario.start Missing Scenario.Arc.throttled_twice)
                responses 2).
  { intros j Lt. destruct j as [ | [ | j]];
      [ split; reflexivity | split; reflexivity | lia ]. }
  assert (N : network (Scenario.start Missing Scenario.Arc.throttled_twice)
                (calls (Scenario.start Missing Scenario.Arc.throttled_twice) + 2)
                (POST Scenario.Arc.hook (content Scenario.Arc.A))
              = Responded (responses 2%nat)) by reflexivity.
  assert (NL : status (responses 2%nat) <> 429) by discriminate.
  exact (postToDiscord_ends_on_first_answer Scenario.Arc.hook Scenario.Arc.A 2 3
           _ responses Le H N NL).
Defined.

(** ** The delivery loop *)

(** X6.  The delivery loop of the Arc Raiders scraper never throws,
    whatever the webhook answers: it returns after posting the articles
    in the order given, each between one and four times in a row (the
    post and at most three retries), and nothing else; it leaves the state
    file alone. *)
Theorem arc_deliver_isolates_failures `{BI : builtins} (WEBHOOK : string)
    (articles : list Article) (w : world ArcRaiders.page) :
  exists counts w',
    ArcRaiders.deliver WEBHOOK articles w = (Returned tt, w')
    /\ List.length counts = List.length articles
    /\ Forall (fun n => (1 <= n <= 4)%nat) counts
    /\ requests (trace w')
       = requests (trace w)
         ++ flat_map (fun an => repeat (POST WEBHOOK (content (fst an))) (snd an))
                     (combine articles counts)
    /\ state_file w' = state_file w.
Proof.
  destruct (ArcMore.deliver_posts WEBHOOK articles w)
    as (counts & w' & E & Len & F & R & Ef & _).
  exists counts, w'. auto 6.
Qed.

(** X7.  The delivery loop of the Nightreign scraper never throws,
    whatever the webhook answers: it returns after posting each article
    exactly once, in the order given, and nothing else; it leaves the
    state file alone.  No post is retried. *)
Theorem nightreign_deliver_posts_once (WEBHOOK : string)
    (articles : list Article) (w : world Nightreign.page) :
  exists w',
    Nightreign.deliver WEBHOOK articles w = (Returned tt, w')
    /\ requests (trace w')
       = requests (trace w) ++ map (fun a => POST WEBHOOK (content a)) articles
    /\ state_file w' = state_file w.
Proof.
  destruct (NightMore.night_deliver_posts WEBHOOK articles w)
    as (w' & E & Ef & _ & R).
  exists w'. auto.
Qed.

(** ** The write-back of [main] *)

(** X8.  When the Arc Raiders [getUnpostedArticles] returns articles,
    [main] ends without error whatever the webhook answered, having sent
    nothing but the posts of these articles, in order, each one to four
    times; it persists the greatest of their dates, which is not earlier
    than the date that was on record, together with the urls of the
    articles of that date.  The record does not depend on which posts
    succeeded. *)
Theorem arc_write_back `{BI : builtins} (WEBHOOK : string)
    (w w1 : world ArcRaiders.page) (newArticles : list Article) :
  ArcRaiders.getUnpostedArticles w = (Returned newArticles, w1) ->
  newArticles <> [] ->
  exists state l m counts w2,
    ArcRaiders.load_spec (state_file w) = Some state
    /\ ArcRaiders.lastPublished state = DateOf l
    /\ greatest m (map time newArticles)
    /\ l <= m
    /\ ArcRaiders.main WEBHOOK w = (Returned tt, w2)
    /\ state_file w2
       = ArcRaiders.record m
           (map url (filter (fun a => same_time (published a) (DateOf m))
                            newArticles))
    /\ List.length counts = List.length newArticles
    /\ Forall (fun n => (1 <= n <= 4)%nat) counts
    /\ requests (trace w2)
       = requests (trace w1)
         ++ flat_map (fun an => repeat (POST WEBHOOK (content (fst an))) (snd an))
                     (combine newArticles counts).
Proof.
  intros G N.
  destruct (ArcMore.getUnpostedArticles_nonempty_warm w newArticles w1 G N)
    as (state & found & L & _ & E).
  destruct (ArcRuns.main_record WEBHOOK w newArticles w1 G N)
    as (m & counts & w2 & Gm & _ & M & F & _ & Len & Fc & R).
  assert (V := ArcFacts.load_spec_in_range _ _ L).
  destruct (ArcRaiders.lastPublished state) as [ | l] eqn:El; [ easy | ].
  exists state, l, m, counts, w2.
  split; [ exact L | ]. split; [ exact El | ]. split; [ exact Gm | ].
  split.
  { destruct Gm as [I _]. apply in_map_iff in I. destruct I as (a & <- & I).
    rewrite E in I. now apply (ArcRuns.unposted_not_older state found l a). }
  auto 6.
Qed.

Lemma arc_write_back_witness :
  exists state l m counts w2,
    ArcRaiders.load_spec (state_file Scenario.Arc.behind) = Some state
    /\ ArcRaiders.lastPublished state = DateOf l
    /\ greatest m (map time [Scenario.Arc.V; Scenario.Arc.W])
    /\ l <= m
    /\ ArcRaiders.main Scenario.Arc.hook Scenario.Arc.behind = (Returned tt, w2)
    /\ state_file w2
       = ArcRaiders.record m
           (map url (filter (fun a => same_time (published a) (DateOf m))
                            [Scenario.Arc.V; Scenario.Arc.W]))
    /\ List.length counts = 2%nat
    /\ Forall (fun n => (1 <= n <= 4)%nat) counts
    /\ requests (trace w2)
       = requests (trace (snd (ArcRaiders.getUnpostedArticles Scenario.Arc.behind)))
         ++ flat_map (fun an => repeat (POST Scenario.Arc.hook (content (fst an)))
                                       (snd an))
                     (combine [Scenario.Arc.V; Scenario.Arc.W] counts).
Proof.
  assert (G : ArcRaiders.getUnpostedArticles Scenario.Arc.behind
              = (Returned [Scenario.Arc.V; Scenario.Arc.W],
                 snd (ArcRaiders.getUnpostedArticles Scenario.Arc.behind)))
    by reflexivity.
  assert (N : [Scenario.Arc.V; Scenario.Arc.W] <> []) by discriminate.
  exact (arc_write_back Scenario.Arc.hook Scenario.Arc.behind _ _ G N).
Defined.

(** X9.  When the Nightreign [getUnpostedArticles] returns articles,
    [main] ends without error whatever the webhook answered, having
    posted each of them once, in order; it persists the greatest of
    their dates, which is later than the date that was on record. *)
Theorem nightreign_write_back `{BI : builtins} (WEBHOOK : string)
    (w w1 : world Nightreign.page) (newArticles : list Article) :
  Nightreign.getUnpostedArticles w = (Returned newArticles, w1) ->
  newArticles <> [] ->
  exists l m w2,
    Nightreign.load_spec (state_file w) = Some (DateOf l)
    /\ greatest m (map time newArticles)
    /\ l < m
    /\ Nightreign.main WEBHOOK w = (Returned tt, w2)
    /\ state_file w2 = Nightreign.record m
    /\ requests (trace w2)
       = requests (trace w1)
         ++ map (fun a => POST WEBHOOK (content a)) newArticles.
Proof.
  intros G N.
  destruct (NightRuns.night_main_record WEBHOOK w newArticles w1 G N)
    as (l & m & w2 & L & Gm & Lt & _ & M & F & _ & R).
  exists l, m, w2. auto 7.
Qed.

Lemma nightreign_write_back_witness :
  exists l m w2,
    Nightreign.load_spec (state_file Scenario.Night.behind) = Some (DateOf l)
    /\ greatest m (map time [Scenario.Night.NP; Scenario.Night.NR; Scenario.Night.NQ])
    /\ l < m
    /\ Nightreign.main Scenario.Night.hook Scenario.Night.behind = (Returned tt, w2)
    /\ state_file w2 = Nightreign.record m
    /\ requests (trace w2)
       = requests (trace (snd (Nightreign.getUnpostedArticles Scenario.Night.behind)))
         ++ map (fun a => POST Scenario.Night.hook (content a))
                [Scenario.Night.NP; Scenario.Night.NR; Scenario.Night.NQ].
Proof.
  assert (G : Nightreign.getUnpostedArticles Scenario.Night.behind
              = (Returned [Scenario.Night.NP; Scenario.Night.NR; Scenario.Night.NQ],
                 snd (Nightreign.getUnpostedArticles Scenario.Night.behind)))
    by reflexivity.
  assert (N : [Scenario.Night.NP; Scenario.Night.NR; Scenario.Night.NQ] <> [])
    by discriminate.
  exact (nightreign_write_back Scenario.Night.hook Scenario.Night.behind _ _ G N).
Defined.

(** ** From one run to the next *)

(** X10.  Arc Raiders, from one run to the next.  When a run with a state
    on record finds in the listing an article later than the date on
    record, it ends without error and persists a state under which the
    next run, on the same listing, finds nothing to post. *)
Theorem arc_settles_after_advance `{BI : builtins} (WEBHOOK : string)
    (w w1 : world ArcRaiders.page) (state : ArcRaiders.State)
    (articles : list Article) :
  iso_round_trip BI ->
  ArcRaiders.load_spec (state_file w) = Some state ->
  ArcRaiders.getLatestNewsArticles w = (Returned articles, w1) ->
  (exists a, In a articles /\ ArcRaiders.newer state a) ->
  exists w2,
    ArcRaiders.main WEBHOOK w = (Returned tt, w2)
    /\ forall next next1 : world ArcRaiders.page,
         state_file next = state_file w2 ->
         ArcRaiders.getLatestNewsArticles next = (Returned articles, next1) ->
         ArcRaiders.getUnpostedArticles next = (Returned [], next1).
Proof.
  intros RT L S (a & Ia & Na).
  assert (G := ArcFacts.arc_getUnpostedArticles_warm w state articles w1 L S).
  assert (Iu : In a (ArcRaiders.unposted state articles)).
  { apply ArcFacts.arc_unposted_In. split; [ exact Ia | ].
    apply ArcFacts.selected_true. now left. }
  assert (N : ArcRaiders.unposted state articles <> []).
  { intros E. rewrite E in Iu. destruct Iu. }
  destruct (ArcRuns.main_record WEBHOOK w _ w1 G N)
    as (m & counts & w2 & Gm & Bm & M & F & _).
  exists w2. split; [ exact M | ].
  intros next next1 Ef Sn.
  destruct Na as (t & l & Et & El & Lt).
  assert (Lm : l < m).
  { destruct Gm as [_ Gm]. rewrite Forall_forall in Gm.
    assert (B : time a <= m) by (apply Gm, in_map, Iu).
    unfold time in B. rewrite Et in B. lia. }
  assert (Ln : ArcRaiders.load_spec (state_file next)
               = Some {| ArcRaiders.lastPublished := DateOf m;
                         ArcRaiders.postedUrls :=
                           map JStr (ArcRaiders.urls_at (DateOf m)
                                       (ArcRaiders.unposted state articles)) |}).
  { rewrite Ef, F. now apply ArcFacts.arc_load_spec_record. }
  rewrite (ArcFacts.arc_getUnpostedArticles_warm next _ articles next1 Ln Sn).
  now rewrite (ArcFacts.unposted_settles_after_advance state articles l m El Gm Lm).
Qed.

Lemma arc_settles_after_advance_witness :
  fst (Scenario.Arc.run Scenario.Arc.behind) = Returned tt
  /\ Scenario.Arc.attempted Scenario.Arc.behind_again = [].
Proof.
  assert (L : ArcRaiders.load_spec (state_file Scenario.Arc.behind)
              = Some {| ArcRaiders.lastPublished := DateOf Scenario.Jan05;
                        ArcRaiders.postedUrls := [JStr (url Scenario.Arc.U)] |})
    by reflexivity.
  assert (S : ArcRaiders.getLatestNewsArticles Scenario.Arc.behind
              = (Returned [Scenario.Arc.U; Scenario.Arc.V; Scenario.Arc.W],
                 snd (ArcRaiders.getLatestNewsArticles Scenario.Arc.behind)))
    by reflexivity.
  assert (Nw : exists a,
              In a [Scenario.Arc.U; Scenario.Arc.V; Scenario.Arc.W]
              /\ ArcRaiders.newer
                   {| ArcRaiders.lastPublished := DateOf Scenario.Jan05;
                      ArcRaiders.postedUrls := [JStr (url Scenario.Arc.U)] |} a).
  { exists Scenario.Arc.V. split; [ right; now left | ].
    exists Scenario.Jan06, Scenario.Jan05. repeat split. }
  destruct (arc_settles_after_advance Scenario.Arc.hook Scenario.Arc.behind _ _ _
              ScenarioFacts.round_trip L S Nw)
    as (w2 & M & next).
  assert (R : Scenario.Arc.run Scenario.Arc.behind = (Returned tt, w2))
    by exact M.
  unfold Scenario.Arc.attempted.
  rewrite R.
  rewrite (next Scenario.Arc.behind_again
             (snd (ArcRaiders.getLatestNewsArticles Scenario.Arc.behind_again))).
  - split; reflexivity.
  - unfold Scenario.Arc.behind_again. now rewrite R.
  - reflexivity.
Defined.

(** X11.  Nightreign, from one run to the next.  A run with a state on
    record that reads the listing ends without error, and under the state
    it leaves, the next run on the same listing finds nothing to post and
    logs no warning. *)
Theorem nightreign_settles `{BI : builtins} (WEBHOOK : string)
    (w w1 : world Nightreign.page) (lastSeen : Date) (articles : list Article) :
  iso_round_trip BI ->
  Nightreign.load_spec (state_file w) = Some lastSeen ->
  Nightreign.getLatestNewsArticles w = (Returned articles, w1) ->
  exists w2,
    Nightreign.main WEBHOOK w = (Returned tt, w2)
    /\ forall next next1 : world Nightreign.page,
         state_file next = state_file w2 ->
         Nightreign.getLatestNewsArticles next = (Returned articles, next1) ->
         Nightreign.getUnpostedArticles next = (Returned [], next1).
Proof.
  intros RT L S.
  destruct (NightMore.load_spec_dated _ _ L) as [l ->].
  assert (quiet_enough : forall (next next1 : world Nightreign.page) t,
    Nightreign.load_spec (state_file next) = Some (DateOf t) ->
    Nightreign.getLatestNewsArticles next = (Returned articles, next1) ->
    Nightreign.unposted (DateOf t) articles = [] ->
    Nightreign.getUnpostedArticles next = (Returned [], next1)).
  { intros next next1 t Ln Sn E.
    rewrite (NightMore.getUnpostedArticles_warns next t articles next1 Ln Sn), E.
    destruct articles as [ | a rest]; [ reflexivity | ].
    cbn [forallb].
    destruct (Date_gt (published a) (DateOf t)) eqn:Ga.
    - assert (I : In a (Nightreign.unposted (DateOf t) (a :: rest))).
      { apply NightreignFacts.night_unposted_In. split; [ now left | exact Ga ]. }
      rewrite E in I. destruct I.
    - now rewrite andb_false_r. }
  assert (G := NightMore.getUnpostedArticles_warns w l articles w1 L S).
  destruct (NightreignFacts.night_quiet_getLatestNewsArticles w) as [Qf _].
  rewrite S in Qf. cbn [snd] in Qf.
  destruct (Nightreign.unposted (DateOf l) articles) as [ | a new] eqn:E.
  - eexists. split.
    + apply NightreignFacts.night_main_nothing_new. exact G.
    + intros next next1 Ef Sn. apply (quiet_enough next next1 l); auto.
      rewrite Ef, <- L.
      destruct (_ && _); cbn [logged state_file]; now rewrite Qf.
  - destruct (NightRuns.night_main_record WEBHOOK w (a :: new) _ G)
      as (l' & m & w2 & _ & Gm & _ & Bm & M & F & _); [ discriminate | ].
    exists w2. split; [ exact M | ].
    intros next next1 Ef Sn. apply (quiet_enough next next1 m); auto.
    + rewrite Ef, F. now apply NightreignFacts.night_load_spec_record.
    + rewrite <- E in Gm.
      exact (NightreignFacts.unposted_settles (DateOf l) articles m Gm).
Qed.

Lemma nightreign_settles_witness :
  fst (Nightreign.main Scenario.Night.hook Scenario.Night.behind) = Returned tt
  /\ Nightreign.getUnpostedArticles Scenario.Night.behind_again
     = (Returned [],
        snd (Nightreign.getLatestNewsArticles Scenario.Night.behind_again)).
Proof.
  assert (L : Nightreign.load_spec (state_file Scenario.Night.behind)
              = Some (DateOf Scenario.Jan05)) by reflexivity.
  assert (S : Nightreign.getLatestNewsArticles Scenario.Night.behind
              = (Returned [Scenario.Night.NR; Scenario.Night.NQ; Scenario.Night.NP],
                 snd (Nightreign.getLatestNewsArticles Scenario.Night.behind)))
    by reflexivity.
  destruct (nightreign_settles Scenario.Night.hook Scenario.Night.behind _ _ _
              ScenarioFacts.round_trip L S)
    as (w2 & M & next).
  assert (R : Nightreign.main Scenario.Night.hook Scenario.Night.behind
              = (Returned tt, w2)) by exact M.
  rewrite R. split; [ reflexivity | ].
  apply next.
  - unfold Scenario.Night.behind_again.
    now rewrite R.
  - reflexivity.
Defined.

(** ** State *)

(** X12.  Arc Raiders: what [saveState] writes, [loadState] reads back.
    For a valid date and any urls, [saveState] returns, and [loadState]
    on the file it wrote returns that date and these urls, in order;
    [saveState] sends and logs nothing. *)
Theorem arc_state_round_trip `{BI : builtins} (t : Z) (urls : list string)
    (w : world ArcRaiders.page) :
  iso_round_trip BI ->
  Z.abs t <= maxTime ->
  exists w',
    ArcRaiders.saveState (DateOf t) urls w = (Returned tt, w')
    /\ trace w' = trace w
    /\ ArcRaiders.loadState w'
       = (Returned (Some {| ArcRaiders.lastPublished := DateOf t;
                            ArcRaiders.postedUrls := map JStr urls |}), w').
Proof.
  intros RT B. rewrite ArcFacts.saveState_valid.
  eexists. split; [ reflexivity | ]. split; [ reflexivity | ].
  rewrite ArcFacts.loadState_spec. cbn [set_state_file state_file].
  now rewrite ArcFacts.arc_load_spec_record.
Qed.

Lemma arc_state_round_trip_witness :
  exists w',
    ArcRaiders.saveState (DateOf Scenario.Jan10) [url Scenario.Arc.A]
      Scenario.Arc.first_run_offline
    = (Returned tt, w')
    /\ trace w' = trace Scenario.Arc.first_run_offline
    /\ ArcRaiders.loadState w' = (Returned (Some Scenario.Arc.posted_A), w').
Proof.
  assert (B : Z.abs Scenario.Jan10 <= maxTime) by (vm_compute; discriminate).
  exact (arc_state_round_trip Scenario.Jan10 [url Scenario.Arc.A]
           Scenario.Arc.first_run_offline ScenarioFacts.round_trip B).
Defined.

(** X13.  Nightreign: what [saveLastPublished] writes,
    [loadLastPublished] reads back.  For a valid date,
    [saveLastPublished] returns, and [loadLastPublished] on the file it
    wrote returns that date; [saveLastPublished] sends and logs nothing. *)
Theorem nightreign_state_round_trip `{BI : builtins} (t : Z)
    (w : world Nightreign.page) :
  iso_round_trip BI ->
  Z.abs t <= maxTime ->
  exists w',
    Nightreign.saveLastPublished (DateOf t) w = (Returned tt, w')
    /\ trace w' = trace w
    /\ Nightreign.loadLastPublished w' = (Returned (Some (DateOf t)), w').
Proof.
  intros RT B. rewrite NightreignFacts.saveLastPublished_valid.
  eexists. split; [ reflexivity | ]. split; [ reflexivity | ].
  rewrite NightreignFacts.loadLastPublished_spec. cbn [set_state_file state_file].
  now rewrite NightreignFacts.night_load_spec_record.
Qed.

Lemma nightreign_state_round_trip_witness :
  exists w',
    Nightreign.saveLastPublished (DateOf Scenario.Jan10) Scenario.Night.misdated
    = (Returned tt, w')
    /\ trace w' = trace Scenario.Night.misdated
    /\ Nightreign.loadLastPublished w'
       = (Returned (Some (DateOf Scenario.Jan10)), w').
Proof.
  assert (B : Z.abs Scenario.Jan10 <= maxTime) by (vm_compute; discriminate).
  exact (nightreign_state_round_trip Scenario.Jan10 Scenario.Night.misdated
           ScenarioFacts.round_trip B).
Defined.

(** ** Scrape *)

(** X14.  Arc Raiders: every article [getLatestNewsArticles] returns has
    a title and a url that are not empty and a valid date, and reading
    the listing leaves the state file alone; the scrape loop pushes at
    most one article per card and performs no effect. *)
Theorem arc_scraped_articles_complete `{BI : builtins} :
  (forall (w w' : world ArcRaiders.page) articles,
      ArcRaiders.getLatestNewsArticles w = (Returned articles, w') ->
      Forall ArcRaiders.scraped articles /\ state_file w' = state_file w)
  /\ (forall cards (w w' : world ArcRaiders.page) articles,
         ArcRaiders.scrape_cards [] cards w = (Returned articles, w') ->
         (List.length articles <= List.length cards)%nat /\ w' = w).
Proof.
  split.
  - intros w w' articles S. split.
    + exact (ArcRuns.getLatestNewsArticles_scraped w articles w' S).
    + destruct (ArcFacts.arc_quiet_getLatestNewsArticles w) as [Qf _].
      now rewrite S in Qf.
  - intros cards w w' articles S. split.
    + now destruct (ArcMore.scrape_cards_scraped cards [] w articles w'
                      (Forall_nil _) S).
    + assert (P := ArcFacts.pure_scrape_cards cards [] w).
      now rewrite S in P.
Qed.

Lemma arc_scraped_articles_complete_witness :
  Forall ArcRaiders.scraped [Scenario.Arc.A; Scenario.Arc.B]
  /\ state_file (snd (ArcRaiders.getLatestNewsArticles Scenario.Arc.posted_then_B))
     = state_file Scenario.Arc.posted_then_B.
Proof.
  assert (S : ArcRaiders.getLatestNewsArticles Scenario.Arc.posted_then_B
              = (Returned [Scenario.Arc.A; Scenario.Arc.B],
                 snd (ArcRaiders.getLatestNewsArticles Scenario.Arc.posted_then_B)))
    by reflexivity.
  exact (proj1 arc_scraped_articles_complete Scenario.Arc.posted_then_B _ _ S).
Defined.

(** X15.  Arc Raiders: one card whose date does not parse aborts the
    whole run.  When the first request for the listing is answered 2xx
    with a grid in which, after cards that scrape, comes a card with an
    [href] that resolves and a date text that is no date, [main] throws
    "Invalid date: <text>" after that single request: the articles of the
    cards before it are dropped, nothing is posted and the state file is
    not touched. *)
Theorem arc_bad_date_aborts `{BI : builtins} (WEBHOOK : string)
    (w w1 : world ArcRaiders.page) (res : response ArcRaiders.page)
    (before after : list ArcRaiders.card) (c : ArcRaiders.card)
    (href u : string) (articles1 : list Article) :
  network w (calls w) (GET ArcRaiders.NEWS_URL) = Responded res ->
  ok res = true ->
  body res = ArcRaiders.NewsSection (before ++ c :: after) ->
  ArcRaiders.scrape_cards [] before (answered (GET ArcRaiders.NEWS_URL) w)
  = (Returned articles1, w1) ->
  ArcRaiders.card_href c = Some href ->
  href <> "" ->
  URL_href href ArcRaiders.BASE_URL = Some u ->
  new_Date (Date_parse (ArcRaiders.card_date c ++ " UTC")) = InvalidDate ->
  ArcRaiders.main WEBHOOK w
  = (Thrown (Error ("Invalid date: " ++ ArcRaiders.card_date c)),
     answered (GET ArcRaiders.NEWS_URL) w).
Proof.
  intros N K Bd S H Ne U D.
  apply ArcFacts.arc_main_thrown, ArcFacts.arc_getUnpostedArticles_thrown.
  unfold ArcRaiders.getLatestNewsArticles, ArcRaiders.fetchWithRetry.
  unfold bind at 1.
  rewrite (ArcMore.fetch_attempts_ok_step ArcRaiders.NEWS_URL 3 1 2 w res N K).
  rewrite Bd.
  exact (ArcMore.scrape_cards_bad_date before c after href u [] _ articles1 w1
           S H Ne U D).
Qed.

Lemma arc_bad_date_aborts_witness :
  ArcRaiders.main Scenario.Arc.hook Scenario.Arc.misdated
  = (Thrown (Error "Invalid date: soon"),
     answered (GET ArcRaiders.NEWS_URL) Scenario.Arc.misdated).
Proof.
  pose (w0 := answered (GET ArcRaiders.NEWS_URL) Scenario.Arc.misdated).
  pose (res := {| status := 200; retry_after := None;
                  body := ArcRaiders.NewsSection
                            [Scenario.Arc.card_A; Scenario.Arc.card_X;
                             Scenario.Arc.card_B] |}).
  assert (N : network Scenario.Arc.misdated (calls Scenario.Arc.misdated)
                (GET ArcRaiders.NEWS_URL) = Responded res) by reflexivity.
  assert (K : ok res = true) by reflexivity.
  assert (Bd : body res
               = ArcRaiders.NewsSection
                   ([Scenario.Arc.card_A] ++ Scenario.Arc.card_X
                    :: [Scenario.Arc.card_B])) by reflexivity.
  assert (Sc : ArcRaiders.scrape_cards [] [Scenario.Arc.card_A] w0
               = (Returned [Scenario.Arc.A], w0)) by reflexivity.
  assert (H : ArcRaiders.card_href Scenario.Arc.card_X = Some "/x") by reflexivity.
  assert (Ne : "/x" <> "") by discriminate.
  assert (U : URL_href "/x" ArcRaiders.BASE_URL = Some "https://arcraiders.com/x")
    by reflexivity.
  assert (D : new_Date (Date_parse (ArcRaiders.card_date Scenario.Arc.card_X
                                    ++ " UTC")) = InvalidDate) by reflexivity.
  exact (arc_bad_date_aborts Scenario.Arc.hook Scenario.Arc.misdated w0 res
           [Scenario.Arc.card_A] [Scenario.Arc.card_B] Scenario.Arc.card_X
           "/x" "https://arcraiders.com/x" [Scenario.Arc.A] N K Bd Sc H Ne U D).
Defined.

(** X16.  A page without the expected structure aborts the run.  When
    the first request for the listing is answered 2xx with a page that
    lacks the news section, [main] of either scraper throws "News section
    not found" after that single request; so does [main] of the Nightreign
    scraper, with "Cards list not found", when the section has no cards
    list.  Nothing is posted and the state file is not touched. *)
Theorem page_structure_errors `{BI : builtins} (WEBHOOK : string) :
  (forall (w : world ArcRaiders.page) res,
      network w (calls w) (GET ArcRaiders.NEWS_URL) = Responded res ->
      ok res = true ->
      body res = ArcRaiders.NoNewsSection ->
      ArcRaiders.main WEBHOOK w
      = (Thrown (Error "News section not found"),
         answered (GET ArcRaiders.NEWS_URL) w))
  /\ (forall (w : world Nightreign.page) res,
         network w (calls w) (GET Nightreign.URL) = Responded res ->
         ok res = true ->
         body res = Nightreign.NoNewsSection ->
         Nightreign.main WEBHOOK w
         = (Thrown (Error "News section not found"),
            answered (GET Nightreign.URL) w))
  /\ (forall (w : world Nightreign.page) res,
         network w (calls w) (GET Nightreign.URL) = Responded res ->
         ok res = true ->
         body res = Nightreign.NoCardsList ->
         Nightreign.main WEBHOOK w
         = (Thrown (Error "Cards list not found"),
            answered (GET Nightreign.URL) w)).
Proof.
  split; [ | split ].
  - intros w res N K Bd.
    apply ArcFacts.arc_main_thrown, ArcFacts.arc_getUnpostedArticles_thrown.
    unfold ArcRaiders.getLatestNewsArticles, ArcRaiders.fetchWithRetry.
    unfold bind at 1.
    rewrite (ArcMore.fetch_attempts_ok_step ArcRaiders.NEWS_URL 3 1 2 w res N K).
    now rewrite Bd.
  - intros w res N K Bd.
    apply NightreignFacts.night_main_thrown,
          NightreignFacts.night_getUnpostedArticles_thrown.
    unfold Nightreign.getLatestNewsArticles, bind, fetch.
    now rewrite N, K, Bd.
  - intros w res N K Bd.
    apply NightreignFacts.night_main_thrown,
          NightreignFacts.night_getUnpostedArticles_thrown.
    unfold Nightreign.getLatestNewsArticles, bind, fetch.
    now rewrite N, K, Bd.
Qed.

Lemma page_structure_errors_witness :
  ArcRaiders.main Scenario.Arc.hook Scenario.Arc.restyled
  = (Thrown (Error "News section not found"),
     answered (GET ArcRaiders.NEWS_URL) Scenario.Arc.restyled)
  /\ Nightreign.main Scenario.Night.hook Scenario.Night.restyled
     = (Thrown (Error "News section not found"),
        answered (GET Nightreign.URL) Scenario.Night.restyled).
Proof.
  split.
  - apply (proj1 (page_structure_errors Scenario.Arc.hook)
             Scenario.Arc.restyled
             {| status := 200; retry_after := None;
                body := ArcRaiders.NoNewsSection |});
      reflexivity.
  - apply (proj1 (proj2 (page_structure_errors Scenario.Night.hook))
             Scenario.Night.restyled
             {| status := 200; retry_after := None;
                body := Nightreign.NoNewsSection |});
      reflexivity.
Defined.

(** ** Delta logic (Nightreign) *)

(** X17.  Nightreign: with a date on record, [getUnpostedArticles]
    returns the articles later than it, oldest first, and logs the
    warning about older posts exactly when the listing has three articles
    and each of them has a date later than the date on record; otherwise
    it logs nothing.  An article without a valid date counts as not
    later. *)
Theorem nightreign_warning `{BI : builtins} (w w1 : world Nightreign.page)
    (l : Z) (articles : list Article) :
  Nightreign.load_spec (state_file w) = Some (DateOf l) ->
  Nightreign.getLatestNewsArticles w = (Returned articles, w1) ->
  exists w2,
    Nightreign.getUnpostedArticles w
    = (Returned (Nightreign.unposted (DateOf l) articles), w2)
    /\ (List.length articles = 3%nat
        /\ Forall (fun a => exists t, published a = DateOf t /\ l < t) articles ->
        w2 = logged OlderPostsMayBeMissed w1)
    /\ (~ (List.length articles = 3%nat
           /\ Forall (fun a => exists t, published a = DateOf t /\ l < t) articles) ->
        w2 = w1).
Proof.
  intros L S.
  rewrite (NightMore.getUnpostedArticles_warns w l articles w1 L S).
  eexists. split; [ reflexivity | ].
  assert (A : forallb (fun a => Date_gt (published a) (DateOf l)) articles = true
              <-> Forall (fun a => exists t, published a = DateOf t /\ l < t)
                         articles).
  { rewrite forallb_forall, Forall_forall.
    split; intros H a I; specialize (H a I).
    - apply JSFacts.Date_gt_true in H. destruct H as (t & l' & E & [= <-] & Lt).
      now exists t.
    - destruct H as (t & E & Lt). apply JSFacts.Date_gt_true.
      now exists t, l. }
  destruct (Nat.eqb_spec (List.length articles) 3) as [E3 | N3]; cbn [andb].
  - destruct (forallb _ articles).
    + split; [ reflexivity | ]. intros H. exfalso. apply H.
      split; [ exact E3 | now apply A ].
    + split; [ | reflexivity ]. intros [_ H]. apply A in H. discriminate.
  - split; [ | reflexivity ]. intros [H _]. contradiction.
Qed.

Lemma nightreign_warning_witness :
  exists w2,
    Nightreign.getUnpostedArticles Scenario.Night.behind
    = (Returned [Scenario.Night.NP; Scenario.Night.NR; Scenario.Night.NQ], w2)
    /\ w2 = logged OlderPostsMayBeMissed
              (snd (Nightreign.getLatestNewsArticles Scenario.Night.behind)).
Proof.
  assert (L : Nightreign.load_spec (state_file Scenario.Night.behind)
              = Some (DateOf Scenario.Jan05)) by reflexivity.
  assert (S : Nightreign.getLatestNewsArticles Scenario.Night.behind
              = (Returned [Scenario.Night.NR; Scenario.Night.NQ; Scenario.Night.NP],
                 snd (Nightreign.getLatestNewsArticles Scenario.Night.behind)))
    by reflexivity.
  destruct (nightreign_warning Scenario.Night.behind _ Scenario.Jan05 _ L S)
    as (w2 & G & Yes & _).
  exists w2. split; [ exact G | ].
  apply Yes. split; [ reflexivity | ].
  repeat constructor.
  - exists Scenario.Jan10. split; [ reflexivity | reflexivity ].
  - exists Scenario.Jan10. split; [ reflexivity | reflexivity ].
  - exists Scenario.Jan06. split; [ reflexivity | reflexivity ].
Defined.

(** X18.  Nightreign: the delta rule.  For any date on record and any
    list, the result of [unposted] holds an article of the list exactly
    when the article has a valid date strictly later than the date on
    record; it is a rearrangement of these articles; an article published
    at the very date on record is never returned, whatever its url, and
    neither is an article without a valid date. *)
Theorem nightreign_delta_rule (lastSeen : Date) (articles : list Article) :
  (forall a,
      In a (Nightreign.unposted lastSeen articles)
      <-> In a articles
          /\ exists t l, published a = DateOf t /\ lastSeen = DateOf l /\ l < t)
  /\ Permutation (Nightreign.unposted lastSeen articles)
                 (filter (fun a => Date_gt (published a) lastSeen) articles)
  /\ (forall a, published a = lastSeen ->
                ~ In a (Nightreign.unposted lastSeen articles))
  /\ (forall a, published a = InvalidDate ->
                ~ In a (Nightreign.unposted lastSeen articles)).
Proof.
  assert (M : forall a,
    In a (Nightreign.unposted lastSeen articles)
    <-> In a articles
        /\ exists t l, published a = DateOf t /\ lastSeen = DateOf l /\ l < t).
  { intros a. now rewrite NightreignFacts.night_unposted_In, JSFacts.Date_gt_true. }
  split; [ exact M | ]. split; [ apply JSFacts.sort_perm | ]. split.
  - intros a E I. apply M in I. destruct I as (_ & t & l & Ea & El & Lt).
    rewrite E, El in Ea. injection Ea as <-. lia.
  - intros a E I. apply M in I. destruct I as (_ & t & l & Ea & _).
    rewrite E in Ea. discriminate.
Qed.

(** X19.  Nightreign: a card whose [datetime] is no date is scraped all
    the same, with an invalid date, and on a cold start one such article
    in the listing makes the run throw [RangeError] "Invalid time value":
    the newest date is then [NaN], nothing is persisted and nothing is
    posted. *)
Theorem nightreign_undated_card `{BI : builtins} (WEBHOOK : string) :
  (forall articles (c : Nightreign.card) u d,
      Nightreign.card_title c <> "" ->
      Nightreign.card_url c = Some u -> u <> "" ->
      Nightreign.card_datetime c = Some d -> d <> "" ->
      Nightreign.scrape_card articles c
      = articles ++ [ {| title := Nightreign.card_title c; url := u;
                         published := new_Date (Date_parse d) |} ])
  /\ (forall (w w1 : world Nightreign.page) articles a,
         Nightreign.load_spec (state_file w) = None ->
         Nightreign.getLatestNewsArticles w = (Returned articles, w1) ->
         In a articles ->
         published a = InvalidDate ->
         Nightreign.main WEBHOOK w
         = (Thrown (RangeError "Invalid time value"), w1)
         /\ state_file w1 = state_file w
         /\ requests (trace w1) = requests (trace w) ++ [GET Nightreign.URL]).
Proof.
  split.
  - intros articles c u d T U Nu D Nd. unfold Nightreign.scrape_card.
    rewrite U, D.
    apply String.eqb_neq in T, Nu, Nd. now rewrite T, Nu, Nd.
  - intros w w1 articles a L S I E.
    assert (G := NightreignFacts.night_getUnpostedArticles_cold w articles w1 L S).
    rewrite (NightMore.max_published_invalid articles a I E) in G.
    split; [ now apply NightreignFacts.night_main_thrown | ].
    destruct (NightreignFacts.night_quiet_getLatestNewsArticles w) as [Qf _].
    assert (R := NightreignFacts.getLatestNewsArticles_requests w).
    rewrite S in Qf, R. auto.
Qed.

Lemma nightreign_undated_card_witness :
  Nightreign.main Scenario.Night.hook Scenario.Night.misdated
  = (Thrown (RangeError "Invalid time value"),
     snd (Nightreign.getLatestNewsArticles Scenario.Night.misdated))
  /\ state_file (snd (Nightreign.getLatestNewsArticles Scenario.Night.misdated))
     = Missing
  /\ requests (trace (snd (Nightreign.getLatestNewsArticles Scenario.Night.misdated)))
     = [GET Nightreign.URL].
Proof.
  pose (X := {| title := "X"; url := "https://en.bandainamcoent.eu/X";
                published := InvalidDate |}).
  assert (L : Nightreign.load_spec (state_file Scenario.Night.misdated) = None)
    by reflexivity.
  assert (S : Nightreign.getLatestNewsArticles Scenario.Night.misdated
              = (Returned [Scenario.Night.N; X],
                 snd (Nightreign.getLatestNewsArticles Scenario.Night.misdated)))
    by reflexivity.
  assert (I : In X [Scenario.Night.N; X]) by (right; now left).
  assert (E : published X = InvalidDate) by reflexivity.
  exact (proj2 (nightreign_undated_card Scenario.Night.hook)
           Scenario.Night.misdated _ _ X L S I E).
Defined.

(** ** What a run can do *)

(** X20.  Arc Raiders: the footprint of a run.  On any state file and
    any network, whether [main] returns or throws, it sends between one
    and three requests for the news page and after them only posts of
    articles to the webhook; and the state file is then either as it
    was, or a record of a date within range and a list of urls, as
    [saveState] writes it. *)
Theorem arc_main_footprint `{BI : builtins} (WEBHOOK : string)
    (w : world ArcRaiders.page) :
  exists n sent,
    (1 <= n <= 3)%nat
    /\ requests (trace (snd (ArcRaiders.main WEBHOOK w)))
       = requests (trace w) ++ repeat (GET ArcRaiders.NEWS_URL) n ++ sent
    /\ Forall (fun r => exists a, r = POST WEBHOOK (content a)) sent
    /\ (state_file (snd (ArcRaiders.main WEBHOOK w)) = state_file w
        \/ exists t urls,
             Z.abs t <= maxTime
             /\ state_file (snd (ArcRaiders.main WEBHOOK w))
                = ArcRaiders.record t urls).
Proof.
  destruct (ArcRuns.getUnpostedArticles_effects w)
    as (n & B & R & _ & [Ef | (t & Bt & _ & E)]).
  - destruct (ArcRaiders.getUnpostedArticles w) as [[new | e] w1] eqn:G;
      cbn [snd] in R, Ef.
    + destruct new as [ | a new].
      * rewrite (ArcFacts.arc_main_nothing_new WEBHOOK w w1 G).
        exists n, []. rewrite app_nil_r. cbn [snd]. auto.
      * destruct (ArcRuns.main_record WEBHOOK w (a :: new) w1 G)
          as (m & counts & w2 & _ & Bm & M & F & _ & _ & _ & Rq);
          [ discriminate | ].
        rewrite M. cbn [snd].
        exists n, (ArcRaiders.posts WEBHOOK (combine (a :: new) counts)).
        split; [ exact B | ].
        split; [ now rewrite Rq, R, <- app_assoc | ].
        split; [ | right; eexists m, _; split; [ exact Bm | exact F ] ].
        apply Forall_forall. intros r I. apply in_flat_map in I.
        destruct I as ([a' k] & _ & I). apply repeat_spec in I. now exists a'.
    + rewrite (ArcFacts.arc_main_thrown WEBHOOK w e w1 G).
      exists n, []. rewrite app_nil_r. cbn [snd]. auto.
  - rewrite E in R. cbn [snd] in R.
    rewrite (ArcFacts.arc_main_nothing_new WEBHOOK w _ E).
    exists n, []. rewrite app_nil_r. cbn [snd set_state_file state_file].
    split; [ exact B | ]. split; [ exact R | ]. split; [ constructor | ].
    right. now exists t, [].
Qed.

(** X21.  Nightreign: the footprint of a run.  On any state file and any
    network, whether [main] returns or throws, it sends one request for
    the news page and after it only posts of articles to the webhook; and
    the state file is then either as it was, or a record of a date within
    range, as [saveLastPublished] writes it. *)
Theorem nightreign_main_footprint `{BI : builtins} (WEBHOOK : string)
    (w : world Nightreign.page) :
  exists sent,
    requests (trace (snd (Nightreign.main WEBHOOK w)))
    = requests (trace w) ++ GET Nightreign.URL :: sent
    /\ Forall (fun r => exists a, r = POST WEBHOOK (content a)) sent
    /\ (state_file (snd (Nightreign.main WEBHOOK w)) = state_file w
        \/ exists t,
             Z.abs t <= maxTime
             /\ state_file (snd (Nightreign.main WEBHOOK w))
                = Nightreign.record t).
Proof.
  destruct (NightRuns.night_getUnpostedArticles_effects w)
    as (R & _ & [Ef | (t & Bt & _ & E)]).
  - destruct (Nightreign.getUnpostedArticles w) as [[new | e] w1] eqn:G;
      cbn [snd] in R, Ef.
    + destruct new as [ | a new].
      * rewrite (NightreignFacts.night_main_nothing_new WEBHOOK w w1 G).
        exists []. cbn [snd]. auto.
      * destruct (NightRuns.night_main_record WEBHOOK w (a :: new) w1 G)
          as (l & m & w2 & _ & _ & _ & Bm & M & F & _ & Rq);
          [ discriminate | ].
        rewrite M. cbn [snd].
        exists (map (fun a => POST WEBHOOK (content a)) (a :: new)).
        split; [ now rewrite Rq, R, <- app_assoc | ].
        split; [ | right; now exists m ].
        apply Forall_forall. intros r I. apply in_map_iff in I.
        destruct I as (a' & <- & _). now exists a'.
    + rewrite (NightreignFacts.night_main_thrown WEBHOOK w e w1 G).
      exists []. cbn [snd]. auto.
  - rewrite E in R. cbn [snd] in R.
    rewrite (NightreignFacts.night_main_nothing_new WEBHOOK w _ E).
    exists []. cbn [snd set_state_file state_file].
    split; [ exact R | ]. split; [ constructor | ].
    right. now exists t.
Qed.

(** X22.  Nightreign: every article [getLatestNewsArticles] returns has
    a title and a url that are not empty and a date that is invalid or
    within range; it is returned after exactly one request for the news
    page and no other effect; the scrape loop pushes at most one article
    per card. *)
Theorem nightreign_scraped_articles `{BI : builtins} :
  (forall (w w1 : world Nightreign.page) articles,
      Nightreign.getLatestNewsArticles w = (Returned articles, w1) ->
      Forall Nightreign.listed articles
      /\ w1 = answered (GET Nightreign.URL) w)
  /\ (forall cards,
         (List.length (fold_left Nightreign.scrape_card cards [])
          <= List.length cards)%nat).
Proof.
  split.
  - intros w w1 articles S. split.
    + exact (NightRuns.getLatestNewsArticles_listed w articles w1 S).
    + revert S. unfold Nightreign.getLatestNewsArticles, bind, fetch.
      destruct (network w (calls w) (GET Nightreign.URL)) as [m | res];
        [ discriminate | ].
      destruct (negb (ok res)); [ discriminate | ].
      destruct (body res); try discriminate.
      now intros [= _ <-].
  - intros cards.
    now destruct (NightMore.scrape_cards_listed cards [] (Forall_nil _)).
Qed.

Lemma nightreign_scraped_articles_witness :
  Forall Nightreign.listed
    [Scenario.Night.NR; Scenario.Night.NQ; Scenario.Night.NP]
  /\ snd (Nightreign.getLatestNewsArticles Scenario.Night.behind)
     = answered (GET Nightreign.URL) Scenario.Night.behind.
Proof.
  assert (S : Nightreign.getLatestNewsArticles Scenario.Night.behind
              = (Returned [Scenario.Night.NR; Scenario.Night.NQ; Scenario.Night.NP],
                 snd (Nightreign.getLatestNewsArticles Scenario.Night.behind)))
    by reflexivity.
  exact (proj1 nightreign_scraped_articles Scenario.Night.behind _ _ S).
Defined.

(** X23.  Arc Raiders: a network error on a post is not retried.  When
    the request to the webhook is rejected, [postToDiscord] throws the
    error after that one request, whatever [retries] is, without
    waiting; the delivery loop logs it with the title of the article and
    goes on with the articles that follow. *)
Theorem arc_post_network_error `{BI : builtins} (WEBHOOK : string)
    (article : Article) (rest : list Article) (w : world ArcRaiders.page)
    (message : string) :
  network w (calls w) (POST WEBHOOK (content article)) = Rejected message ->
  (forall retries,
      ArcRaiders.postToDiscord WEBHOOK article retries w
      = (Thrown (TypeError message),
         answered (POST WEBHOOK (content article)) w))
  /\ ArcRaiders.deliver WEBHOOK (article :: rest) w
     = ArcRaiders.deliver WEBHOOK rest
         (logged (FailedToPost (title article) (TypeError message))
                 (answered (POST WEBHOOK (content article)) w)).
Proof.
  intros N. split.
  - intros retries. now apply ArcMore.postToDiscord_network_error.
  - unfold ArcRaiders.deliver. cbn [for_of]. unfold bind at 1, try_catch.
    now rewrite (ArcMore.postToDiscord_network_error WEBHOOK article 3 w message N).
Qed.

Lemma arc_post_network_error_witness :
  ArcRaiders.deliver Scenario.Arc.hook [Scenario.Arc.A; Scenario.Arc.B]
    Scenario.Arc.first_run_offline
  = ArcRaiders.deliver Scenario.Arc.hook [Scenario.Arc.B]
      (logged (FailedToPost "A" (TypeError "fetch failed"))
              (answered (POST Scenario.Arc.hook (content Scenario.Arc.A))
                        Scenario.Arc.first_run_offline)).
Proof.
  assert (N : network Scenario.Arc.first_run_offline
                (calls Scenario.Arc.first_run_offline)
                (POST Scenario.Arc.hook (content Scenario.Arc.A))
              = Rejected "fetch failed") by reflexivity.
  exact (proj2 (arc_post_network_error Scenario.Arc.hook Scenario.Arc.A
                  [Scenario.Arc.B] Scenario.Arc.first_run_offline
                  "fetch failed" N)).
Defined.
